(** * uefi_bridge.c: the libntfs-3g interface of the UEFI NTFS driver

    A shallow embedding of the bridge between the UEFI file protocol and
    the ntfs-3g library: the errno translation, the per-volume lookup
    list of open file instances, and the open / create / close / read /
    delete / move / set-info / flush operations built on it, followed
    by the rest of the bridge: setting errno, the logger, mounting, the
    file information and writing.

    The ntfs-3g library itself, the firmware pool allocator, the log
    levels, the platform's <errno.h> and the values of the status names
    are not part of the bridge: they are taken as parameters
    ([errno_h], [efi_status_h], [libntfs], [libntfs_more], [log_h]). *)

From Stdlib Require Import ZArith String Ascii List Bool Lia.
From stdpp Require Import base option list gmap.

Open Scope Z_scope.

(** ** Protocol status codes (EFI_STATUS) *)

(** The status names of the bridge. A status that the bridge returns is
    one of these names; a status that it receives (NtfsSetErrno) is any
    value of the UINTN, see [status_code]. *)
Inductive EFI_STATUS : Set :=
| EFI_SUCCESS
| EFI_LOAD_ERROR
| EFI_INVALID_PARAMETER
| EFI_UNSUPPORTED
| EFI_BAD_BUFFER_SIZE
| EFI_BUFFER_TOO_SMALL
| EFI_NOT_READY
| EFI_DEVICE_ERROR
| EFI_WRITE_PROTECTED
| EFI_OUT_OF_RESOURCES
| EFI_VOLUME_CORRUPTED
| EFI_VOLUME_FULL
| EFI_NO_MEDIA
| EFI_MEDIA_CHANGED
| EFI_NOT_FOUND
| EFI_ACCESS_DENIED
| EFI_NO_RESPONSE
| EFI_NO_MAPPING
| EFI_TIMEOUT
| EFI_NOT_STARTED
| EFI_ALREADY_STARTED
| EFI_ABORTED
| EFI_ICMP_ERROR
| EFI_TFTP_ERROR
| EFI_PROTOCOL_ERROR
| EFI_INCOMPATIBLE_VERSION
| EFI_SECURITY_VIOLATION
| EFI_CRC_ERROR
| EFI_END_OF_MEDIA
| EFI_END_OF_FILE
| EFI_INVALID_LANGUAGE
| EFI_COMPROMISED_DATA
| EFI_WARN_DELETE_FAILURE.

#[global] Instance EFI_STATUS_eq_dec : EqDecision EFI_STATUS.
Proof. solve_decision. Defined.

(** EFI_ERROR(): the error codes have the high bit set, success and the
    warnings do not. *)
Definition EFI_ERROR (s : EFI_STATUS) : bool :=
  match s with
  | EFI_SUCCESS | EFI_WARN_DELETE_FAILURE => false
  | _ => true
  end.

(** ** errno

    The values of the errno names come from the platform's <errno.h>;
    the translation only uses them as case labels. *)

Class errno_h : Set := {
  ECANCELED : Z; EACCES : Z; EEXIST : Z; ETXTBSY : Z;
  EADDRINUSE : Z; EALREADY : Z; EINPROGRESS : Z; EISCONN : Z;
  EMSGSIZE : Z; E2BIG : Z; EOVERFLOW : Z; ERANGE : Z;
  ENODEV : Z; ENOEXEC : Z; ESPIPE : Z; EFBIG : Z;
  EBADF : Z; EDOM : Z; EFAULT : Z; EIDRM : Z; EILSEQ : Z; EINVAL : Z;
  ENAMETOOLONG : Z; EPROTOTYPE : Z;
  EMFILE : Z; EMLINK : Z; ENFILE : Z; ENOBUFS : Z; ENOLCK : Z;
  ENOLINK : Z; ENOMEM : Z; ENOSR : Z;
  EBADMSG : Z; EISDIR : Z; EIO : Z; ENOMSG : Z; ENOSTR : Z; EPROTO : Z;
  EBUSY : Z; ENODATA : Z;
  ECHILD : Z; ENOENT : Z; ENXIO : Z;
  EAGAIN : Z; EINTR : Z;
  ESRCH : Z;
  ETIME : Z; ETIMEDOUT : Z;
  EAFNOSUPPORT : Z; ENOPROTOOPT : Z; ENOSYS : Z; ENOTSUP : Z;
  ENOMEDIUM : Z;
  ELOOP : Z; ENOTDIR : Z; ENOTEMPTY : Z; EXDEV : Z;
  ENOSPC : Z;
  EROFS : Z;
  EPERM : Z
}.

(** The values glibc gives the names (asm-generic/errno*.h). *)
Definition errno_glibc : errno_h := {|
  ECANCELED := 125; EACCES := 13; EEXIST := 17; ETXTBSY := 26;
  EADDRINUSE := 98; EALREADY := 114; EINPROGRESS := 115; EISCONN := 106;
  EMSGSIZE := 90; E2BIG := 7; EOVERFLOW := 75; ERANGE := 34;
  ENODEV := 19; ENOEXEC := 8; ESPIPE := 29; EFBIG := 27;
  EBADF := 9; EDOM := 33; EFAULT := 14; EIDRM := 43; EILSEQ := 84;
  EINVAL := 22; ENAMETOOLONG := 36; EPROTOTYPE := 91;
  EMFILE := 24; EMLINK := 31; ENFILE := 23; ENOBUFS := 105; ENOLCK := 37;
  ENOLINK := 67; ENOMEM := 12; ENOSR := 63;
  EBADMSG := 74; EISDIR := 21; EIO := 5; ENOMSG := 42; ENOSTR := 60;
  EPROTO := 71;
  EBUSY := 16; ENODATA := 61;
  ECHILD := 10; ENOENT := 2; ENXIO := 6;
  EAGAIN := 11; EINTR := 4;
  ESRCH := 3;
  ETIME := 62; ETIMEDOUT := 110;
  EAFNOSUPPORT := 97; ENOPROTOOPT := 92; ENOSYS := 38; ENOTSUP := 95;
  ENOMEDIUM := 123;
  ELOOP := 40; ENOTDIR := 20; ENOTEMPTY := 39; EXDEV := 18;
  ENOSPC := 28;
  EROFS := 30;
  EPERM := 1
|}.

(** [x] is one of the [case] labels of a group. *)
Definition is_case (x : Z) (labels : list Z) : bool :=
  existsb (Z.eqb x) labels.

Section Errno.
Context {E : errno_h}.

(** The case groups of the switch in ErrnoToEfiStatus, in source order. *)
Definition errno_groups : list (list Z * EFI_STATUS) :=
  [ ([0], EFI_SUCCESS);
    ([ECANCELED], EFI_ABORTED);
    ([EACCES; EEXIST; ETXTBSY], EFI_ACCESS_DENIED);
    ([EADDRINUSE; EALREADY; EINPROGRESS; EISCONN], EFI_ALREADY_STARTED);
    ([EMSGSIZE], EFI_BAD_BUFFER_SIZE);
    ([E2BIG; EOVERFLOW; ERANGE], EFI_BUFFER_TOO_SMALL);
    ([ENODEV], EFI_DEVICE_ERROR);
    ([ENOEXEC], EFI_LOAD_ERROR);
    ([ESPIPE], EFI_END_OF_FILE);
    ([EFBIG], EFI_END_OF_MEDIA);
    ([EBADF; EDOM; EFAULT; EIDRM; EILSEQ; EINVAL; ENAMETOOLONG;
      EPROTOTYPE], EFI_INVALID_PARAMETER);
    ([EMFILE; EMLINK; ENFILE; ENOBUFS; ENOLCK; ENOLINK; ENOMEM; ENOSR],
     EFI_OUT_OF_RESOURCES);
    ([EBADMSG; EISDIR; EIO; ENOMSG; ENOSTR; EPROTO], EFI_PROTOCOL_ERROR);
    ([EBUSY; ENODATA], EFI_NO_RESPONSE);
    ([ECHILD; ENOENT; ENXIO], EFI_NOT_FOUND);
    ([EAGAIN; EINTR], EFI_NOT_READY);
    ([ESRCH], EFI_NOT_STARTED);
    ([ETIME; ETIMEDOUT], EFI_TIMEOUT);
    ([EAFNOSUPPORT; ENOPROTOOPT; ENOSYS; ENOTSUP], EFI_UNSUPPORTED);
    ([ENOMEDIUM], EFI_NO_MEDIA);
    ([ELOOP; ENOTDIR; ENOTEMPTY; EXDEV], EFI_VOLUME_CORRUPTED);
    ([ENOSPC], EFI_VOLUME_FULL);
    ([EROFS], EFI_WRITE_PROTECTED);
    ([EPERM], EFI_SECURITY_VIOLATION) ].

(** A C switch: the group holding the value, else the default. *)
Fixpoint switch (x : Z) (groups : list (list Z * EFI_STATUS))
         (default : EFI_STATUS) : EFI_STATUS :=
  match groups with
  | [] => default
  | (labels, s) :: rest =>
      if is_case x labels then s else switch x rest default
  end.

(** ErrnoToEfiStatus(), with the errno it reads as its argument. *)
Definition ErrnoToEfiStatus (errno : Z) : EFI_STATUS :=
  switch errno errno_groups EFI_NO_MAPPING.

(** All the case labels of the switch. *)
Definition case_labels : list Z :=
  concat (map fst errno_groups).

(** A C compiler only accepts a switch whose case labels are distinct. *)
Definition case_labels_distinct : Prop := NoDup case_labels.

(** [e] is listed under [s], or is unlisted and [s] is the default. *)
Definition errno_class (e : Z) (s : EFI_STATUS) : Prop :=
  (exists labels, In (labels, s) errno_groups /\ In e labels) \/
  (s = EFI_NO_MAPPING /\ ~ In e case_labels).
End Errno.

(** ** Strings

    A CHAR16 buffer is the list of its code units, without the
    terminating NUL; the driver writes a NUL into a path to cut it at a
    separator and writes the separator back afterwards, so the string a
    buffer holds is what comes before its first NUL ([cstr]). *)

Abbreviation CHAR16 := Z.
Abbreviation addr := N.

Definition PATH_CHAR : CHAR16 := 47.      (* L'/' *)
Definition DOS_PATH_CHAR : CHAR16 := 92.  (* L'\\' *)

(** The literal L"...". *)
Definition L (s : string) : list CHAR16 :=
  map (fun a => Z.of_nat (nat_of_ascii a)) (list_ascii_of_string s).

Fixpoint cstr (buf : list CHAR16) : list CHAR16 :=
  match buf with
  | [] => []
  | c :: rest => if c =? 0 then [] else c :: cstr rest
  end.

(** buf[i], for i up to the terminator. *)
Definition char_at (buf : list CHAR16) (i : nat) : CHAR16 := nth i buf 0.

Definition StrLen (buf : list CHAR16) : nat := length (cstr buf).

(** StrCmp(): the difference of the first two code units that differ. *)
Fixpoint StrCmp (a b : list CHAR16) : Z :=
  match a with
  | [] => 0 - char_at b 0
  | c :: a' =>
      if c =? 0 then 0 - char_at b 0
      else match b with
           | [] => c
           | d :: b' => if c =? d then StrCmp a' b' else c - d
           end
  end.

(** A write buf[i] = c inside the buffer; outside it is undefined. *)
Definition poke (i : nat) (c : CHAR16) (buf : list CHAR16)
  : option (list CHAR16) :=
  if decide (i < length buf)%nat then Some (<[i:=c]> buf) else None.

(** ** Data model *)

(** The fields of an open ntfs_inode that the bridge reads or writes. *)
Record ntfs_inode : Set := {
  mft_no : Z;
  flags : Z;                  (* FILE_ATTR_* *)
  mrec_flags : Z;             (* mrec->flags *)
  NInoDirty : bool;
  NInoAttrListDirty : bool;
  data_size : Z;
  allocated_size : Z;
  creation_time : Z;
  last_data_change_time : Z;
  last_mft_change_time : Z;
  last_access_time : Z
}.

Definition MFT_RECORD_IS_DIRECTORY : Z := 2.
Definition FILE_root : Z := 5.
Definition FILE_Extend : Z := 11.
Definition FILE_ATTR_READONLY : Z := 1.
Definition FILE_ATTR_HIDDEN : Z := 2.
Definition FILE_ATTR_SYSTEM : Z := 4.
Definition FILE_ATTR_ARCHIVE : Z := 32.
Definition EFI_FILE_READ_ONLY : Z := 1.
Definition EFI_FILE_HIDDEN : Z := 2.
Definition EFI_FILE_SYSTEM : Z := 4.
Definition EFI_FILE_DIRECTORY : Z := 16.
Definition EFI_FILE_ARCHIVE : Z := 32.
Definition NTFS_UPDATE_MTIME : Z := 2.
Definition NTFS_UPDATE_CTIME : Z := 4.
Definition NTFS_UPDATE_MCTIME : Z := 6.
Definition S_IFDIR : Z := 16384.
Definition S_IFREG : Z := 32768.

Definition IS_DIR (ni : ntfs_inode) : Z :=
  Z.land (mrec_flags ni) MFT_RECORD_IS_DIRECTORY.
Definition IS_DIRTY (ni : ntfs_inode) : bool :=
  NInoDirty ni || NInoAttrListDirty ni.

Definition set_flags (v : Z) (ni : ntfs_inode) : ntfs_inode :=
  {| mft_no := mft_no ni; flags := v; mrec_flags := mrec_flags ni;
     NInoDirty := NInoDirty ni; NInoAttrListDirty := NInoAttrListDirty ni;
     data_size := data_size ni; allocated_size := allocated_size ni;
     creation_time := creation_time ni;
     last_data_change_time := last_data_change_time ni;
     last_mft_change_time := last_mft_change_time ni;
     last_access_time := last_access_time ni |}.
Definition set_creation_time (v : Z) (ni : ntfs_inode) : ntfs_inode :=
  {| mft_no := mft_no ni; flags := flags ni; mrec_flags := mrec_flags ni;
     NInoDirty := NInoDirty ni; NInoAttrListDirty := NInoAttrListDirty ni;
     data_size := data_size ni; allocated_size := allocated_size ni;
     creation_time := v;
     last_data_change_time := last_data_change_time ni;
     last_mft_change_time := last_mft_change_time ni;
     last_access_time := last_access_time ni |}.
Definition set_last_access_time (v : Z) (ni : ntfs_inode) : ntfs_inode :=
  {| mft_no := mft_no ni; flags := flags ni; mrec_flags := mrec_flags ni;
     NInoDirty := NInoDirty ni; NInoAttrListDirty := NInoAttrListDirty ni;
     data_size := data_size ni; allocated_size := allocated_size ni;
     creation_time := creation_time ni;
     last_data_change_time := last_data_change_time ni;
     last_mft_change_time := last_mft_change_time ni;
     last_access_time := v |}.
Definition set_last_data_change_time (v : Z) (ni : ntfs_inode)
  : ntfs_inode :=
  {| mft_no := mft_no ni; flags := flags ni; mrec_flags := mrec_flags ni;
     NInoDirty := NInoDirty ni; NInoAttrListDirty := NInoAttrListDirty ni;
     data_size := data_size ni; allocated_size := allocated_size ni;
     creation_time := creation_time ni;
     last_data_change_time := v;
     last_mft_change_time := last_mft_change_time ni;
     last_access_time := last_access_time ni |}.

(** An open attribute: its handle and the data size read from it. *)
Record ntfs_attr : Set := { na_handle : addr; na_data_size : Z }.

(** A file instance (EFI_NTFS_FILE). [BaseName] points into [Path]: it is
    kept as the index of its first code unit. [IsDir] is a BOOLEAN that
    holds whatever value was stored into it. *)
Record EFI_NTFS_FILE : Set := {
  IsDir : Z;
  IsRoot : bool;
  DirPos : Z;
  Offset : Z;
  Path : list CHAR16;
  BaseName : nat;
  RefCount : Z;
  NtfsInode : option addr
}.

Definition set_IsDir (v : Z) (f : EFI_NTFS_FILE) : EFI_NTFS_FILE :=
  {| IsDir := v; IsRoot := IsRoot f; DirPos := DirPos f;
     Offset := Offset f; Path := Path f; BaseName := BaseName f;
     RefCount := RefCount f; NtfsInode := NtfsInode f |}.
Definition set_IsRoot (v : bool) (f : EFI_NTFS_FILE) : EFI_NTFS_FILE :=
  {| IsDir := IsDir f; IsRoot := v; DirPos := DirPos f;
     Offset := Offset f; Path := Path f; BaseName := BaseName f;
     RefCount := RefCount f; NtfsInode := NtfsInode f |}.
Definition set_Offset (v : Z) (f : EFI_NTFS_FILE) : EFI_NTFS_FILE :=
  {| IsDir := IsDir f; IsRoot := IsRoot f; DirPos := DirPos f;
     Offset := v; Path := Path f; BaseName := BaseName f;
     RefCount := RefCount f; NtfsInode := NtfsInode f |}.
Definition set_Path (v : list CHAR16) (f : EFI_NTFS_FILE)
  : EFI_NTFS_FILE :=
  {| IsDir := IsDir f; IsRoot := IsRoot f; DirPos := DirPos f;
     Offset := Offset f; Path := v; BaseName := BaseName f;
     RefCount := RefCount f; NtfsInode := NtfsInode f |}.
Definition set_BaseName (v : nat) (f : EFI_NTFS_FILE) : EFI_NTFS_FILE :=
  {| IsDir := IsDir f; IsRoot := IsRoot f; DirPos := DirPos f;
     Offset := Offset f; Path := Path f; BaseName := v;
     RefCount := RefCount f; NtfsInode := NtfsInode f |}.
Definition set_NtfsInode (v : option addr) (f : EFI_NTFS_FILE)
  : EFI_NTFS_FILE :=
  {| IsDir := IsDir f; IsRoot := IsRoot f; DirPos := DirPos f;
     Offset := Offset f; Path := Path f; BaseName := BaseName f;
     RefCount := RefCount f; NtfsInode := v |}.

(** EFI_TIME, with its two padding bytes: the bridge compares it to the
    all-zero value with CompareMem. *)
Record EFI_TIME : Set := {
  Year : Z; Month : Z; Day : Z; Hour : Z; Minute : Z; Second : Z;
  Pad1 : Z; Nanosecond : Z; TimeZone : Z; Daylight : Z; Pad2 : Z
}.

Definition ZeroTime : EFI_TIME :=
  {| Year := 0; Month := 0; Day := 0; Hour := 0; Minute := 0; Second := 0;
     Pad1 := 0; Nanosecond := 0; TimeZone := 0; Daylight := 0; Pad2 := 0 |}.

#[global] Instance EFI_TIME_eq_dec : EqDecision EFI_TIME.
Proof. solve_decision. Defined.

(** CompareMem(t, &ZeroTime, sizeof(EFI_TIME)) != 0 *)
Definition time_is_set (t : EFI_TIME) : bool :=
  negb (bool_decide (t = ZeroTime)).

(** The fields of EFI_FILE_INFO that NtfsSetFileInfo reads. *)
Record EFI_FILE_INFO : Set := {
  FileSize : Z;
  CreateTime : EFI_TIME;
  LastAccessTime : EFI_TIME;
  ModificationTime : EFI_TIME;
  Attribute : Z;
  FileName : list CHAR16
}.

(** What the library and the bridge share: the library's own volume
    state [V], the open inodes and errno. *)
Record world (V : Type) : Type := World {
  vol : V;
  inodes : gmap addr ntfs_inode;
  errno : Z
}.
Arguments World {V}.
Arguments vol {V}.
Arguments inodes {V}.
Arguments errno {V}.

Definition mbs := list Z.

(** The calls into the library, with their results, as the bridge makes
    them. *)
Inductive call : Set :=
| c_AllocatePool (ok : bool)
| c_ucstombs (src : list CHAR16) (sz : Z)
| c_inode_open (mref : Z) (r : option addr)
| c_inode_close (ni : option addr)
| c_pathname_to_inode (parent : option addr) (path : option mbs)
                      (r : option addr)
| c_inode_sync (ni : option addr) (r : Z)
| c_delete (ni dir_ni : option addr) (name : list CHAR16) (len : Z) (r : Z)
| c_link (ni dir_ni : option addr) (name : list CHAR16) (len : Z) (r : Z)
| c_create (dir_ni : option addr) (name : list CHAR16) (len : Z)
           (type : Z) (r : option addr)
| c_forbidden_names (name : list CHAR16) (len : Z) (r : bool)
| c_update_mbsname (dir_ni : option addr) (name : option mbs) (inum : Z)
| c_update_times (ni : option addr) (mask : Z)
| c_attr_open (ni : option addr) (r : option ntfs_attr)
| c_attr_close (na : ntfs_attr)
| c_attr_pread (na : ntfs_attr) (pos count : Z) (dst : Z) (r : Z)
| c_attr_pwrite (na : ntfs_attr) (pos count : Z) (src : Z) (r : Z)
| c_attr_truncate (na : ntfs_attr) (newsize : Z) (r : Z).

(** The library (and the firmware services) the bridge is linked with. *)
Class libntfs (V : Type) : Type := {
  (* firmware: AllocatePool / StrDup; false when out of memory *)
  AllocatePool : world V -> bool * world V;
  (* uefi_support.h *)
  GetInodeNumber : Z -> Z;
  EfiTimeToNtfsTime : EFI_TIME -> Z;  (* UNIX_TO_NTFS_TIME(EfiTimeToUnixTime()) *)
  CleanPath : list CHAR16 -> list CHAR16;
  NVolReadOnly : world V -> bool;
  ntfs_ucstombs : list CHAR16 -> world V -> (Z * option mbs) * world V;
  ntfs_inode_open : Z -> world V -> option addr * world V;
  ntfs_inode_close : option addr -> world V -> Z * world V;
  ntfs_pathname_to_inode :
    option addr -> option mbs -> world V -> option addr * world V;
  ntfs_inode_sync : option addr -> world V -> Z * world V;
  ntfs_delete :
    option addr -> option addr -> list CHAR16 -> Z -> world V -> Z * world V;
  ntfs_link :
    option addr -> option addr -> list CHAR16 -> Z -> world V -> Z * world V;
  ntfs_create :
    option addr -> list CHAR16 -> Z -> Z -> world V -> option addr * world V;
  ntfs_forbidden_names : list CHAR16 -> Z -> world V -> bool * world V;
  ntfs_inode_update_mbsname :
    option addr -> option mbs -> Z -> world V -> unit * world V;
  ntfs_inode_update_times : option addr -> Z -> world V -> unit * world V;
  ntfs_attr_open : option addr -> world V -> option ntfs_attr * world V;
  ntfs_attr_close : ntfs_attr -> world V -> unit * world V;
  ntfs_attr_pread : ntfs_attr -> Z -> Z -> world V -> Z * world V;
  ntfs_attr_truncate : ntfs_attr -> Z -> world V -> Z * world V
}.

(** The state of one mounted volume: the world shared with the library,
    the pool of file instances, the lookup list (in list order), and, as
    instrumentation, the library calls made and the errors printed. *)
Record state (V : Type) : Type := State {
  env : world V;
  files : gmap addr EFI_NTFS_FILE;
  LookupListHead : list addr;
  calls : list call;
  errlog : list string
}.
Arguments State {V}.
Arguments env {V}.
Arguments files {V}.
Arguments LookupListHead {V}.
Arguments calls {V}.
Arguments errlog {V}.

(** ** The bridge

    Operations run in a state monad with failure: [None] stands for a C
    execution that is undefined (a null or dangling pointer is read, a
    write falls outside its buffer). *)

Definition M (V A : Type) : Type := state V -> option (A * state V).

Definition ret {V A} (a : A) : M V A := fun st => Some (a, st).
Definition bind {V A B} (m : M V A) (k : A -> M V B) : M V B :=
  fun st => match m st with
            | Some (a, st') => k a st'
            | None => None
            end.
Definition undefined {V A} : M V A := fun _ => None.

Notation "'let*' x ':=' m 'in' k" := (bind m (fun x => k))
  (at level 10, x name, m at level 100, k at level 200).
Notation "'let*' ' p ':=' m 'in' k" :=
  (bind m (fun x => match x with p => k end))
  (at level 10, p pattern, m at level 100, k at level 200).
Notation "m ';;' k" := (bind m (fun _ => k))
  (at level 100, k at level 200, right associativity).

Section Bridge.
Context {E : errno_h} {V : Type} {lib : libntfs V}.

#[local] Abbreviation M := (M V).

(** *** Memory and library access *)

Definition File_get (File : addr) : M EFI_NTFS_FILE :=
  fun st => match files st !! File with
            | Some f => Some (f, st)
            | None => None
            end.

Definition File_set (File : addr) (upd : EFI_NTFS_FILE -> EFI_NTFS_FILE)
  : M unit :=
  fun st => match files st !! File with
            | Some f =>
                Some (tt, State (env st) (<[File := upd f]> (files st))
                                (LookupListHead st) (calls st) (errlog st))
            | None => None
            end.

(** Reading through an inode pointer. *)
Definition ni_get (ni : option addr) : M ntfs_inode :=
  fun st => match ni with
            | Some p => match inodes (env st) !! p with
                        | Some i => Some (i, st)
                        | None => None
                        end
            | None => None
            end.

Definition ni_set (ni : option addr) (upd : ntfs_inode -> ntfs_inode)
  : M unit :=
  fun st =>
    match ni with
    | Some p =>
        match inodes (env st) !! p with
        | Some i =>
            Some (tt, State (World (vol (env st))
                                   (<[p := upd i]> (inodes (env st)))
                                   (errno (env st)))
                            (files st) (LookupListHead st) (calls st)
                            (errlog st))
        | None => None
        end
    | None => None
    end.

Definition get_errno : M Z := fun st => Some (errno (env st), st).

Definition set_errno (e : Z) : M unit :=
  fun st => Some (tt, State (World (vol (env st)) (inodes (env st)) e)
                            (files st) (LookupListHead st) (calls st)
                            (errlog st)).

(** A call into the library: it runs on the shared world and is
    recorded, with its result, after the earlier calls. *)
Definition lib_call {R} (f : world V -> R * world V) (ev : R -> call)
  : M R :=
  fun st => let '(r, w) := f (env st) in
            Some (r, State w (files st) (LookupListHead st)
                           (calls st ++ [ev r]) (errlog st)).

Definition PrintError (msg : string) : M unit :=
  fun st => Some (tt, State (env st) (files st) (LookupListHead st)
                            (calls st) (errlog st ++ [msg])).

Definition NtfsIsVolumeReadOnly : M bool :=
  fun st => Some (NVolReadOnly (env st), st).

(** to_utf8(): ntfs_ucstombs(), with an error printed on failure. *)
Definition to_utf8 (Src : list CHAR16) (function : string)
  : M (Z * option mbs) :=
  let* r := lib_call (ntfs_ucstombs (cstr Src))
                     (fun r => c_ucstombs (cstr Src) (fst r)) in
  (if fst r <? 0
   then PrintError (function ++ " failed to convert")
   else ret tt);;
  ret r.

(** *** The lookup list *)

(** The loop of NtfsLookup over the entries from [entries] on. [self]
    is the address of the File parameter (none for a file on the
    caller's stack) and [path] the buffer its Path points to. *)
Fixpoint NtfsLookup_from (st : state V) (entries : list addr)
         (self : option addr) (path : list CHAR16) (Inum : Z)
         (IgnoreSelf : bool) : option (option addr) :=
  match entries with
  | [] => Some None
  | e :: rest =>
      match files st !! e with
      | None => None
      | Some ef =>
          if Inum =? 0 then
            if IgnoreSelf && bool_decide (Some e = self) then
              NtfsLookup_from st rest self path Inum IgnoreSelf
            else if (char_at path 0 =? 0) && IsRoot ef then Some (Some e)
            else if StrCmp path (Path ef) =? 0 then Some (Some e)
            else NtfsLookup_from st rest self path Inum IgnoreSelf
          else
            match NtfsInode ef with
            | None => None
            | Some p =>
                match inodes (env st) !! p with
                | None => None
                | Some ni =>
                    if mft_no ni =? GetInodeNumber Inum then Some (Some e)
                    else NtfsLookup_from st rest self path Inum IgnoreSelf
                end
            end
      end
  end.

Definition NtfsLookup (self : option addr) (path : list CHAR16)
           (Inum : Z) (IgnoreSelf : bool) : M (option addr) :=
  fun st =>
    match NtfsLookup_from st (LookupListHead st) self path Inum
                          IgnoreSelf with
    | Some r => Some (r, st)
    | None => None
    end.

Definition NtfsLookupPath (File : addr) (IgnoreSelf : bool)
  : M (option addr) :=
  let* f := File_get File in
  NtfsLookup (Some File) (Path f) 0 IgnoreSelf.

Definition NtfsLookupInum (File : addr) (Inum : Z) : M (option addr) :=
  let* f := File_get File in
  NtfsLookup (Some File) (Path f) Inum false.

(** File->BaseName[-1] = c *)
Definition poke_before_BaseName (File : addr) (c : CHAR16) : M unit :=
  let* f := File_get File in
  match BaseName f with
  | O => undefined
  | S i => match poke i c (Path f) with
           | Some buf => File_set File (set_Path buf)
           | None => undefined
           end
  end.

Definition NtfsLookupParent (File : addr) : M (option addr) :=
  poke_before_BaseName File 0;;
  let* Parent := NtfsLookupPath File true in
  poke_before_BaseName File PATH_CHAR;;
  ret Parent.

Definition NtfsLookupAdd (File : addr) : M unit :=
  let* Entry := lib_call AllocatePool c_AllocatePool in
  if (Entry : bool) then
    fun st => Some (tt, State (env st) (files st)
                              (LookupListHead st ++ [File])
                              (calls st) (errlog st))
  else ret tt.

(** The first entry for [File] is unlinked. *)
Fixpoint remove_first (File : addr) (entries : list addr) : list addr :=
  match entries with
  | [] => []
  | e :: rest =>
      if bool_decide (File = e) then rest
      else e :: remove_first File rest
  end.

Definition NtfsLookupRem (File : addr) : M unit :=
  fun st => Some (tt, State (env st) (files st)
                            (remove_first File (LookupListHead st))
                            (calls st) (errlog st)).

(** *** Opening an inode from a path *)

(** The two nested loops of NtfsOpenInodeFromPath, as one scan from
    TmpPath[Len - 1] down: at each separator the path is cut there and
    looked up. The result is the open directory found, if any, and the
    final Len. Running below the start of the buffer is undefined. *)
Fixpoint closest_open_dir (st : state V) (TmpPath : list CHAR16)
         (Len : nat) : option (option addr * nat) :=
  match Len with
  | O => None
  | S j =>
      if char_at TmpPath j =? PATH_CHAR then
        match NtfsLookup_from st (LookupListHead st) None
                              (<[j := 0]> TmpPath) 0 false with
        | None => None
        | Some (Some Parent) => Some (Some Parent, j)
        | Some None =>
            match j with
            | O => Some (None, j)
            | S _ => closest_open_dir st TmpPath j
            end
        end
      else closest_open_dir st TmpPath j
  end.

Definition NtfsOpenInodeFromPath (Path : list CHAR16)
  : M (option addr) :=
  let Len := StrLen Path in
  if (char_at (cstr Path) 0 =? 0) ||
     ((char_at (cstr Path) 0 =? PATH_CHAR) &&
      (char_at (cstr Path) 1 =? 0))
  then lib_call (ntfs_inode_open FILE_root) (c_inode_open FILE_root)
  else
    let* dup := lib_call AllocatePool c_AllocatePool in
    if negb dup then ret None
    else
      let TmpPath := cstr Path in
      let* '(Parent, Len) :=
        (fun st => match closest_open_dir st TmpPath Len with
                   | Some r => Some (r, st)
                   | None => None
                   end) in
      let* '(sz, path) :=
        to_utf8 (drop (S Len) TmpPath) "NtfsOpenInodeFromPath" in
      if sz <? 0 then ret None
      else
        let* dir_ni :=
          match Parent with
          | Some P => let* pf := File_get P in ret (NtfsInode pf)
          | None => ret None
          end in
        lib_call (ntfs_pathname_to_inode dir_ni path)
                 (c_pathname_to_inode dir_ni path).

(** *** File instances *)

Definition NtfsFreeFile (File : addr) : M unit :=
  let* f := File_get File in
  if RefCount f <=? 0 then
    fun st => Some (tt, State (env st) (delete File (files st))
                              (LookupListHead st) (calls st) (errlog st))
  else ret tt.

(** NtfsOpenFile(&File): the status and the final value of File. *)
Definition NtfsOpenFile (FilePointer : addr) : M (EFI_STATUS * addr) :=
  let* File := NtfsLookupPath FilePointer false in
  match File with
  | Some File =>
      NtfsFreeFile FilePointer;;
      ret (EFI_SUCCESS, File)
  | None =>
      let File := FilePointer in
      let* f := File_get File in
      File_set File (set_IsRoot ((char_at (Path f) 0 =? PATH_CHAR) &&
                                 (char_at (Path f) 1 =? 0)));;
      let* ni := NtfsOpenInodeFromPath (Path f) in
      File_set File (set_NtfsInode ni);;
      match ni with
      | None =>
          let* e := get_errno in
          ret (ErrnoToEfiStatus e, File)
      | Some _ =>
          let* i := ni_get ni in
          File_set File (set_IsDir (IS_DIR i));;
          NtfsLookupAdd File;;
          ret (EFI_SUCCESS, File)
      end
  end.

Definition NtfsCloseFile (File : option addr) : M unit :=
  match File with
  | None => ret tt
  | Some File =>
      let* f := File_get File in
      match NtfsInode f with
      | None => ret tt
      | Some _ =>
          let* i := ni_get (NtfsInode f) in
          let* '(Parent, parent_inum) :=
            if IS_DIRTY i then
              let* Parent := NtfsLookupParent File in
              match Parent with
              | Some P =>
                  let* pf := File_get P in
                  let* pi := ni_get (NtfsInode pf) in
                  lib_call (ntfs_inode_close (NtfsInode pf))
                           (fun _ => c_inode_close (NtfsInode pf));;
                  ret (Some P, mft_no pi)
              | None => ret (None, 0)
              end
            else ret (None, 0) in
          let* f := File_get File in
          lib_call (ntfs_inode_close (NtfsInode f))
                   (fun _ => c_inode_close (NtfsInode f));;
          match Parent with
          | Some P =>
              let* ni := lib_call (ntfs_inode_open parent_inum)
                                  (c_inode_open parent_inum) in
              File_set P (set_NtfsInode ni);;
              match ni with
              | None =>
                  PrintError "NtfsCloseFile: Failed to reopen Parent";;
                  NtfsLookupRem P
              | Some _ => ret tt
              end
          | None => ret tt
          end;;
          NtfsLookupRem File
      end
  end.

(** *** Reading *)

(** Conversions to INT64, UINTN (64-bit) and u8. *)
Definition s64 (z : Z) : Z := (z + 2 ^ 63) mod 2 ^ 64 - 2 ^ 63.
Definition u64 (z : Z) : Z := z mod 2 ^ 64.
Definition u8 (z : Z) : Z := z mod 2 ^ 8.



(** *** Creating and deleting *)

(** The string File->BaseName. *)
Definition BaseName_str (f : EFI_NTFS_FILE) : list CHAR16 :=
  cstr (drop (BaseName f) (Path f)).

(** The directory inode of a file whose parent is not in the lookup
    list: the path is cut before the base name and opened. *)
Definition open_dirname (File : addr) : M (option addr) :=
  poke_before_BaseName File 0;;
  let* f := File_get File in
  let* dir_ni := NtfsOpenInodeFromPath (Path f) in
  poke_before_BaseName File PATH_CHAR;;
  ret dir_ni.

Definition inode_close (ni : option addr) : M unit :=
  lib_call (ntfs_inode_close ni) (fun _ => c_inode_close ni);; ret tt.

Definition inode_open (mref : Z) : M (option addr) :=
  lib_call (ntfs_inode_open mref) (c_inode_open mref).

Definition update_times (ni : option addr) (mask : Z) : M unit :=
  lib_call (ntfs_inode_update_times ni mask)
           (fun _ => c_update_times ni mask).

Definition errno_status : M EFI_STATUS :=
  let* e := get_errno in ret (ErrnoToEfiStatus e).

(** NtfsCreateFile up to the label out: the status, ni and whether the
    function returned before reaching the label. *)
Definition NtfsCreateFile_body (File : addr) (dir_ni : option addr)
  : M (EFI_STATUS * option addr) :=
  match dir_ni with
  | None => let* s := errno_status in ret (s, None)
  | Some _ =>
      let* di := ni_get dir_ni in
      (* Similar to FUSE: Deny creating into $Extend *)
      if mft_no di =? FILE_Extend then ret (EFI_ACCESS_DENIED, None)
      else
        let* f := File_get File in
        let* '(sz, basename) := to_utf8 (BaseName_str f) "NtfsCreateFile" in
        if sz <=? 0 then let* s := errno_status in ret (s, None)
        else
          let* ni := lib_call (ntfs_pathname_to_inode dir_ni basename)
                              (c_pathname_to_inode dir_ni basename) in
          let finish (ni : option addr) : M (EFI_STATUS * option addr) :=
            let* i := ni_get ni in
            lib_call (ntfs_inode_update_mbsname dir_ni basename (mft_no i))
                     (fun _ => c_update_mbsname dir_ni basename (mft_no i));;
            update_times ni NTFS_UPDATE_MCTIME;;
            File_set File (set_NtfsInode ni);;
            NtfsLookupAdd File;;
            ret (EFI_SUCCESS, ni) in
          match ni with
          | Some _ =>
              let* i := ni_get ni in
              (* Entries must be of the same type *)
              if (negb (IsDir f =? 0) && (IS_DIR i =? 0)) ||
                 ((IsDir f =? 0) && negb (IS_DIR i =? 0))
              then ret (EFI_ACCESS_DENIED, ni)
              else finish ni
          | None =>
              let name_len := u8 (Z.of_nat (StrLen (BaseName_str f))) in
              let type := if IsDir f =? 0 then S_IFREG else S_IFDIR in
              let* ni :=
                lib_call (ntfs_create dir_ni (BaseName_str f) name_len type)
                         (c_create dir_ni (BaseName_str f) name_len type) in
              match ni with
              | None => let* s := errno_status in ret (s, None)
              | Some _ =>
                  let* i := ni_get ni in
                  (if IsDir f =? 0
                   then ni_set ni (set_flags
                                     (Z.lor (flags i) FILE_ATTR_ARCHIVE))
                   else ret tt);;
                  finish ni
              end
          end
  end.

(** NtfsCreateFile(&File): the status and the final value of File. *)
Definition NtfsCreateFile (FilePointer : addr) : M (EFI_STATUS * addr) :=
  let* File := NtfsLookupPath FilePointer false in
  match File with
  | Some File =>
      let* f := File_get File in
      let* fp := File_get FilePointer in
      (* Entries must be of the same type *)
      if negb (IsDir f =? IsDir fp) then ret (EFI_ACCESS_DENIED, FilePointer)
      else
        NtfsFreeFile FilePointer;;
        ret (EFI_SUCCESS, File)
  | None =>
      let File := FilePointer in
      let* f := File_get File in
      let* forbidden :=
        lib_call (ntfs_forbidden_names
                    (BaseName_str f) (Z.of_nat (StrLen (BaseName_str f))))
                 (c_forbidden_names
                    (BaseName_str f) (Z.of_nat (StrLen (BaseName_str f)))) in
      if (forbidden : bool) then ret (EFI_INVALID_PARAMETER, File)
      else
        let* Parent := NtfsLookupParent File in
        let* dir_ni :=
          match Parent with
          | None => open_dirname File
          | Some P => let* pf := File_get P in ret (NtfsInode pf)
          end in
        let* '(Status, ni) := NtfsCreateFile_body File dir_ni in
        (* out: *)
        (match Parent with
         | None => inode_close dir_ni
         | Some _ => ret tt
         end);;
        (if EFI_ERROR Status then
           inode_close ni;;
           File_set File (set_NtfsInode None)
         else ret tt);;
        ret (Status, File)
  end.

Definition NtfsDeleteFile (File : addr) : M EFI_STATUS :=
  let* Parent := NtfsLookupParent File in
  let* found :=
    match Parent with
    | None =>
        let* dir_ni := open_dirname File in
        ret (dir_ni, None, 0, 0)
    | Some P =>
        let* GrandParent := NtfsLookupParent P in
        let* '(GrandParent, grandparent_inum) :=
          match GrandParent with
          | Some G =>
              let* gf := File_get G in
              if IsRoot gf then ret (None, 0)
              else
                let* gi := ni_get (NtfsInode gf) in
                inode_close (NtfsInode gf);;
                ret (Some G, mft_no gi)
          | None => ret (None, 0)
          end in
        (* Parent dir was already open *)
        let* pf := File_get P in
        let* di := ni_get (NtfsInode pf) in
        ret (NtfsInode pf, GrandParent, mft_no di, grandparent_inum)
    end in
  let '(dir_ni, GrandParent, parent_inum, grandparent_inum) := found in
  match Parent, dir_ni with
  | None, None => errno_status
  | _, _ =>
      let* di := ni_get dir_ni in
      (* Similar to FUSE: Deny deleting from $Extend *)
      if mft_no di =? FILE_Extend then ret EFI_ACCESS_DENIED
      else
        let* f := File_get File in
        let* r :=
          lib_call (ntfs_delete (NtfsInode f) dir_ni (BaseName_str f)
                                (u8 (Z.of_nat (StrLen (BaseName_str f)))))
                   (c_delete (NtfsInode f) dir_ni (BaseName_str f)
                             (u8 (Z.of_nat (StrLen (BaseName_str f))))) in
        NtfsLookupRem File;;
        if r <? 0 then
          PrintError "NtfsDeleteFile failed";;
          ret EFI_WARN_DELETE_FAILURE
        else
          File_set File (set_NtfsInode None);;
          (* Reopen Parent or GrandParent if they were closed *)
          let reopen (Dir : option addr) (inum : Z) (who : string)
                     (k : M EFI_STATUS) : M EFI_STATUS :=
            match Dir with
            | Some D =>
                let* ni := inode_open inum in
                File_set D (set_NtfsInode ni);;
                match ni with
                | None =>
                    PrintError who;;
                    NtfsLookupRem D;;
                    errno_status
                | Some _ => k
                end
            | None => k
            end in
          reopen Parent parent_inum
            "NtfsDeleteFile: Failed to reopen Parent"%string
            (reopen GrandParent grandparent_inum
               "NtfsDeleteFile: Failed to reopen GrandParent"%string
               (ret EFI_SUCCESS))
  end.

(** *** Flushing *)

Definition NtfsFlushFile (File : addr) : M EFI_STATUS :=
  let* f := File_get File in
  let* ni := ni_get (NtfsInode f) in
  (* Nothing to do if the file is not dirty *)
  if negb (NInoDirty ni) && NInoAttrListDirty ni then ret EFI_SUCCESS
  else
    let* Parent := NtfsLookupParent File in
    let* parent_inum :=
      match Parent with
      | Some P =>
          let* pf := File_get P in
          let* pi := ni_get (NtfsInode pf) in
          inode_close (NtfsInode pf);;
          ret (mft_no pi)
      | None => ret 0
      end in
    let* f := File_get File in
    let* r := lib_call (ntfs_inode_sync (NtfsInode f))
                       (c_inode_sync (NtfsInode f)) in
    let* Status :=
      if r <? 0 then
        PrintError "NtfsFlushFile failed";;
        errno_status
      else ret EFI_SUCCESS in
    match Parent with
    | Some P =>
        let* ni := inode_open parent_inum in
        File_set P (set_NtfsInode ni);;
        match ni with
        | None =>
            PrintError "NtfsFlushFile: Failed to reopen Parent";;
            NtfsLookupRem P
        | Some _ => ret tt
        end
    | None => ret tt
    end;;
    ret Status.

(** *** Moving *)

(** while (buf[--Len] != PATH_CHAR); the final Len. Running below the
    start of the buffer is undefined. *)
Fixpoint rfind_sep (buf : list CHAR16) (Len : nat) : option nat :=
  match Len with
  | O => None
  | S j => if char_at buf j =? PATH_CHAR then Some j else rfind_sep buf j
  end.

(** File->Path[i] = c *)
Definition Path_poke (File : addr) (i : nat) (c : CHAR16) : M unit :=
  let* f := File_get File in
  match poke i c (Path f) with
  | Some buf => File_set File (set_Path buf)
  | None => undefined
  end.

(** The code at the label out of NtfsMoveFile. *)
Definition NtfsMoveFile_out (Parent NewParent : option addr)
           (SameDir ParentIsChildOfNewParent : bool)
           (parent_ni newparent_ni : option addr) (Status : EFI_STATUS)
  : M EFI_STATUS :=
  let release_newparent :=
    match NewParent with
    | None => inode_close newparent_ni
    | Some NP => File_set NP (set_NtfsInode newparent_ni)
    end in
  (if ParentIsChildOfNewParent then release_newparent else ret tt);;
  match Parent with
  | None => inode_close parent_ni
  | Some P => File_set P (set_NtfsInode parent_ni)
  end;;
  (if negb SameDir && negb ParentIsChildOfNewParent
   then release_newparent else ret tt);;
  ret Status.

(** NtfsMoveFile from "Re-complete the target path" on. [NewPath] is
    still cut at [Len]. *)
Definition NtfsMoveFile_link (File : addr) (NewPath : list CHAR16)
           (Len : nat) (Parent NewParent : option addr)
           (SameDir ParentIsChildOfNewParent : bool)
           (parent_ni newparent_ni : option addr)
           (parent_inum newparent_inum : Z) : M EFI_STATUS :=
  let out :=
    NtfsMoveFile_out Parent NewParent SameDir ParentIsChildOfNewParent in
  let NewPath := <[Len := PATH_CHAR]> NewPath in
  let newname := cstr (drop (S Len) NewPath) in
  (* Create the target *)
  let* f := File_get File in
  let ni := NtfsInode f in
  let dir := if SameDir then parent_ni else newparent_ni in
  let* r := lib_call (ntfs_link ni dir newname
                                (u8 (Z.of_nat (StrLen newname))))
                     (c_link ni dir newname
                             (u8 (Z.of_nat (StrLen newname)))) in
  if negb (r =? 0) then
    let* s := errno_status in out parent_ni newparent_ni s
  else
    (* Set the new FileName and BaseName *)
    let OldBaseName := BaseName_str f in
    File_set File (fun f => set_BaseName (S Len) (set_Path NewPath f));;
    (* Must close newparent_ni to keep ntfs-3g happy on delete *)
    (if negb SameDir then inode_close newparent_ni else ret tt);;
    (* Delete the old reference *)
    ni_get ni;;
    let* r :=
      lib_call (ntfs_delete ni parent_ni OldBaseName
                            (u8 (Z.of_nat (StrLen OldBaseName))))
               (c_delete ni parent_ni OldBaseName
                         (u8 (Z.of_nat (StrLen OldBaseName)))) in
    if negb (r =? 0) then
      let* s := errno_status in out parent_ni newparent_ni s
    else
      File_set File (set_NtfsInode None);;
      (* Above call closed parent_ni, so we need to reopen it *)
      let* parent_ni := inode_open parent_inum in
      (* And since we were also forced to close newparent_ni *)
      let* newparent_ni :=
        if negb SameDir then inode_open newparent_inum
        else ret newparent_ni in
      (* Update the inode *)
      let* f := File_get File in
      let* '(_, basename) := to_utf8 (BaseName_str f) "NtfsMoveFile" in
      ni_get parent_ni;;
      let dir := if SameDir then parent_ni else newparent_ni in
      let* ni := lib_call (ntfs_pathname_to_inode dir basename)
                          (c_pathname_to_inode dir basename) in
      match ni with
      | None =>
          let* s := errno_status in out parent_ni newparent_ni s
      | Some _ =>
          File_set File (set_NtfsInode ni);;
          let* i := ni_get ni in
          lib_call (ntfs_inode_update_mbsname dir basename (mft_no i))
                   (fun _ => c_update_mbsname dir basename (mft_no i));;
          (if negb SameDir
           then update_times newparent_ni NTFS_UPDATE_MCTIME
           else ret tt);;
          update_times parent_ni NTFS_UPDATE_MCTIME;;
          update_times ni NTFS_UPDATE_CTIME;;
          out parent_ni newparent_ni EFI_SUCCESS
      end.

(** The block if (!SameDir) { ... } of NtfsMoveFile, and what follows. *)
Definition NtfsMoveFile_newparent (File : addr) (NewPath : list CHAR16)
           (Len : nat) (Parent : option addr) (parent_ni : option addr)
           (parent_inum : Z) : M EFI_STATUS :=
  let* NewParent := NtfsLookup None NewPath 0 true in
  let* '(parent_ni, newparent_ni) :=
    match NewParent with
    | Some NP => let* npf := File_get NP in ret (parent_ni, NtfsInode npf)
    | None =>
        inode_close parent_ni;;
        let* newparent_ni := NtfsOpenInodeFromPath NewPath in
        let* parent_ni := inode_open parent_inum in
        ret (parent_ni, newparent_ni)
    end in
  match newparent_ni with
  | None =>
      let* s := errno_status in
      NtfsMoveFile_out Parent NewParent false false parent_ni newparent_ni s
  | Some _ =>
      let* npi := ni_get newparent_ni in
      let newparent_inum := mft_no npi in
      (* is 'newparent' the parent of 'parent'? *)
      poke_before_BaseName File 0;;
      let* f := File_get File in
      let* ParentIsChildOfNewParent :=
        if (0 <? Z.of_nat (StrLen (Path f))) then
          match rfind_sep (Path f) (StrLen (Path f)) with
          | None => undefined
          | Some TmpLen =>
              Path_poke File TmpLen 0;;
              let* f := File_get File in
              let c := StrCmp (Path f) NewPath =? 0 in
              Path_poke File TmpLen PATH_CHAR;;
              ret c
          end
        else ret false in
      poke_before_BaseName File PATH_CHAR;;
      NtfsMoveFile_link File NewPath Len Parent NewParent false
                        ParentIsChildOfNewParent parent_ni newparent_ni
                        parent_inum newparent_inum
  end.

Definition NtfsMoveFile (File : addr) (NewPath : list CHAR16)
  : M EFI_STATUS :=
  let* f := File_get File in
  (* Nothing to do if new and old paths are the same *)
  if StrCmp (Path f) NewPath =? 0 then ret EFI_SUCCESS
  else
    (* Don't alter a file that is dirty *)
    let* i := ni_get (NtfsInode f) in
    if IS_DIRTY i then ret EFI_ACCESS_DENIED
    else
      match rfind_sep NewPath (StrLen NewPath) with
      | None => undefined
      | Some Len =>
          let NewPath := <[Len := 0]> NewPath in
          let* Parent := NtfsLookupParent File in
          (* Isolate dirname and get the inode *)
          poke_before_BaseName File 0;;
          let* f := File_get File in
          let SameDir := StrCmp NewPath (Path f) =? 0 in
          let* parent_ni :=
            match Parent with
            | None => NtfsOpenInodeFromPath (Path f)
            | Some P => let* pf := File_get P in ret (NtfsInode pf)
            end in
          poke_before_BaseName File PATH_CHAR;;
          match parent_ni with
          | None =>
              let* s := errno_status in
              NtfsMoveFile_out Parent None SameDir false parent_ni None s
          | Some _ =>
              let* pi := ni_get parent_ni in
              let parent_inum := mft_no pi in
              (* Validate the new BaseName *)
              let newname := cstr (drop (S Len) NewPath) in
              let* forbidden :=
                lib_call (ntfs_forbidden_names
                            newname (Z.of_nat (StrLen newname)))
                         (c_forbidden_names
                            newname (Z.of_nat (StrLen newname))) in
              if (forbidden : bool) then
                NtfsMoveFile_out Parent None SameDir false parent_ni None
                                 EFI_INVALID_PARAMETER
              else if SameDir then
                NtfsMoveFile_link File NewPath Len Parent None true false
                                  parent_ni None parent_inum 0
              else
                NtfsMoveFile_newparent File NewPath Len Parent parent_ni
                                       parent_inum
          end
      end.

(** *** Setting the file information *)

Definition IS_PATH_DELIMITER (c : CHAR16) : bool :=
  (c =? PATH_CHAR) || (c =? DOS_PATH_CHAR).

Definition has_attr (Attribute flag : Z) : bool :=
  negb (Z.land Attribute flag =? 0).

(** The last part of NtfsSetFileInfo: the three times, where a value
    of zero causes the field to be ignored, and the attribute flags. *)
Definition NtfsSetFileInfo_fields (ni : option addr)
           (Info : EFI_FILE_INFO) : M unit :=
  (if time_is_set (CreateTime Info)
   then ni_set ni (set_creation_time
                     (EfiTimeToNtfsTime (CreateTime Info)))
   else ret tt);;
  (if time_is_set (LastAccessTime Info)
   then ni_set ni (set_last_access_time
                     (EfiTimeToNtfsTime (LastAccessTime Info)))
   else ret tt);;
  (if time_is_set (ModificationTime Info)
   then ni_set ni (set_last_data_change_time
                     (EfiTimeToNtfsTime (ModificationTime Info)))
   else ret tt);;
  ni_set ni (fun n =>
    set_flags (Z.land (flags n)
                 (Z.lnot (Z.lor (Z.lor FILE_ATTR_READONLY FILE_ATTR_HIDDEN)
                                (Z.lor FILE_ATTR_SYSTEM FILE_ATTR_ARCHIVE))))
              n);;
  let set_if (efi ntfs : Z) : M unit :=
    if has_attr (Attribute Info) efi
    then ni_set ni (fun n => set_flags (Z.lor (flags n) ntfs) n)
    else ret tt in
  set_if EFI_FILE_READ_ONLY FILE_ATTR_READONLY;;
  set_if EFI_FILE_HIDDEN FILE_ATTR_HIDDEN;;
  set_if EFI_FILE_SYSTEM FILE_ATTR_SYSTEM;;
  set_if EFI_FILE_ARCHIVE FILE_ATTR_ARCHIVE.

(** NtfsSetFileInfo up to the times: the move and the change of size.
    An early return gives its status. *)
Definition NtfsSetFileInfo_move_resize (File : addr)
           (Info : EFI_FILE_INFO) (ReadOnly : bool)
  : M (option EFI_STATUS) :=
  let* f := File_get File in
  let* moved :=
    (* If we get an absolute path, we might be moving the file *)
    if IS_PATH_DELIMITER (char_at (FileName Info) 0) then
      let* dup := lib_call AllocatePool c_AllocatePool in
      if negb dup then ret (Some EFI_OUT_OF_RESOURCES)
      else
        let NewPath :=
          CleanPath (map (fun c => if c =? DOS_PATH_CHAR then PATH_CHAR
                                   else c)
                         (cstr (FileName Info))) in
        if negb (StrCmp NewPath (Path f) =? 0) then
          (* Non attribute change of read-only file *)
          if ReadOnly then ret (Some EFI_ACCESS_DENIED)
          else
            let* Status := NtfsMoveFile File NewPath in
            if EFI_ERROR Status then ret (Some Status) else ret None
        else ret None
    else ret None in
  match moved with
  | Some Status => ret (Some Status)
  | None =>
      (* NtfsMoveFile() may have altered File->NtfsInode *)
      let* f := File_get File in
      let* ni := ni_get (NtfsInode f) in
      (* Info->FileSize is a UINT64 and ni->data_size an s64: they are
         compared as UINT64 *)
      if (IS_DIR ni =? 0) &&
         negb (u64 (FileSize Info) =? u64 (data_size ni)) then
        (* Non attribute change of read-only file *)
        if ReadOnly then ret (Some EFI_ACCESS_DENIED)
        else
          let* na := lib_call (ntfs_attr_open (NtfsInode f))
                              (c_attr_open (NtfsInode f)) in
          match na with
          | None =>
              PrintError "NtfsSetFileInfo ntfs_attr_open failed";;
              let* s := errno_status in ret (Some s)
          | Some na =>
              (* the new size is passed as an s64 *)
              let* r :=
                lib_call (ntfs_attr_truncate na (s64 (FileSize Info)))
                         (c_attr_truncate na (s64 (FileSize Info))) in
              lib_call (ntfs_attr_close na) (fun _ => c_attr_close na);;
              if negb (r =? 0) then
                PrintError "NtfsSetFileInfo ntfs_attr_truncate failed";;
                let* s := errno_status in ret (Some s)
              else ret None
          end
      else ret None
  end.

Definition NtfsSetFileInfo (File : addr) (Info : EFI_FILE_INFO)
           (ReadOnly : bool) : M EFI_STATUS :=
  let* f := File_get File in
  let* ni := ni_get (NtfsInode f) in
  (* Per UEFI specs, trying to change type should return access denied *)
  if ((IS_DIR ni =? 0) && has_attr (Attribute Info) EFI_FILE_DIRECTORY) ||
     (negb (IS_DIR ni =? 0) &&
      negb (has_attr (Attribute Info) EFI_FILE_DIRECTORY))
  then ret EFI_ACCESS_DENIED
  else if ReadOnly &&
          (time_is_set (CreateTime Info) ||
           time_is_set (LastAccessTime Info) ||
           time_is_set (ModificationTime Info))
  then ret EFI_ACCESS_DENIED
  else
    let* early := NtfsSetFileInfo_move_resize File Info ReadOnly in
    match early with
    | Some Status => ret Status
    | None =>
        let* f := File_get File in
        NtfsSetFileInfo_fields (NtfsInode f) Info;;
        (* No sync: change of attributes apply on close *)
        ret EFI_SUCCESS
    end.
End Bridge.

(** ** A scripted library

    A stand-in for the library, for running the bridge on concrete
    inputs: the calls that resolve, create, delete, link, sync, read or
    truncate take their answer from a script; closing an inode frees
    it, pool allocations succeed, names convert unit by unit. *)

Inductive reply : Set :=
| r_inode (ni : ntfs_inode)   (* an inode is opened, with these fields *)
| r_int (z : Z)               (* the call returns z *)
| r_fail (e : Z).             (* the call fails and sets errno to e *)

Record script : Set := { replies : list reply; next_addr : addr }.

Definition scripted_next (w : world script) (rest : list reply)
  : world script :=
  World {| replies := rest; next_addr := next_addr (vol w) |}
        (inodes w) (errno w).

Definition scripted_inode (w : world script)
  : option addr * world script :=
  match replies (vol w) with
  | r_inode ni :: rest =>
      (Some (next_addr (vol w)),
       World {| replies := rest; next_addr := N.succ (next_addr (vol w)) |}
             (<[next_addr (vol w) := ni]> (inodes w)) (errno w))
  | r_fail e :: rest =>
      (None, World {| replies := rest; next_addr := next_addr (vol w) |}
                   (inodes w) e)
  | r_int _ :: rest => (None, scripted_next w rest)
  | [] => (None, w)
  end.

Definition scripted_int (w : world script) : Z * world script :=
  match replies (vol w) with
  | r_int z :: rest => (z, scripted_next w rest)
  | r_fail e :: rest =>
      (-1, World {| replies := rest; next_addr := next_addr (vol w) |}
                 (inodes w) e)
  | r_inode _ :: rest => (-1, scripted_next w rest)
  | [] => (-1, w)
  end.

Definition scripted_attr (w : world script)
  : option ntfs_attr * world script :=
  match replies (vol w) with
  | r_int z :: rest =>
      (Some {| na_handle := next_addr (vol w); na_data_size := z |},
       World {| replies := rest; next_addr := N.succ (next_addr (vol w)) |}
             (inodes w) (errno w))
  | r_fail e :: rest =>
      (None, World {| replies := rest; next_addr := next_addr (vol w) |}
                   (inodes w) e)
  | r_inode _ :: rest => (None, scripted_next w rest)
  | [] => (None, w)
  end.

Definition scripted_close (ni : option addr) (w : world script)
  : Z * world script :=
  match ni with
  | Some p => (0, World (vol w) (delete p (inodes w)) (errno w))
  | None => (0, w)
  end.

#[global] Instance scripted : libntfs script := {|
  AllocatePool := fun w => (true, w);
  GetInodeNumber := fun mref => Z.land mref (2 ^ 48 - 1);
  EfiTimeToNtfsTime := fun t => Year t;
  CleanPath := fun p => p;
  NVolReadOnly := fun _ => false;
  ntfs_ucstombs := fun src w => ((Z.of_nat (length src), Some src), w);
  ntfs_inode_open := fun _ => scripted_inode;
  ntfs_inode_close := scripted_close;
  ntfs_pathname_to_inode := fun _ _ => scripted_inode;
  ntfs_inode_sync := fun _ => scripted_int;
  ntfs_delete := fun _ _ _ _ => scripted_int;
  ntfs_link := fun _ _ _ _ => scripted_int;
  ntfs_create := fun _ _ _ _ => scripted_inode;
  ntfs_forbidden_names := fun _ _ w => (false, w);
  ntfs_inode_update_mbsname := fun _ _ _ w => (tt, w);
  ntfs_inode_update_times := fun _ _ w => (tt, w);
  ntfs_attr_open := fun _ => scripted_attr;
  ntfs_attr_close := fun _ w => (tt, w);
  ntfs_attr_pread := fun _ _ _ => scripted_int;
  ntfs_attr_truncate := fun _ _ => scripted_int
|}.

(** The firmware pool when memory is low: an allocation fails when the
    next reply of the script is a failure, which it takes, and succeeds
    otherwise. *)
Definition scripted_pool (w : world script) : bool * world script :=
  match replies (vol w) with
  | r_fail _ :: rest => (false, scripted_next w rest)
  | _ => (true, w)
  end.

(** The scripted library over that pool. *)
Definition low_memory : libntfs script := {|
  AllocatePool := scripted_pool;
  GetInodeNumber := fun mref => Z.land mref (2 ^ 48 - 1);
  EfiTimeToNtfsTime := fun t => Year t;
  CleanPath := fun p => p;
  NVolReadOnly := fun _ => false;
  ntfs_ucstombs := fun src w => ((Z.of_nat (length src), Some src), w);
  ntfs_inode_open := fun _ => scripted_inode;
  ntfs_inode_close := scripted_close;
  ntfs_pathname_to_inode := fun _ _ => scripted_inode;
  ntfs_inode_sync := fun _ => scripted_int;
  ntfs_delete := fun _ _ _ _ => scripted_int;
  ntfs_link := fun _ _ _ _ => scripted_int;
  ntfs_create := fun _ _ _ _ => scripted_inode;
  ntfs_forbidden_names := fun _ _ w => (false, w);
  ntfs_inode_update_mbsname := fun _ _ _ w => (tt, w);
  ntfs_inode_update_times := fun _ _ w => (tt, w);
  ntfs_attr_open := fun _ => scripted_attr;
  ntfs_attr_close := fun _ w => (tt, w);
  ntfs_attr_pread := fun _ _ _ => scripted_int;
  ntfs_attr_truncate := fun _ _ => scripted_int
|}.

(** A clean inode of a regular file or of a directory. *)
Definition file_inode (mft size : Z) : ntfs_inode :=
  {| mft_no := mft; flags := 0; mrec_flags := 0; NInoDirty := false;
     NInoAttrListDirty := false; data_size := size;
     allocated_size := size; creation_time := 0;
     last_data_change_time := 0; last_mft_change_time := 0;
     last_access_time := 0 |}.
Definition dir_inode (mft : Z) : ntfs_inode :=
  {| mft_no := mft; flags := 0; mrec_flags := MFT_RECORD_IS_DIRECTORY;
     NInoDirty := false; NInoAttrListDirty := false; data_size := 0;
     allocated_size := 0; creation_time := 0;
     last_data_change_time := 0; last_mft_change_time := 0;
     last_access_time := 0 |}.
Definition dirty (ni : ntfs_inode) : ntfs_inode :=
  {| mft_no := mft_no ni; flags := flags ni; mrec_flags := mrec_flags ni;
     NInoDirty := true; NInoAttrListDirty := NInoAttrListDirty ni;
     data_size := data_size ni; allocated_size := allocated_size ni;
     creation_time := creation_time ni;
     last_data_change_time := last_data_change_time ni;
     last_mft_change_time := last_mft_change_time ni;
     last_access_time := last_access_time ni |}.

(** The last separator of a path. *)
Fixpoint last_sep (path : list CHAR16) (i : nat) : nat :=
  match path with
  | [] => 0
  | c :: rest =>
      let j := last_sep rest (S i) in
      if (j =? 0)%nat then (if c =? PATH_CHAR then S i else 0%nat) else j
  end.

(** A file instance as the caller of NtfsOpenFile prepares it: zeroed,
    with its path and the base name after the last separator. *)
Definition new_file (path : string) (isdir : Z) : EFI_NTFS_FILE :=
  {| IsDir := isdir; IsRoot := false; DirPos := 0; Offset := 0;
     Path := L path; BaseName := last_sep (L path) 0; RefCount := 0;
     NtfsInode := None |}.

(** A freshly mounted volume: an empty lookup list, the given file
    instances allocated, the library about to follow [replies]. *)
Definition mounted (fs : list (addr * EFI_NTFS_FILE))
           (replies : list reply) : state script :=
  State (World {| replies := replies; next_addr := 100 |} ∅ 0)
        (list_to_map fs) [] [] [].

(** ** Auxiliary definitions for the statements *)

(** The state with the inode at [p] replaced. *)
Definition with_inode {V} (p : addr) (n : ntfs_inode) (st : state V)
  : state V :=
  State (World (vol (env st)) (<[p := n]> (inodes (env st)))
               (errno (env st)))
        (files st) (LookupListHead st) (calls st) (errlog st).

(** What NtfsSetFileInfo stores into the inode once the move and the
    resize are done. *)
Definition info_fields `{libntfs V} (Info : EFI_FILE_INFO)
           (n : ntfs_inode) : ntfs_inode :=
  let n := if time_is_set (CreateTime Info)
           then set_creation_time (EfiTimeToNtfsTime (CreateTime Info)) n
           else n in
  let n := if time_is_set (LastAccessTime Info)
           then set_last_access_time
                  (EfiTimeToNtfsTime (LastAccessTime Info)) n
           else n in
  let n := if time_is_set (ModificationTime Info)
           then set_last_data_change_time
                  (EfiTimeToNtfsTime (ModificationTime Info)) n
           else n in
  let n := set_flags
             (Z.land (flags n)
                (Z.lnot (Z.lor (Z.lor FILE_ATTR_READONLY FILE_ATTR_HIDDEN)
                               (Z.lor FILE_ATTR_SYSTEM FILE_ATTR_ARCHIVE))))
             n in
  let set_if (efi ntfs : Z) (n : ntfs_inode) :=
    if has_attr (Attribute Info) efi
    then set_flags (Z.lor (flags n) ntfs) n else n in
  set_if EFI_FILE_ARCHIVE FILE_ATTR_ARCHIVE
    (set_if EFI_FILE_SYSTEM FILE_ATTR_SYSTEM
       (set_if EFI_FILE_HIDDEN FILE_ATTR_HIDDEN
          (set_if EFI_FILE_READ_ONLY FILE_ATTR_READONLY n))).

(** The results of the ntfs_delete calls among [cs], in order. *)
Definition delete_results (cs : list call) : list Z :=
  flat_map (fun c => match c with
                     | c_delete _ _ _ _ r => [r]
                     | _ => []
                     end) cs.

(** The state with the file instance at [F] replaced. *)
Definition with_file {V} (F : addr) (f : EFI_NTFS_FILE) (st : state V)
  : state V :=
  State (env st) (<[F := f]> (files st)) (LookupListHead st) (calls st)
        (errlog st).

(** The state after a library call recorded as [e] that left the
    world [w]. *)
Definition called {V} (w : world V) (e : call) (st : state V) : state V :=
  State w (files st) (LookupListHead st) (calls st ++ [e]) (errlog st).

(** The path of [f] cut before its base name, and the path afterwards. *)
Definition cut_file (i : nat) (f : EFI_NTFS_FILE) : EFI_NTFS_FILE :=
  set_Path (<[i := 0]> (Path f)) f.
Definition uncut_file (i : nat) (f : EFI_NTFS_FILE) : EFI_NTFS_FILE :=
  set_Path (<[i := PATH_CHAR]> (Path f)) f.

(** ** Concrete volumes for the examples *)

(** A volume with the file instances [fs] all in the lookup list and
    the inodes [nis] open. *)
Definition opened (fs : list (addr * EFI_NTFS_FILE))
           (nis : list (addr * ntfs_inode)) (replies : list reply)
  : state script :=
  State (World {| replies := replies; next_addr := 200 |}
               (list_to_map nis) 0)
        (list_to_map fs) (map fst fs) [] [].

(** /a is open and its inode is dirty. *)
Definition st_dirty : state script :=
  opened [(1%N, set_NtfsInode (Some 100%N) (new_file "/a" 0))]
         [(100%N, dirty (file_inode 64 10))] [].

(** /d and /d/f are open and clean. *)
Definition st_tree (replies : list reply) : state script :=
  opened [(1%N, set_NtfsInode (Some 100%N) (new_file "/d" 16));
          (2%N, set_NtfsInode (Some 101%N) (new_file "/d/f" 0))]
         [(100%N, dir_inode 70); (101%N, file_inode 71 10)]
         replies.


(** ntfs_delete will fail with EACCES. *)
Definition st_delete_fails : state script := st_tree [r_fail 13].

(** ntfs_delete will succeed, then ntfs_inode_open will fail with EIO. *)
Definition st_reopen_fails : state script := st_tree [r_int 0; r_fail 5].

(** /a is open and clean. *)
Definition st_info : state script :=
  opened [(1%N, set_NtfsInode (Some 100%N) (new_file "/a" 0))]
         [(100%N, file_inode 64 10)] [].

(** A file information that only sets the last access time. *)
Definition info_atime : EFI_FILE_INFO :=
  {| FileSize := 10; CreateTime := ZeroTime;
     LastAccessTime :=
       {| Year := 2020; Month := 1; Day := 1; Hour := 0; Minute := 0;
          Second := 0; Pad1 := 0; Nanosecond := 0; TimeZone := 0;
          Daylight := 0; Pad2 := 0 |};
     ModificationTime := ZeroTime; Attribute := 0; FileName := [] |}.

(** [st'] has the file instances and the lookup list of [st], and no
    ntfs_delete call was made in between. *)
Definition same_registry {V} (st st' : state V) : Prop :=
  files st' = files st /\
  LookupListHead st' = LookupListHead st /\
  delete_results (calls st') = delete_results (calls st).

(** [st'] has the lookup list of [st], and no ntfs_delete call was made
    in between; file instances may have changed. *)
Definition same_list {V} (st st' : state V) : Prop :=
  LookupListHead st' = LookupListHead st /\
  delete_results (calls st') = delete_results (calls st).

(** A file information that renames to /b and changes nothing else. *)
Definition info_rename : EFI_FILE_INFO :=
  {| FileSize := 10; CreateTime := ZeroTime; LastAccessTime := ZeroTime;
     ModificationTime := ZeroTime; Attribute := 0; FileName := L "/b" |}.

(** /a is about to be opened and renamed to /b: the library will open
    /a, open the root directory, link, delete, reopen the root, and then
    fail to find /b (ENOENT). *)
Definition st_rename_fails : state script :=
  mounted [(1%N, new_file "/a" 0)]
          [r_inode (file_inode 64 10); r_inode (dir_inode 5); r_int 0;
           r_int 0; r_inode (dir_inode 5); r_fail 2].


(** Two new file instances for /a; the library will open /a. *)
Definition st_open_twice : state script :=
  mounted [(1%N, new_file "/a" 0); (3%N, new_file "/a" 0)]
          [r_inode (file_inode 64 10)].

(** Two new instances with the path /a are about to be opened while
    memory is low: the pool will have no lookup entry for the first. *)
Definition st_open_low_memory : state script :=
  mounted [(1%N, new_file "/a" 0); (3%N, new_file "/a" 0)]
          [r_inode (file_inode 64 10); r_fail 12;
           r_inode (file_inode 64 10)].

(** The sum of the results of partial reads or writes. *)
Definition total (rs : list Z) : Z := foldr Z.add 0 rs.


(** The same for the ntfs_attr_pwrite calls of a loop. *)
Fixpoint pwrite_calls (na : ntfs_attr) (pos count src : Z) (rs : list Z)
  : list call :=
  match rs with
  | [] => []
  | r :: rest =>
      c_attr_pwrite na pos count src r ::
      pwrite_calls na (pos + r) (count - r) (src + r) rest
  end.


(** ** The lookup list as an invariant *)

(** The base name of a file instance starts after a separator of its
    path (the assertion before every File->BaseName[-1] = 0). *)
Definition wf_file (f : EFI_NTFS_FILE) : Prop :=
  exists i, BaseName f = S i /\ Path f !! i = Some PATH_CHAR.

Definition all_wf {V} (st : state V) : Prop :=
  forall F f, files st !! F = Some f -> wf_file f.

(** The claim of a single open inode per on-disk object: two entries of
    the lookup list whose inodes have the same MFT number are one. *)
Definition single_open {V} (st : state V) : Prop :=
  forall F G f g p q i j,
    F ∈ LookupListHead st -> G ∈ LookupListHead st ->
    files st !! F = Some f -> files st !! G = Some g ->
    NtfsInode f = Some p -> NtfsInode g = Some q ->
    inodes (env st) !! p = Some i -> inodes (env st) !! q = Some j ->
    mft_no i = mft_no j -> F = G.


(** The file instances of [st'] are instances of [st], with the path
    and base name they had. *)
Definition files_kept {V} (st st' : state V) : Prop :=
  forall G g', files st' !! G = Some g' ->
               exists g, files st !! G = Some g /\
                         Path g' = Path g /\ BaseName g' = BaseName g.

(** No file instance of [st] was freed. *)
Definition alloc_kept {V} (st st' : state V) : Prop :=
  forall G, is_Some (files st !! G) -> is_Some (files st' !! G).

(** A step of an operation that adds nothing to the lookup list and,
    unless [rem], removes nothing from it. *)
Definition evolve {V} (rem : bool) (st st' : state V) : Prop :=
  files_kept st st' /\ alloc_kept st st' /\
  if rem then sublist (LookupListHead st') (LookupListHead st)
  else LookupListHead st' = LookupListHead st.

(** Two hard links /a and /b to one file are about to be opened. *)
Definition st_hard_links : state script :=
  mounted [(1%N, new_file "/a" 0); (2%N, new_file "/b" 0)]
          [r_inode (file_inode 64 10); r_inode (file_inode 64 10)].


(** The state with the file instance at [F] freed. *)
Definition without_file {V} (F : addr) (st : state V) : state V :=
  State (env st) (delete F (files st)) (LookupListHead st) (calls st)
        (errlog st).

(** A step of an operation that keeps the lookup list and the file
    instances, except that it may give the instance [F] the path
    [target]. *)
Definition moved {V} (F : addr) (target : list CHAR16) (st st' : state V)
  : Prop :=
  (forall G g', files st' !! G = Some g' ->
     exists g, files st !! G = Some g /\
       ((Path g' = Path g /\ BaseName g' = BaseName g) \/
        (G = F /\ Path g' = target /\ wf_file g'))) /\
  alloc_kept st st' /\ LookupListHead st' = LookupListHead st.

(** The path that NtfsSetFileInfo moves a file to: the file name of the
    information, with its separators converted, cleaned. *)
Definition move_target {V} {lib : libntfs V} (Info : EFI_FILE_INFO)
  : list CHAR16 :=
  CleanPath (map (fun c => if c =? DOS_PATH_CHAR then PATH_CHAR else c)
                 (cstr (FileName Info))).

Section Sequences.
Context {E : errno_h} {V : Type} {lib : libntfs V}.

(** One step of a caller of the bridge: it allocates a file instance
    with a path, opens or creates with an instance that is not in the
    lookup list, closes, deletes or flushes any instance, sets the
    information of an instance (which moves it when the information has
    another path) towards a path that no other listed instance has, or
    frees an instance that is not in the lookup list. *)
Inductive step : state V -> state V -> Prop :=
| step_allocate (st : state V) (F : addr) (f : EFI_NTFS_FILE) :
    files st !! F = None -> F ∉ LookupListHead st -> wf_file f ->
    step st (with_file F f st)
| step_open (st st' : state V) (F : addr) (r : EFI_STATUS * addr) :
    F ∉ LookupListHead st ->
    NtfsOpenFile F st = Some (r, st') -> step st st'
| step_create (st st' : state V) (F : addr) (r : EFI_STATUS * addr) :
    F ∉ LookupListHead st ->
    NtfsCreateFile F st = Some (r, st') -> step st st'
| step_close (st st' : state V) (F : option addr) :
    NtfsCloseFile F st = Some (tt, st') -> step st st'
| step_delete (st st' : state V) (F : addr) (Status : EFI_STATUS) :
    NtfsDeleteFile F st = Some (Status, st') -> step st st'
| step_flush (st st' : state V) (F : addr) (Status : EFI_STATUS) :
    NtfsFlushFile F st = Some (Status, st') -> step st st'
| step_set_info (st st' : state V) (F : addr) (Info : EFI_FILE_INFO)
                (ReadOnly : bool) (Status : EFI_STATUS) :
    (forall G g, G ∈ LookupListHead st -> G <> F ->
                 files st !! G = Some g ->
                 cstr (Path g) <> cstr (move_target Info)) ->
    NtfsSetFileInfo F Info ReadOnly st = Some (Status, st') -> step st st'
| step_free (st : state V) (F : addr) :
    F ∉ LookupListHead st -> step st (without_file F st).
End Sequences.

(** ** The rest of the bridge *)

(** *** Setting errno from a status *)

(** The numeric values of the status names come from the platform's
    UEFI headers. NtfsSetErrno receives its status as a UINTN, which
    need not be the value of any name. *)
Class efi_status_h : Set := { status_code : EFI_STATUS -> Z }.

(** ENCODE_ERROR(): the high bit of a 64-bit UINTN is set. *)
Definition ENCODE_ERROR (n : Z) : Z := Z.lor (2 ^ 63) n.

(** The values the UEFI specification gives the names, for a 64-bit
    UINTN. *)
Definition uefi_64 : efi_status_h := {|
  status_code := fun s =>
    match s with
    | EFI_SUCCESS => 0
    | EFI_LOAD_ERROR => ENCODE_ERROR 1
    | EFI_INVALID_PARAMETER => ENCODE_ERROR 2
    | EFI_UNSUPPORTED => ENCODE_ERROR 3
    | EFI_BAD_BUFFER_SIZE => ENCODE_ERROR 4
    | EFI_BUFFER_TOO_SMALL => ENCODE_ERROR 5
    | EFI_NOT_READY => ENCODE_ERROR 6
    | EFI_DEVICE_ERROR => ENCODE_ERROR 7
    | EFI_WRITE_PROTECTED => ENCODE_ERROR 8
    | EFI_OUT_OF_RESOURCES => ENCODE_ERROR 9
    | EFI_VOLUME_CORRUPTED => ENCODE_ERROR 10
    | EFI_VOLUME_FULL => ENCODE_ERROR 11
    | EFI_NO_MEDIA => ENCODE_ERROR 12
    | EFI_MEDIA_CHANGED => ENCODE_ERROR 13
    | EFI_NOT_FOUND => ENCODE_ERROR 14
    | EFI_ACCESS_DENIED => ENCODE_ERROR 15
    | EFI_NO_RESPONSE => ENCODE_ERROR 16
    | EFI_NO_MAPPING => ENCODE_ERROR 17
    | EFI_TIMEOUT => ENCODE_ERROR 18
    | EFI_NOT_STARTED => ENCODE_ERROR 19
    | EFI_ALREADY_STARTED => ENCODE_ERROR 20
    | EFI_ABORTED => ENCODE_ERROR 21
    | EFI_ICMP_ERROR => ENCODE_ERROR 22
    | EFI_TFTP_ERROR => ENCODE_ERROR 23
    | EFI_PROTOCOL_ERROR => ENCODE_ERROR 24
    | EFI_INCOMPATIBLE_VERSION => ENCODE_ERROR 25
    | EFI_SECURITY_VIOLATION => ENCODE_ERROR 26
    | EFI_CRC_ERROR => ENCODE_ERROR 27
    | EFI_END_OF_MEDIA => ENCODE_ERROR 28
    | EFI_END_OF_FILE => ENCODE_ERROR 31
    | EFI_INVALID_LANGUAGE => ENCODE_ERROR 32
    | EFI_COMPROMISED_DATA => ENCODE_ERROR 33
    | EFI_WARN_DELETE_FAILURE => 2
    end
|}.

Section SetErrno.
Context {E : errno_h} {C : efi_status_h}.

(** The case groups of the switch in NtfsSetErrno, in source order, each
    with the value it stores into errno. EFI_COMPROMISED_DATA and
    EFI_NO_MAPPING share the statement of the default label. *)
Definition status_groups : list (list EFI_STATUS * Z) :=
  [ ([EFI_SUCCESS], 0);
    ([EFI_LOAD_ERROR], ENOEXEC);
    ([EFI_INVALID_PARAMETER], EINVAL);
    ([EFI_UNSUPPORTED], ENOTSUP);
    ([EFI_BAD_BUFFER_SIZE], EMSGSIZE);
    ([EFI_BUFFER_TOO_SMALL], E2BIG);
    ([EFI_NOT_READY], EAGAIN);
    ([EFI_DEVICE_ERROR], ENODEV);
    ([EFI_MEDIA_CHANGED; EFI_NO_MEDIA], ENOMEDIUM);
    ([EFI_WRITE_PROTECTED], EROFS);
    ([EFI_OUT_OF_RESOURCES], ENOMEM);
    ([EFI_VOLUME_CORRUPTED], EXDEV);
    ([EFI_VOLUME_FULL], ENOSPC);
    ([EFI_NOT_FOUND], ENOENT);
    ([EFI_ACCESS_DENIED], EACCES);
    ([EFI_NO_RESPONSE], EBUSY);
    ([EFI_TIMEOUT], ETIMEDOUT);
    ([EFI_NOT_STARTED], ESRCH);
    ([EFI_ALREADY_STARTED], EALREADY);
    ([EFI_ABORTED], ECANCELED);
    ([EFI_ICMP_ERROR; EFI_TFTP_ERROR; EFI_CRC_ERROR; EFI_PROTOCOL_ERROR;
      EFI_INVALID_LANGUAGE], EPROTO);
    ([EFI_INCOMPATIBLE_VERSION], ENOEXEC);
    ([EFI_SECURITY_VIOLATION], EPERM);
    ([EFI_END_OF_MEDIA], EFBIG);
    ([EFI_END_OF_FILE], ESPIPE);
    ([EFI_COMPROMISED_DATA; EFI_NO_MAPPING], EFAULT) ].

(** A C switch on a status: the group one of whose labels has the
    value, else the default. *)
Fixpoint switch_status (x : Z) (groups : list (list EFI_STATUS * Z))
         (default : Z) : Z :=
  match groups with
  | [] => default
  | (labels, e) :: rest =>
      if existsb (fun s => x =? status_code s) labels then e
      else switch_status x rest default
  end.

(** The switch of NtfsSetErrno(): the value it stores into errno. *)
Definition NtfsSetErrno_value (Status : Z) : Z :=
  switch_status Status status_groups EFAULT.

(** NtfsSetErrno(Status), for any value of the UINTN. *)
Definition NtfsSetErrno {V} (Status : Z) : M V unit :=
  fun st => Some (tt, State (World (vol (env st)) (inodes (env st))
                                   (NtfsSetErrno_value Status))
                            (files st) (LookupListHead st) (calls st)
                            (errlog st)).

(** All the case labels of the switch of NtfsSetErrno. *)
Definition status_labels : list EFI_STATUS :=
  concat (map fst status_groups).

(** A C compiler only accepts a switch whose case labels are distinct. *)
Definition status_labels_distinct : Prop :=
  NoDup (map status_code status_labels).

(** The statuses that NtfsSetErrno() maps to an errno that
    ErrnoToEfiStatus() maps back to them. *)
Definition restored : list EFI_STATUS :=
  [EFI_SUCCESS; EFI_LOAD_ERROR; EFI_INVALID_PARAMETER; EFI_UNSUPPORTED;
   EFI_BAD_BUFFER_SIZE; EFI_BUFFER_TOO_SMALL; EFI_NOT_READY;
   EFI_DEVICE_ERROR; EFI_NO_MEDIA; EFI_WRITE_PROTECTED;
   EFI_OUT_OF_RESOURCES; EFI_VOLUME_CORRUPTED; EFI_VOLUME_FULL;
   EFI_NOT_FOUND; EFI_ACCESS_DENIED; EFI_NO_RESPONSE; EFI_TIMEOUT;
   EFI_NOT_STARTED; EFI_ALREADY_STARTED; EFI_ABORTED; EFI_PROTOCOL_ERROR;
   EFI_SECURITY_VIOLATION; EFI_END_OF_MEDIA; EFI_END_OF_FILE].
End SetErrno.


(** *** The rest of the library

    The library functions, constants and types that the functions below
    use beside those of [libntfs]. *)

(** What NtfsMountVolume reads of the ntfs_volume it gets. *)
Record ntfs_volume : Set := {
  vol_handle : addr;
  vol_serial : Z;
  vol_name : mbs
}.

(** The values of ntfs_volume_error() that NtfsMountVolume tells
    apart. *)
Inductive volume_error : Set :=
| NTFS_VOLUME_CORRUPT
| NTFS_VOLUME_LOCKED
| NTFS_VOLUME_NO_PRIVILEGE
| NTFS_VOLUME_OUT_OF_MEMORY
| NTFS_VOLUME_other.

(** The Type parameter of NtfsGetEfiTime. *)
Inductive time_type : Set :=
| TIME_CREATED
| TIME_ACCESSED
| TIME_MODIFIED
| TIME_other.

Class libntfs_more (V : Type) : Type := {
  (* uefi_support.h: UnixTimeToEfiTime(NTFS_TO_UNIX_TIME()) *)
  NTFS_TIME_OFFSET : Z;
  NtfsTimeToEfiTime : Z -> EFI_TIME;
  ntfs_attr_pwrite : ntfs_attr -> Z -> Z -> world V -> Z * world V;
  NTFS_MNT_EXCLUSIVE : Z;
  NTFS_MNT_IGNORE_HIBERFILE : Z;
  NTFS_MNT_MAY_RDONLY : Z;
  ntfs_log_set_handler : world V -> unit * world V;
  ntfs_mount : option mbs -> Z -> world V -> option ntfs_volume * world V;
  ntfs_volume_error : Z -> volume_error;
  ntfs_volume_get_free_space : addr -> world V -> unit * world V;
  (* the new value of the pointer it is given the address of *)
  ntfs_mbstoucs :
    mbs -> option (list CHAR16) -> world V ->
    option (list CHAR16) * world V;
  ntfs_log_clear_flags : Z -> world V -> unit * world V;
  ntfs_log_set_flags : Z -> world V -> unit * world V;
  ntfs_log_clear_levels : Z -> world V -> unit * world V;
  ntfs_log_set_levels : Z -> world V -> unit * world V
}.

(** The log levels of the driver (uefi_logging.h) and of the library
    (logging.h). *)
Class log_h : Set := {
  FS_LOGLEVEL_ERROR : Z;
  FS_LOGLEVEL_WARNING : Z;
  FS_LOGLEVEL_INFO : Z;
  FS_LOGLEVEL_DEBUG : Z;
  FS_LOGLEVEL_EXTRA : Z;
  NTFS_LOG_LEVEL_DEBUG : Z;
  NTFS_LOG_LEVEL_TRACE : Z;
  NTFS_LOG_LEVEL_QUIET : Z;
  NTFS_LOG_LEVEL_INFO : Z;
  NTFS_LOG_LEVEL_VERBOSE : Z;
  NTFS_LOG_LEVEL_PROGRESS : Z;
  NTFS_LOG_LEVEL_WARNING : Z;
  NTFS_LOG_LEVEL_ERROR : Z;
  NTFS_LOG_LEVEL_PERROR : Z;
  NTFS_LOG_LEVEL_CRITICAL : Z;
  NTFS_LOG_FLAG_PREFIX : Z
}.

Definition UINT32_MAX : Z := 2 ^ 32 - 1.

(** The fields of EFI_FS that NtfsMountVolume reads or writes. *)
Record EFI_FS : Set := {
  DevicePathString : list CHAR16;
  MountCount : Z;
  NtfsVolume : option addr;
  NtfsVolumeLabel : option (list CHAR16);
  NtfsVolumeSerial : Z
}.

Definition set_MountCount (v : Z) (fs : EFI_FS) : EFI_FS :=
  {| DevicePathString := DevicePathString fs; MountCount := v;
     NtfsVolume := NtfsVolume fs; NtfsVolumeLabel := NtfsVolumeLabel fs;
     NtfsVolumeSerial := NtfsVolumeSerial fs |}.
Definition set_NtfsVolume (v : option addr) (fs : EFI_FS) : EFI_FS :=
  {| DevicePathString := DevicePathString fs; MountCount := MountCount fs;
     NtfsVolume := v; NtfsVolumeLabel := NtfsVolumeLabel fs;
     NtfsVolumeSerial := NtfsVolumeSerial fs |}.
Definition set_NtfsVolumeLabel (v : option (list CHAR16)) (fs : EFI_FS)
  : EFI_FS :=
  {| DevicePathString := DevicePathString fs; MountCount := MountCount fs;
     NtfsVolume := NtfsVolume fs; NtfsVolumeLabel := v;
     NtfsVolumeSerial := NtfsVolumeSerial fs |}.
Definition set_NtfsVolumeSerial (v : Z) (fs : EFI_FS) : EFI_FS :=
  {| DevicePathString := DevicePathString fs; MountCount := MountCount fs;
     NtfsVolume := NtfsVolume fs; NtfsVolumeLabel := NtfsVolumeLabel fs;
     NtfsVolumeSerial := v |}.

Definition set_FileSize (v : Z) (i : EFI_FILE_INFO) : EFI_FILE_INFO :=
  {| FileSize := v; CreateTime := CreateTime i;
     LastAccessTime := LastAccessTime i;
     ModificationTime := ModificationTime i; Attribute := Attribute i;
     FileName := FileName i |}.
Definition set_times (c a m : EFI_TIME) (i : EFI_FILE_INFO)
  : EFI_FILE_INFO :=
  {| FileSize := FileSize i; CreateTime := c; LastAccessTime := a;
     ModificationTime := m; Attribute := Attribute i;
     FileName := FileName i |}.
Definition set_Attribute (v : Z) (i : EFI_FILE_INFO) : EFI_FILE_INFO :=
  {| FileSize := FileSize i; CreateTime := CreateTime i;
     LastAccessTime := LastAccessTime i;
     ModificationTime := ModificationTime i; Attribute := v;
     FileName := FileName i |}.

Section Logger.
Context {G : log_h}.

(** The levels NtfsSetLogger computes for a driver log level. *)
Definition NtfsSetLogger_levels (Level : Z) : Z :=
  (* Critical log level is always enabled *)
  let levels := NTFS_LOG_LEVEL_CRITICAL in
  let levels :=
    if Level >=? FS_LOGLEVEL_ERROR
    then Z.lor levels (Z.lor NTFS_LOG_LEVEL_ERROR NTFS_LOG_LEVEL_PERROR)
    else levels in
  let levels :=
    if Level >=? FS_LOGLEVEL_WARNING
    then Z.lor levels NTFS_LOG_LEVEL_WARNING
    else levels in
  let levels :=
    if Level >=? FS_LOGLEVEL_INFO
    then Z.lor levels
               (Z.lor (Z.lor NTFS_LOG_LEVEL_INFO NTFS_LOG_LEVEL_VERBOSE)
                      NTFS_LOG_LEVEL_PROGRESS)
    else levels in
  let levels :=
    if Level >=? FS_LOGLEVEL_DEBUG
    then Z.lor levels (Z.lor NTFS_LOG_LEVEL_DEBUG NTFS_LOG_LEVEL_QUIET)
    else levels in
  if Level >=? FS_LOGLEVEL_EXTRA
  then Z.lor levels NTFS_LOG_LEVEL_TRACE
  else levels.
End Logger.

Section More.
Context {E : errno_h} {G : log_h} {V : Type} {lib : libntfs V}
        {more : libntfs_more V}.

#[local] Abbreviation M := (M V).

(** A call of a library function for which [call] has no event: it
    runs on the shared world. *)
Definition lib_run {R} (f : world V -> R * world V) : M R :=
  fun st => let '(r, w) := f (env st) in
            Some (r, State w (files st) (LookupListHead st) (calls st)
                           (errlog st)).

(** *** Logging *)

Definition NtfsSetLogger (Level : Z) : M unit :=
  lib_run (ntfs_log_clear_flags UINT32_MAX);;
  lib_run (ntfs_log_set_flags NTFS_LOG_FLAG_PREFIX);;
  lib_run (ntfs_log_clear_levels UINT32_MAX);;
  lib_run (ntfs_log_set_levels (NtfsSetLogger_levels Level)).

(** *** Times, sizes and the file information *)

(** NtfsGetEfiTime(File, &Time, Type): the final *Time. *)
Definition NtfsGetEfiTime (File : addr) (Type_ : time_type) : M EFI_TIME :=
  let* f := File_get File in
  let ni := NtfsInode f in
  let time := NTFS_TIME_OFFSET in
  let* time :=
    match ni with
    | Some _ =>
        let* i := ni_get ni in
        ret (match Type_ with
             | TIME_CREATED => creation_time i
             | TIME_ACCESSED => last_access_time i
             | TIME_MODIFIED => last_data_change_time i
             | TIME_other => time
             end)
    | None => ret time
    end in
  ret (NtfsTimeToEfiTime time).

Definition NtfsGetFileSize (File : addr) : M Z :=
  let* f := File_get File in
  match NtfsInode f with
  | None => ret 0
  | Some _ =>
      let* i := ni_get (NtfsInode f) in
      ret (u64 (data_size i))
  end.

(** NtfsGetFileInfo(File, Info, MRef, IsDir): the status, the final
    *Info and the final Info->PhysicalSize, which [EFI_FILE_INFO] does
    not carry. *)
Definition NtfsGetFileInfo (File : addr) (Info : EFI_FILE_INFO)
           (PhysicalSize : Z) (MRef : Z) (IsDir : bool)
  : M (EFI_STATUS * (EFI_FILE_INFO * Z)) :=
  let* f := File_get File in
  let ni := NtfsInode f in
  (* If Non-zero MREF, we are listing a dir, in which case we need to
     open (and later close) the inode. *)
  let* '(ni, NeedClose) :=
    if negb (MRef =? 0) then
      let* Existing := NtfsLookupInum File MRef in
      match Existing with
      | Some X => let* xf := File_get X in ret (NtfsInode xf, false)
      | None => let* ni := inode_open MRef in ret (ni, true)
      end
    else
      (* PrintExtra(..., ni->mft_no) *)
      ni_get ni;; ret (ni, false) in
  match ni with
  | None => ret (EFI_NOT_FOUND, (Info, PhysicalSize))
  | Some _ =>
      let* i := ni_get ni in
      let Info := set_FileSize (u64 (data_size i)) Info in
      let PhysicalSize := u64 (allocated_size i) in
      let Info := set_times (NtfsTimeToEfiTime (creation_time i))
                            (NtfsTimeToEfiTime (last_access_time i))
                            (NtfsTimeToEfiTime (last_data_change_time i))
                            Info in
      let* ro := NtfsIsVolumeReadOnly in
      let a := 0 in
      let a := if IsDir then Z.lor a EFI_FILE_DIRECTORY else a in
      let a := if has_attr (flags i) FILE_ATTR_READONLY || ro
               then Z.lor a EFI_FILE_READ_ONLY else a in
      let a := if has_attr (flags i) FILE_ATTR_HIDDEN
               then Z.lor a EFI_FILE_HIDDEN else a in
      let a := if has_attr (flags i) FILE_ATTR_SYSTEM
               then Z.lor a EFI_FILE_SYSTEM else a in
      let a := if has_attr (flags i) FILE_ATTR_ARCHIVE
               then Z.lor a EFI_FILE_ARCHIVE else a in
      let Info := set_Attribute a Info in
      (if NeedClose then inode_close ni else ret tt);;
      ret (EFI_SUCCESS, (Info, PhysicalSize))
  end.

(** *** Writing *)

(** The while loop of NtfsWriteFile: an early return gives its status,
    and in each case the final *Len. Every pass that does not return
    lowers [size], so [Z.to_nat size] passes are enough. *)
Fixpoint write_loop (fuel : nat) (File : addr) (na : ntfs_attr)
         (size Len : Z) : M (option EFI_STATUS * Z) :=
  if size >? 0 then
    match fuel with
    | O => undefined
    | S fuel' =>
        let* f := File_get File in
        let* r := lib_call (ntfs_attr_pwrite na (Offset f) size)
                           (c_attr_pwrite na (Offset f) size Len) in
        if r <=? 0 then
          lib_call (ntfs_attr_close na) (fun _ => c_attr_close na);;
          (if r >=? 0 then set_errno EIO else ret tt);;
          PrintError "NtfsWriteFile failed (write)";;
          let* e := get_errno in
          ret (Some (ErrnoToEfiStatus e), Len)
        else
          File_set File (set_Offset (s64 (Offset f + r)));;
          write_loop fuel' File na (s64 (size - r)) (u64 (Len + r))
    end
  else ret (None, Len).

(** NtfsWriteFile(File, Data, &Len): the status and the final *Len. The
    bytes themselves go from Data + *Len into the library. *)
Definition NtfsWriteFile (File : addr) (Len : Z) : M (EFI_STATUS * Z) :=
  let* f := File_get File in
  let* i := ni_get (NtfsInode f) in
  let size := s64 Len in
  let Len := 0 in
  if has_attr (flags i) FILE_ATTR_READONLY
  then ret (EFI_WRITE_PROTECTED, Len)
  else
    let* na := lib_call (ntfs_attr_open (NtfsInode f))
                        (c_attr_open (NtfsInode f)) in
    match na with
    | None =>
        PrintError "NtfsWriteFile failed (open)";;
        let* e := get_errno in
        ret (ErrnoToEfiStatus e, Len)
    | Some na =>
        let* '(early, Len) :=
          write_loop (Z.to_nat size) File na size Len in
        match early with
        | Some Status => ret (Status, Len)
        | None =>
            lib_call (ntfs_attr_close na) (fun _ => c_attr_close na);;
            update_times (NtfsInode f) NTFS_UPDATE_MCTIME;;
            ret (EFI_SUCCESS, Len)
        end
    end.

(** *** Mounting *)

(** NtfsMountVolume(FileSystem): the status, the final *FileSystem and
    the final list of file systems FsListHead. MountCount is taken as
    an integer that does not wrap. *)
Definition NtfsMountVolume (FsListHead : list addr) (FileSystem : addr)
           (fs : EFI_FS) : M (EFI_STATUS * EFI_FS * list addr) :=
  let flags := Z.lor (Z.lor NTFS_MNT_EXCLUSIVE NTFS_MNT_IGNORE_HIBERFILE)
                     NTFS_MNT_MAY_RDONLY in
  (* Don't double mount a volume *)
  let count := MountCount fs in
  let fs := set_MountCount (count + 1) fs in
  if count >? 0 then ret (EFI_SUCCESS, fs, FsListHead)
  else
    let* '(sz, device) :=
      to_utf8 (DevicePathString fs) "NtfsMountVolume" in
    if sz <? 0 then
      let* s := errno_status in ret (s, fs, FsListHead)
    else
      (* Insert this filesystem in our list *)
      let FsListHead := FsListHead ++ [FileSystem] in
      (* Initialize the Lookup List for this volume *)
      (fun st => Some (tt, State (env st) (files st) [] (calls st)
                                 (errlog st)));;
      lib_run ntfs_log_set_handler;;
      let* vol := lib_run (ntfs_mount device flags) in
      (* Detect error conditions *)
      let* Status :=
        match vol with
        | None =>
            let* e := get_errno in
            let Status :=
              match ntfs_volume_error e with
              | NTFS_VOLUME_CORRUPT => EFI_VOLUME_CORRUPTED
              | NTFS_VOLUME_LOCKED | NTFS_VOLUME_NO_PRIVILEGE =>
                  EFI_ACCESS_DENIED
              | NTFS_VOLUME_OUT_OF_MEMORY => EFI_OUT_OF_RESOURCES
              | NTFS_VOLUME_other => EFI_NOT_FOUND
              end in
            (* If we had a serial before, then the media was removed *)
            ret (if negb (NtfsVolumeSerial fs =? 0) then EFI_NO_MEDIA
                 else Status)
        | Some v =>
            ret (if negb (NtfsVolumeSerial fs =? 0) &&
                    negb (vol_serial v =? NtfsVolumeSerial fs)
                 then EFI_MEDIA_CHANGED else EFI_SUCCESS)
        end in
      if EFI_ERROR Status then
        ret (Status, fs, remove_first FileSystem FsListHead)
      else
        match vol with
        | None => undefined
        | Some v =>
            (* Store the serial to detect media change/removal *)
            let fs := set_NtfsVolumeSerial (vol_serial v) fs in
            (* Population of free space must be done manually *)
            lib_run (ntfs_volume_get_free_space (vol_handle v));;
            let fs := set_NtfsVolume (Some (vol_handle v)) fs in
            let* label :=
              lib_run (ntfs_mbstoucs (vol_name v) (NtfsVolumeLabel fs)) in
            ret (EFI_SUCCESS, set_NtfsVolumeLabel label fs, FsListHead)
        end.
End More.


(** A stand-in for the rest of the library: writes take their answer
    from the script (and write no more than they are asked to), a mount
    gives a volume with the scripted serial, errno tells the kind of a
    mount failure, times convert by their year. *)
Definition scripted_mount (w : world script)
  : option ntfs_volume * world script :=
  match replies (vol w) with
  | r_int z :: rest =>
      (Some {| vol_handle := next_addr (vol w); vol_serial := z;
               vol_name := [] |},
       World {| replies := rest; next_addr := N.succ (next_addr (vol w)) |}
             (inodes w) (errno w))
  | r_fail e :: rest =>
      (None, World {| replies := rest; next_addr := next_addr (vol w) |}
                   (inodes w) e)
  | r_inode _ :: rest => (None, scripted_next w rest)
  | [] => (None, w)
  end.

#[global] Instance scripted_more : libntfs_more script := {|
  NTFS_TIME_OFFSET := 116444736000000000;
  NtfsTimeToEfiTime := fun t =>
    {| Year := t; Month := 0; Day := 0; Hour := 0; Minute := 0;
       Second := 0; Pad1 := 0; Nanosecond := 0; TimeZone := 0;
       Daylight := 0; Pad2 := 0 |};
  ntfs_attr_pwrite := fun _ _ count w =>
    let '(z, w') := scripted_int w in (Z.min z count, w');
  NTFS_MNT_EXCLUSIVE := 0x08000000;
  NTFS_MNT_IGNORE_HIBERFILE := 0x20000000;
  NTFS_MNT_MAY_RDONLY := 0x02000000;
  ntfs_log_set_handler := fun w => (tt, w);
  ntfs_mount := fun _ _ => scripted_mount;
  ntfs_volume_error := fun e =>
    if e =? 5 then NTFS_VOLUME_CORRUPT
    else if e =? 16 then NTFS_VOLUME_LOCKED
    else if e =? 13 then NTFS_VOLUME_NO_PRIVILEGE
    else if e =? 12 then NTFS_VOLUME_OUT_OF_MEMORY
    else NTFS_VOLUME_other;
  ntfs_volume_get_free_space := fun _ w => (tt, w);
  ntfs_mbstoucs := fun name _ w => (Some name, w);
  ntfs_log_clear_flags := fun _ w => (tt, w);
  ntfs_log_set_flags := fun _ w => (tt, w);
  ntfs_log_clear_levels := fun _ w => (tt, w);
  ntfs_log_set_levels := fun _ w => (tt, w)
|}.

(** The log levels of uefi_logging.h and logging.h. *)
Definition log_levels : log_h := {|
  FS_LOGLEVEL_ERROR := 1;
  FS_LOGLEVEL_WARNING := 2;
  FS_LOGLEVEL_INFO := 3;
  FS_LOGLEVEL_DEBUG := 4;
  FS_LOGLEVEL_EXTRA := 5;
  NTFS_LOG_LEVEL_DEBUG := 1;
  NTFS_LOG_LEVEL_TRACE := 2;
  NTFS_LOG_LEVEL_QUIET := 4;
  NTFS_LOG_LEVEL_INFO := 8;
  NTFS_LOG_LEVEL_VERBOSE := 16;
  NTFS_LOG_LEVEL_PROGRESS := 32;
  NTFS_LOG_LEVEL_WARNING := 64;
  NTFS_LOG_LEVEL_ERROR := 128;
  NTFS_LOG_LEVEL_PERROR := 256;
  NTFS_LOG_LEVEL_CRITICAL := 512;
  NTFS_LOG_FLAG_PREFIX := 1
|}.

(** A file system that was never mounted, and one whose volume had the
    serial 77 when it was last mounted. *)
Definition fs_new : EFI_FS :=
  {| DevicePathString := L "PciRoot(0x0)"; MountCount := 0;
     NtfsVolume := None; NtfsVolumeLabel := None; NtfsVolumeSerial := 0 |}.
Definition fs_seen : EFI_FS :=
  {| DevicePathString := L "PciRoot(0x0)"; MountCount := 0;
     NtfsVolume := None; NtfsVolumeLabel := None; NtfsVolumeSerial := 77 |}.

(** A file information that sets the read-only and archive attributes
    and nothing else. *)
Definition info_attrs : EFI_FILE_INFO :=
  {| FileSize := 10; CreateTime := ZeroTime; LastAccessTime := ZeroTime;
     ModificationTime := ZeroTime;
     Attribute := Z.lor EFI_FILE_READ_ONLY EFI_FILE_ARCHIVE;
     FileName := [] |}.

(** An empty file information. *)
Definition info_none : EFI_FILE_INFO :=
  {| FileSize := 0; CreateTime := ZeroTime; LastAccessTime := ZeroTime;
     ModificationTime := ZeroTime; Attribute := 0; FileName := [] |}.

(** /a is open, with the cursor at 0; the library will open the data
    attribute and write 4 and then 6 bytes. *)
Definition st_write : state script :=
  opened [(1%N, set_NtfsInode (Some 100%N) (new_file "/a" 0))]
         [(100%N, file_inode 64 0)] [r_int 0; r_int 4; r_int 6].

(** /a is open and clean, and about to be renamed to /b: the library
    will open the root directory, link, delete, reopen the root and
    find /b. *)
Definition st_rename_open : state script :=
  opened [(1%N, set_NtfsInode (Some 100%N) (new_file "/a" 0))]
         [(100%N, file_inode 64 10)]
         [r_inode (dir_inode 5); r_int 0; r_int 0; r_inode (dir_inode 5);
          r_inode (file_inode 64 10)].

(** * Properties *)

(** ** The errno translation *)

Lemma is_case_In (x : Z) (labels : list Z) :
  is_case x labels = true <-> In x labels.
Proof.
  unfold is_case. rewrite existsb_exists. split.
  - intros (y & Hy & Heq). apply Z.eqb_eq in Heq. now subst.
  - intros H. exists x. split; [assumption | apply Z.eqb_refl].
Qed.

(** A switch with distinct labels picks the group that lists the value,
    whatever the order of the groups. *)
Lemma switch_spec (x : Z) (groups : list (list Z * EFI_STATUS))
      (default s : EFI_STATUS) :
  NoDup (concat (map fst groups)) ->
  switch x groups default = s <->
  (exists labels, In (labels, s) groups /\ In x labels) \/
  (s = default /\ ~ In x (concat (map fst groups))).
Proof.
  induction groups as [|[labels s'] rest IH]; simpl; intros Hnd.
  - split.
    + intros <-. right. split; [reflexivity | tauto].
    + intros [(l & [] & _) | (-> & _)]. reflexivity.
  - apply NoDup_app in Hnd as (Hl & Hdisj & Hrest).
    specialize (IH Hrest).
    destruct (is_case x labels) eqn:Hc.
    + apply is_case_In in Hc. split.
      * intros <-. left. exists labels. split; [now left | assumption].
      * intros [(l & [Heq | Hin] & Hx) | (_ & Hnot)].
        -- now inversion Heq.
        -- exfalso. apply (Hdisj x).
           ++ now apply list_elem_of_In.
           ++ apply list_elem_of_In, in_concat. exists l. split; [|assumption].
              apply in_map_iff. now exists (l, s).
        -- exfalso. apply Hnot, in_or_app. now left.
    + assert (Hx : ~ In x labels).
      { intros Hin. apply is_case_In in Hin. congruence. }
      rewrite IH. split.
      * intros [(l & Hin & Hxl) | (-> & Hnot)].
        -- left. exists l. split; [now right | assumption].
        -- right. split; [reflexivity |].
           intros Hin. apply in_app_or in Hin as [|]; tauto.
      * intros [(l & [Heq | Hin] & Hxl) | (-> & Hnot)].
        -- inversion Heq; subst. tauto.
        -- left. now exists l.
        -- right. split; [reflexivity |].
           intros Hin. apply Hnot, in_or_app. now right.
Qed.

(** C9, as the code has it: the translation is a function of errno, and
    it is many-to-one. With the case labels distinct, an errno value maps
    to the status of the case group that lists it, and to EFI_NO_MAPPING
    when no group does; the values of one group share their status. *)
Theorem ErrnoToEfiStatus_classes (E : errno_h) (e : Z) (s : EFI_STATUS) :
  case_labels_distinct ->
  ErrnoToEfiStatus e = s <-> errno_class e s.
Proof.
  intros Hnd. unfold ErrnoToEfiStatus, errno_class, case_labels.
  now apply switch_spec.
Qed.

Lemma ErrnoToEfiStatus_classes_witness :
  @case_labels_distinct errno_glibc /\
  (@ErrnoToEfiStatus errno_glibc 13 = EFI_ACCESS_DENIED <->
   @errno_class errno_glibc 13 EFI_ACCESS_DENIED).
Proof.
  assert (H : @case_labels_distinct errno_glibc)
    by (unfold case_labels_distinct;
        apply (bool_decide_unpack (NoDup (@case_labels errno_glibc)));
        vm_compute; exact I).
  split; [exact H |].
  exact (ErrnoToEfiStatus_classes errno_glibc 13 EFI_ACCESS_DENIED H).
Defined.

(** C9 as stated fails: EACCES and EEXIST are distinct errno values with
    the same status. *)
Lemma ErrnoToEfiStatus_not_one_to_one :
  ~ (forall e1 e2 : Z,
       e1 <> e2 ->
       @ErrnoToEfiStatus errno_glibc e1 <> @ErrnoToEfiStatus errno_glibc e2).
Proof.
  intros H. apply (H (@EACCES errno_glibc) (@EEXIST errno_glibc)).
  - discriminate.
  - reflexivity.
Qed.

(** ** Strings *)

Lemma char_at_0_cstr (p : list CHAR16) :
  (char_at p 0 =? 0) = true <-> cstr p = [].
Proof.
  unfold char_at. destruct p as [|c p]; simpl; [tauto |].
  destruct (c =? 0) eqn:Hc; split; congruence.
Qed.

Lemma StrCmp_0_iff (a b : list CHAR16) :
  StrCmp a b = 0 <-> cstr a = cstr b.
Proof.
  assert (Hnil : forall k, 0 - char_at k 0 = 0 <-> [] = cstr k).
  { intros [|d k]; unfold char_at; simpl; [tauto |].
    destruct (Z.eqb_spec d 0); split; intros H; try congruence; lia. }
  revert b. induction a as [|c a IH]; intros b; simpl.
  - apply Hnil.
  - destruct (Z.eqb_spec c 0) as [->|Hc]; [apply Hnil |].
    destruct b as [|d b]; simpl.
    + split; intros H; [lia | discriminate].
    + destruct (Z.eqb_spec c d) as [->|Hcd].
      * rewrite IH. destruct (Z.eqb_spec d 0); [contradiction |].
        split; intros H; [now f_equal | now inversion H].
      * split; intros H; [lia |].
        destruct (Z.eqb_spec d 0); [discriminate |].
        inversion H; contradiction.
Qed.

Lemma StrCmp_eqb_cstr (a b : list CHAR16) :
  (StrCmp a b =? 0) = bool_decide (cstr a = cstr b).
Proof.
  destruct (Z.eqb_spec (StrCmp a b) 0) as [H|H].
  - symmetry. apply bool_decide_eq_true. now apply StrCmp_0_iff.
  - symmetry. apply bool_decide_eq_false. now rewrite <- StrCmp_0_iff.
Qed.

Lemma char_at_0_eqb_cstr (p : list CHAR16) :
  (char_at p 0 =? 0) = bool_decide (cstr p = []).
Proof.
  destruct (char_at p 0 =? 0) eqn:H.
  - symmetry. apply bool_decide_eq_true. now apply char_at_0_cstr.
  - symmetry. apply bool_decide_eq_false. rewrite <- char_at_0_cstr.
    congruence.
Qed.

(** ** The monad *)

Lemma bind_Some {V A B} (m : M V A) (k : A -> M V B) (st : state V)
      (r : B * state V) :
  bind m k st = Some r <->
  exists a st1, m st = Some (a, st1) /\ k a st1 = Some r.
Proof.
  unfold bind. destruct (m st) as [[a st1]|].
  - split; [intros H; now exists a, st1 |].
    intros (a' & st' & Heq & H). now inversion Heq; subst.
  - split; [discriminate | intros (? & ? & ? & _); discriminate].
Qed.

Lemma ret_Some {V A} (a : A) (st : state V) (r : A * state V) :
  ret a st = Some r <-> r = (a, st).
Proof. unfold ret. split; congruence. Qed.

Tactic Notation "mbind" hyp(H) "as" ident(a) ident(st) ident(Hm) :=
  apply bind_Some in H as (a & st & Hm & H).

Ltac mret H := apply ret_Some in H; inversion H; subst; clear H.

(** A size that is the data size of the inode is not a change of
    size: the values are equal as UINT64 too. *)
Lemma no_resize (Info : EFI_FILE_INFO) (ni : ntfs_inode) :
  (IS_DIR ni =? 0) && negb (FileSize Info =? data_size ni) = false ->
  (IS_DIR ni =? 0) &&
    negb (u64 (FileSize Info) =? u64 (data_size ni)) = false.
Proof.
  destruct (IS_DIR ni =? 0); [| reflexivity]. simpl.
  destruct (Z.eqb_spec (FileSize Info) (data_size ni)) as [-> |];
    [| discriminate].
  intros _. now rewrite Z.eqb_refl.
Qed.

(** ** Writing inode fields *)

Section InodeFields.
Context {E : errno_h} {V : Type} {lib : libntfs V}.

Lemma state_eta (st : state V) :
  State (env st) (files st) (LookupListHead st) (calls st) (errlog st) = st.
Proof. now destruct st. Qed.

Lemma world_eta (w : world V) : World (vol w) (inodes w) (errno w) = w.
Proof. now destruct w. Qed.

Lemma with_inode_id (p : addr) (n : ntfs_inode) (st : state V) :
  inodes (env st) !! p = Some n -> with_inode p n st = st.
Proof.
  intros H. unfold with_inode. rewrite insert_id by assumption.
  now rewrite world_eta, state_eta.
Qed.

Lemma with_inode_twice (p : addr) (n1 n2 : ntfs_inode) (st : state V) :
  with_inode p n2 (with_inode p n1 st) = with_inode p n2 st.
Proof. unfold with_inode. simpl. now rewrite insert_insert_eq. Qed.

Lemma with_inode_lookup (p : addr) (n : ntfs_inode) (st : state V) :
  inodes (env (with_inode p n st)) !! p = Some n.
Proof. unfold with_inode. simpl. apply lookup_insert_eq. Qed.

Lemma ni_set_run (p : addr) (n : ntfs_inode)
      (upd : ntfs_inode -> ntfs_inode) (st : state V) :
  inodes (env st) !! p = Some n ->
  ni_set (Some p) upd st = Some (tt, with_inode p (upd n) st).
Proof. intros H. unfold ni_set. now rewrite H. Qed.

Lemma ni_set_if_run (p : addr) (n : ntfs_inode) (b : bool)
      (upd : ntfs_inode -> ntfs_inode) (st : state V) :
  inodes (env st) !! p = Some n ->
  (if b then ni_set (Some p) upd else ret tt) st =
  Some (tt, with_inode p (if b then upd n else n) st).
Proof.
  intros H. destruct b; [now apply ni_set_run |].
  unfold ret. now rewrite with_inode_id.
Qed.

Lemma bind_run {A B} (m : M V A) (k : A -> M V B) (st st1 : state V) (a : A) :
  m st = Some (a, st1) -> bind m k st = k a st1.
Proof. intros H. unfold bind. now rewrite H. Qed.

Lemma NtfsSetFileInfo_fields_run (p : addr) (n : ntfs_inode)
      (Info : EFI_FILE_INFO) (st : state V) :
  inodes (env st) !! p = Some n ->
  NtfsSetFileInfo_fields (Some p) Info st =
  Some (tt, with_inode p (info_fields Info n) st).
Proof.
  intros H. unfold NtfsSetFileInfo_fields, info_fields.
  rewrite (bind_run _ _ _ _ _ (ni_set_if_run p n _ _ st H)).
  rewrite (bind_run _ _ _ _ _ (ni_set_if_run p _ _ _ _ (with_inode_lookup _ _ _))).
  rewrite with_inode_twice.
  rewrite (bind_run _ _ _ _ _ (ni_set_if_run p _ _ _ _ (with_inode_lookup _ _ _))).
  rewrite with_inode_twice.
  rewrite (bind_run _ _ _ _ _ (ni_set_run p _ _ _ (with_inode_lookup _ _ _))).
  rewrite with_inode_twice.
  rewrite (bind_run _ _ _ _ _ (ni_set_if_run p _ _ _ _ (with_inode_lookup _ _ _))).
  rewrite with_inode_twice.
  rewrite (bind_run _ _ _ _ _ (ni_set_if_run p _ _ _ _ (with_inode_lookup _ _ _))).
  rewrite with_inode_twice.
  rewrite (bind_run _ _ _ _ _ (ni_set_if_run p _ _ _ _ (with_inode_lookup _ _ _))).
  rewrite with_inode_twice.
  rewrite (ni_set_if_run p _ _ _ _ (with_inode_lookup _ _ _)).
  rewrite with_inode_twice.
  reflexivity.
Qed.

Lemma info_fields_times (Info : EFI_FILE_INFO) (n : ntfs_inode) :
  mft_no (info_fields Info n) = mft_no n /\
  (CreateTime Info = ZeroTime ->
   creation_time (info_fields Info n) = creation_time n) /\
  (LastAccessTime Info = ZeroTime ->
   last_access_time (info_fields Info n) = last_access_time n) /\
  (ModificationTime Info = ZeroTime ->
   last_data_change_time (info_fields Info n) = last_data_change_time n).
Proof.
  unfold info_fields, time_is_set.
  repeat split; try intros ->; simpl;
    repeat match goal with
           | |- context [if ?b then _ else _] => destruct b; simpl
           end; try reflexivity; try contradiction.
Qed.
End InodeFields.

(** ** What the primitive steps do *)

Section Inversion.
Context {E : errno_h} {V : Type} {lib : libntfs V}.

Lemma File_get_Some (F : addr) (st st' : state V) (f : EFI_NTFS_FILE) :
  File_get F st = Some (f, st') <-> files st !! F = Some f /\ st' = st.
Proof.
  unfold File_get. destruct (files st !! F); split.
  - intros H; inversion H; auto.
  - intros [H ->]; congruence.
  - discriminate.
  - intros [H _]; discriminate.
Qed.

Lemma File_set_Some (F : addr) (upd : EFI_NTFS_FILE -> EFI_NTFS_FILE)
      (st st' : state V) (u : unit) :
  File_set F upd st = Some (u, st') <->
  exists f, files st !! F = Some f /\ st' = with_file F (upd f) st.
Proof.
  unfold File_set, with_file. destruct (files st !! F) as [f|]; split.
  - intros H; inversion H; eauto.
  - intros (f' & H & ->). inversion H. now destruct u.
  - discriminate.
  - intros (f' & H & _); discriminate.
Qed.

Lemma ni_get_Some (o : option addr) (st st' : state V) (n : ntfs_inode) :
  ni_get o st = Some (n, st') <->
  exists p, o = Some p /\ inodes (env st) !! p = Some n /\ st' = st.
Proof.
  unfold ni_get. destruct o as [p|].
  - destruct (inodes (env st) !! p) eqn:Hp; split.
    + intros H; inversion H; subst; eauto.
    + intros (q & Hq & Hn & ->). inversion Hq; subst. congruence.
    + discriminate.
    + intros (q & Hq & Hn & _). inversion Hq; subst. congruence.
  - split; [discriminate | intros (q & Hq & _); discriminate].
Qed.

Lemma lib_call_Some {R} (f : world V -> R * world V) (ev : R -> call)
      (st st' : state V) (r : R) :
  lib_call f ev st = Some (r, st') <->
  exists w, f (env st) = (r, w) /\ st' = called w (ev r) st.
Proof.
  unfold lib_call, called. destruct (f (env st)) as [r0 w0]. split.
  - intros H; inversion H; eauto.
  - intros (w & Hw & ->). now inversion Hw.
Qed.

Lemma PrintError_Some (msg : string) (st st' : state V) (u : unit) :
  PrintError msg st = Some (u, st') <->
  st' = State (env st) (files st) (LookupListHead st) (calls st)
              (errlog st ++ [msg]).
Proof.
  unfold PrintError. destruct u. split; [intros H; now inversion H | now intros ->].
Qed.

Lemma get_errno_Some (st st' : state V) (e : Z) :
  get_errno st = Some (e, st') <-> e = errno (env st) /\ st' = st.
Proof.
  unfold get_errno. split; [intros H; now inversion H | now intros [-> ->]].
Qed.

Lemma errno_status_Some (st st' : state V) (s : EFI_STATUS) :
  errno_status st = Some (s, st') <->
  s = ErrnoToEfiStatus (errno (env st)) /\ st' = st.
Proof.
  unfold errno_status, bind, get_errno, ret.
  split; [intros H; now inversion H | now intros [-> ->]].
Qed.

Lemma NtfsLookupRem_Some (F : addr) (st st' : state V) (u : unit) :
  NtfsLookupRem F st = Some (u, st') <->
  st' = State (env st) (files st) (remove_first F (LookupListHead st))
              (calls st) (errlog st).
Proof.
  unfold NtfsLookupRem. destruct u.
  split; [intros H; now inversion H | now intros ->].
Qed.

Lemma NtfsLookup_Some (self : option addr) (path : list CHAR16) (Inum : Z)
      (IgnoreSelf : bool) (st st' : state V) (r : option addr) :
  NtfsLookup self path Inum IgnoreSelf st = Some (r, st') <->
  NtfsLookup_from st (LookupListHead st) self path Inum IgnoreSelf = Some r
  /\ st' = st.
Proof.
  unfold NtfsLookup.
  destruct (NtfsLookup_from st _ _ _ _ _); split.
  - intros H; inversion H; auto.
  - intros [H ->]; congruence.
  - discriminate.
  - intros [H _]; discriminate.
Qed.

Lemma inode_close_Some (ni : option addr) (st st' : state V) (u : unit) :
  inode_close ni st = Some (u, st') <->
  exists z w, ntfs_inode_close ni (env st) = (z, w) /\
              st' = called w (c_inode_close ni) st.
Proof.
  unfold inode_close. rewrite bind_Some. destruct u. split.
  - intros (z & st1 & H1 & H). apply lib_call_Some in H1 as (w & Hw & ->).
    apply ret_Some in H. inversion H. eauto.
  - intros (z & w & Hw & ->). exists z, (called w (c_inode_close ni) st).
    split; [apply lib_call_Some; eauto | reflexivity].
Qed.

Lemma inode_open_Some (mref : Z) (st st' : state V) (r : option addr) :
  inode_open mref st = Some (r, st') <->
  exists w, ntfs_inode_open mref (env st) = (r, w) /\
            st' = called w (c_inode_open mref r) st.
Proof. unfold inode_open. apply lib_call_Some. Qed.

Lemma update_times_Some (ni : option addr) (mask : Z) (st st' : state V)
      (u : unit) :
  update_times ni mask st = Some (u, st') <->
  exists w, ntfs_inode_update_times ni mask (env st) = (u, w) /\
            st' = called w (c_update_times ni mask) st.
Proof. unfold update_times. rewrite lib_call_Some. reflexivity. Qed.

Lemma poke_before_BaseName_Some (F : addr) (c : CHAR16) (st st' : state V)
      (u : unit) :
  poke_before_BaseName F c st = Some (u, st') <->
  exists f i, files st !! F = Some f /\ BaseName f = S i /\
              (i < length (Path f))%nat /\
              st' = with_file F (set_Path (<[i := c]> (Path f)) f) st.
Proof.
  unfold poke_before_BaseName. rewrite bind_Some. split.
  - intros (f & st1 & Hg & H). apply File_get_Some in Hg as [Hf ->].
    destruct (BaseName f) as [|i] eqn:Hb; [discriminate |].
    unfold poke in H. destruct (decide (i < length (Path f))%nat); [|discriminate].
    apply File_set_Some in H as (f' & Hf' & ->).
    rewrite Hf in Hf'. inversion Hf'; subst. eauto 10.
  - intros (f & i & Hf & Hb & Hi & ->). exists f, st. split.
    + now apply File_get_Some.
    + rewrite Hb. unfold poke. destruct (decide (i < length (Path f))%nat); [|lia].
      apply File_set_Some. eauto.
Qed.

End Inversion.

(** ** The lookup list *)

Section Lookup.
Context {E : errno_h} {V : Type} {lib : libntfs V}.

(** A lookup by path reads the file instances only. *)
Lemma NtfsLookup_from_path_files (st1 st2 : state V) (entries : list addr)
      (self : option addr) (path : list CHAR16) (IgnoreSelf : bool) :
  files st1 = files st2 ->
  NtfsLookup_from st1 entries self path 0 IgnoreSelf =
  NtfsLookup_from st2 entries self path 0 IgnoreSelf.
Proof.
  intros Hf. induction entries as [|e rest IH]; simpl; [reflexivity |].
  rewrite Hf, IH. reflexivity.
Qed.

Lemma with_file_twice (F : addr) (f1 f2 : EFI_NTFS_FILE) (st : state V) :
  with_file F f2 (with_file F f1 st) = with_file F f2 st.
Proof. unfold with_file. simpl. now rewrite insert_insert_eq. Qed.

Lemma with_file_id (F : addr) (f : EFI_NTFS_FILE) (st : state V) :
  files st !! F = Some f -> with_file F f st = st.
Proof.
  intros H. unfold with_file. rewrite insert_id by assumption.
  now destruct st.
Qed.

Lemma with_file_lookup (F : addr) (f : EFI_NTFS_FILE) (st : state V) :
  files (with_file F f st) !! F = Some f.
Proof. unfold with_file. simpl. apply lookup_insert_eq. Qed.

Lemma NtfsLookupParent_Some (File : addr) (st st' : state V)
      (Parent : option addr) :
  NtfsLookupParent File st = Some (Parent, st') <->
  exists f i,
    files st !! File = Some f /\ BaseName f = S i /\
    (i < length (Path f))%nat /\
    NtfsLookup_from (with_file File (cut_file i f) st) (LookupListHead st)
                    (Some File) (<[i := 0]> (Path f)) 0 true = Some Parent /\
    st' = with_file File (uncut_file i f) st.
Proof.
  unfold NtfsLookupParent, NtfsLookupPath. rewrite bind_Some. split.
  - intros (u & st1 & Hp & H).
    apply poke_before_BaseName_Some in Hp as (f & i & Hf & Hb & Hi & ->).
    apply bind_Some in H as (P & st2 & Hl & H).
    apply bind_Some in Hl as (f1 & st3 & Hg & Hl).
    apply File_get_Some in Hg as [Hg ->].
    rewrite with_file_lookup in Hg. inversion Hg; subst f1; clear Hg.
    apply NtfsLookup_Some in Hl as [Hl ->].
    apply bind_Some in H as (u' & st4 & Hp & H).
    apply poke_before_BaseName_Some in Hp as (f2 & i2 & Hf2 & Hb2 & Hi2 & ->).
    rewrite with_file_lookup in Hf2. inversion Hf2; subst f2; clear Hf2.
    simpl in Hb2. rewrite Hb in Hb2. inversion Hb2; subst i2.
    apply ret_Some in H. inversion H; subst.
    exists f, i. repeat split; try assumption.
    rewrite with_file_twice. unfold uncut_file. simpl.
    now rewrite list_insert_insert_eq.
  - intros (f & i & Hf & Hb & Hi & Hl & ->).
    exists tt, (with_file File (cut_file i f) st). split.
    + apply poke_before_BaseName_Some. eauto 10.
    + apply bind_Some. exists Parent, (with_file File (cut_file i f) st). split.
      * apply bind_Some. exists (cut_file i f), (with_file File (cut_file i f) st).
        split; [apply File_get_Some; split; [apply with_file_lookup | reflexivity] |].
        apply NtfsLookup_Some. split; [exact Hl | reflexivity].
      * apply bind_Some. exists tt, (with_file File (uncut_file i f) st). split.
        -- apply poke_before_BaseName_Some. exists (cut_file i f), i.
           rewrite with_file_lookup. repeat split; try assumption.
           ++ simpl. now rewrite length_insert.
           ++ rewrite with_file_twice. unfold uncut_file, cut_file. simpl.
              now rewrite list_insert_insert_eq.
        -- reflexivity.
Qed.

End Lookup.

(** ** Moving a dirty file *)

Section Move.
Context {E : errno_h} {V : Type} {lib : libntfs V}.

(** C7: a move to a different path of a file whose inode is dirty is
    refused with EFI_ACCESS_DENIED and leaves the whole state as it was:
    no library call is made, and the file instance keeps its path and
    its inode. *)
Theorem NtfsMoveFile_dirty_denied (st : state V) (File p : addr)
        (f : EFI_NTFS_FILE) (ni : ntfs_inode) (NewPath : list CHAR16) :
  files st !! File = Some f ->
  NtfsInode f = Some p ->
  inodes (env st) !! p = Some ni ->
  StrCmp (Path f) NewPath <> 0 ->
  IS_DIRTY ni = true ->
  NtfsMoveFile File NewPath st = Some (EFI_ACCESS_DENIED, st).
Proof.
  intros Hf Hp Hni Hcmp Hdirty.
  unfold NtfsMoveFile, bind, File_get. rewrite Hf.
  destruct (Z.eqb_spec (StrCmp (Path f) NewPath) 0); [contradiction |].
  unfold ni_get. rewrite Hp, Hni, Hdirty. reflexivity.
Qed.
End Move.

Lemma NtfsMoveFile_dirty_denied_witness :
  @NtfsMoveFile errno_glibc _ _ 1%N (L "/b") st_dirty =
  Some (EFI_ACCESS_DENIED, st_dirty).
Proof.
  apply (@NtfsMoveFile_dirty_denied errno_glibc _ _ st_dirty 1%N 100%N
           (set_NtfsInode (Some 100%N) (new_file "/a" 0))
           (dirty (file_inode 64 10)));
    try reflexivity.
  vm_compute. discriminate.
Defined.

(** ** Flushing *)

Section Flush.
Context {E : errno_h} {V : Type} {lib : libntfs V}.

End Flush.


(** ** Setting the file information *)

Section SetInfo.
Context {E : errno_h} {V : Type} {lib : libntfs V}.

Lemma NtfsSetFileInfo_fields_Some (o : option addr) (Info : EFI_FILE_INFO)
      (st st' : state V) (u : unit) :
  NtfsSetFileInfo_fields o Info st = Some (u, st') ->
  exists q n, o = Some q /\ inodes (env st) !! q = Some n /\
              st' = with_inode q (info_fields Info n) st.
Proof.
  intros H. destruct o as [q|].
  - destruct (inodes (env st) !! q) as [n|] eqn:Hq.
    + rewrite (NtfsSetFileInfo_fields_run q n Info st Hq) in H.
      inversion H. eauto.
    + exfalso. unfold NtfsSetFileInfo_fields, bind, ni_set, ret in H.
      destruct (time_is_set (CreateTime Info));
        destruct (time_is_set (LastAccessTime Info));
        destruct (time_is_set (ModificationTime Info));
        rewrite ?Hq in H; discriminate.
  - exfalso. unfold NtfsSetFileInfo_fields, bind, ni_set, ret in H.
    destruct (time_is_set (CreateTime Info));
      destruct (time_is_set (LastAccessTime Info));
      destruct (time_is_set (ModificationTime Info)); discriminate.
Qed.

(** C8: once the move and the change of size are done (or from the
    initial state, when NtfsSetFileInfo returns before them), no library
    call follows and, of the inode times, only those whose field of the
    file information is not all zero are written: a CreateTime,
    LastAccessTime or ModificationTime of zero leaves creation_time,
    last_access_time or last_data_change_time as it was. When the call
    neither moves nor resizes, the result is the inode with exactly the
    non-zero fields and the attribute flags stored. On a handle opened
    read-only, a non-zero value in one of the three fields returns
    EFI_ACCESS_DENIED and changes nothing. *)
Theorem NtfsSetFileInfo_times (st : state V) (File p : addr)
        (f : EFI_NTFS_FILE) (ni : ntfs_inode) (Info : EFI_FILE_INFO)
        (ReadOnly : bool) :
  files st !! File = Some f ->
  NtfsInode f = Some p ->
  inodes (env st) !! p = Some ni ->
  (forall (Status : EFI_STATUS) (st' : state V),
     NtfsSetFileInfo File Info ReadOnly st = Some (Status, st') ->
     exists st_mid : state V,
       (st_mid = st \/
        exists early,
          NtfsSetFileInfo_move_resize File Info ReadOnly st =
          Some (early, st_mid)) /\
       calls st' = calls st_mid /\
       forall (q : addr) (n : ntfs_inode),
         inodes (env st_mid) !! q = Some n ->
         exists n',
           inodes (env st') !! q = Some n' /\
           (CreateTime Info = ZeroTime ->
            creation_time n' = creation_time n) /\
           (LastAccessTime Info = ZeroTime ->
            last_access_time n' = last_access_time n) /\
           (ModificationTime Info = ZeroTime ->
            last_data_change_time n' = last_data_change_time n)) /\
  (IS_PATH_DELIMITER (char_at (FileName Info) 0) = false ->
   (IS_DIR ni =? 0) && negb (FileSize Info =? data_size ni) = false ->
   has_attr (Attribute Info) EFI_FILE_DIRECTORY = negb (IS_DIR ni =? 0) ->
   ReadOnly &&
     (time_is_set (CreateTime Info) || time_is_set (LastAccessTime Info) ||
      time_is_set (ModificationTime Info)) = false ->
   NtfsSetFileInfo File Info ReadOnly st =
   Some (EFI_SUCCESS, with_inode p (info_fields Info ni) st)) /\
  (ReadOnly = true ->
   CreateTime Info <> ZeroTime \/ LastAccessTime Info <> ZeroTime \/
   ModificationTime Info <> ZeroTime ->
   NtfsSetFileInfo File Info ReadOnly st = Some (EFI_ACCESS_DENIED, st)).
Proof.
  intros Hf Hp Hni.
  assert (Hsame : forall s : state V, forall (q : addr) (n : ntfs_inode),
             inodes (env s) !! q = Some n ->
             exists n', inodes (env s) !! q = Some n' /\
               (CreateTime Info = ZeroTime ->
                creation_time n' = creation_time n) /\
               (LastAccessTime Info = ZeroTime ->
                last_access_time n' = last_access_time n) /\
               (ModificationTime Info = ZeroTime ->
                last_data_change_time n' = last_data_change_time n)).
  { intros s q n Hq. exists n. auto. }
  split; [| split].
  - intros Status st' H. unfold NtfsSetFileInfo in H.
    mbind H as f0 s0 Hg. apply File_get_Some in Hg as [Hf0 Hs]. subst s0.
    mbind H as n0 s0 Hg. apply ni_get_Some in Hg as (q0 & _ & _ & Hs).
    subst s0.
    destruct (_ || _).
    { apply ret_Some in H. injection H as _ ->. exists st. auto. }
    destruct (_ && _).
    { apply ret_Some in H. injection H as _ ->. exists st. auto. }
    mbind H as early st_mid Hmid. exists st_mid.
    split; [right; eauto |].
    destruct early as [Status'|].
    { apply ret_Some in H. injection H as _ ->. auto. }
    mbind H as f1 s0 Hg. apply File_get_Some in Hg as [Hf1 Hs]. subst s0.
    mbind H as u st2 Hfields. apply ret_Some in H. injection H as _ ->.
    apply NtfsSetFileInfo_fields_Some in Hfields as (q & n & Hq & Hn & ->).
    split; [reflexivity |].
    intros q' n' Hq'. unfold with_inode. simpl.
    destruct (decide (q = q')) as [<-|Hne].
    + rewrite lookup_insert_eq. exists (info_fields Info n).
      rewrite Hn in Hq'. inversion Hq'; subst n'.
      split; [reflexivity |]. apply info_fields_times.
    + rewrite lookup_insert_ne by assumption. exists n'. auto.
  - intros Hname Hsize Htype Hro.
    assert (Hmid : NtfsSetFileInfo_move_resize File Info ReadOnly st =
                   Some (None, st)).
    { unfold NtfsSetFileInfo_move_resize, bind, File_get, ni_get, ret.
      rewrite Hf. cbn. rewrite Hname. cbn. rewrite Hf. cbn. rewrite Hp.
      cbn. rewrite Hni. cbn.
      rewrite (no_resize Info ni Hsize). reflexivity. }
    unfold NtfsSetFileInfo.
    rewrite (bind_run _ _ st st f) by (now apply File_get_Some).
    rewrite (bind_run _ _ st st ni) by (apply ni_get_Some; eauto).
    rewrite Htype, Hro.
    replace ((IS_DIR ni =? 0) && negb (IS_DIR ni =? 0)
             || negb (IS_DIR ni =? 0) && negb (negb (IS_DIR ni =? 0)))
      with false by (now destruct (IS_DIR ni =? 0)).
    rewrite (bind_run _ _ _ _ _ Hmid).
    rewrite (bind_run _ _ st st f) by (now apply File_get_Some).
    rewrite Hp.
    rewrite (bind_run _ _ _ _ _ (NtfsSetFileInfo_fields_run p ni Info st Hni)).
    reflexivity.
  - intros -> Hset.
    assert (Hany : time_is_set (CreateTime Info) ||
                   time_is_set (LastAccessTime Info) ||
                   time_is_set (ModificationTime Info) = true).
    { unfold time_is_set.
      destruct Hset as [H | [H | H]];
        apply (bool_decide_eq_false_2 _) in H; rewrite H; simpl;
        rewrite ?orb_true_r; reflexivity. }
    unfold NtfsSetFileInfo, bind, File_get, ni_get.
    rewrite Hf, Hp, Hni.
    match goal with
    | |- (if ?c then _ else _) _ = _ => destruct c
    end; [reflexivity |].
    rewrite Hany. reflexivity.
Qed.
End SetInfo.

Lemma NtfsSetFileInfo_times_witness :
  (exists st' n',
     @NtfsSetFileInfo errno_glibc _ _ 1%N info_atime false st_info =
     Some (EFI_SUCCESS, st') /\
     inodes (env st') !! 100%N = Some n' /\
     creation_time n' = 0 /\ last_access_time n' = 2020 /\
     last_data_change_time n' = 0) /\
  @NtfsSetFileInfo errno_glibc _ _ 1%N info_atime true st_info =
  Some (EFI_ACCESS_DENIED, st_info).
Proof.
  split.
  - destruct (@NtfsSetFileInfo_times errno_glibc _ _ st_info 1%N 100%N
                (set_NtfsInode (Some 100%N) (new_file "/a" 0))
                (file_inode 64 10) info_atime false
                eq_refl eq_refl eq_refl) as (_ & Hrun & _).
    eexists _, _. split; [apply Hrun; reflexivity |].
    split; [apply with_inode_lookup |].
    repeat split.
  - destruct (@NtfsSetFileInfo_times errno_glibc _ _ st_info 1%N 100%N
                (set_NtfsInode (Some 100%N) (new_file "/a" 0))
                (file_inode 64 10) info_atime true
                eq_refl eq_refl eq_refl) as (_ & _ & Hro).
    apply Hro; [reflexivity |].
    right. left. discriminate.
Defined.

(** ** What the lookups and the path resolution leave unchanged *)

Section Frames.
Context {E : errno_h} {V : Type} {lib : libntfs V}.

Lemma delete_results_app (l k : list call) :
  delete_results (l ++ k) = delete_results l ++ delete_results k.
Proof. unfold delete_results. apply flat_map_app. Qed.

Lemma same_registry_refl (st : state V) : same_registry st st.
Proof. now unfold same_registry. Qed.

Lemma same_registry_trans (st1 st2 st3 : state V) :
  same_registry st1 st2 -> same_registry st2 st3 -> same_registry st1 st3.
Proof.
  unfold same_registry. intros (H1 & H2 & H3) (H4 & H5 & H6).
  repeat split; congruence.
Qed.

Lemma same_registry_called (w : world V) (e : call) (st : state V) :
  delete_results [e] = [] -> same_registry st (called w e st).
Proof.
  intros He. unfold same_registry, called. simpl.
  rewrite delete_results_app, He, app_nil_r. auto.
Qed.

Lemma same_registry_PrintError (msg : string) (st : state V) :
  same_registry st (State (env st) (files st) (LookupListHead st)
                          (calls st) (errlog st ++ [msg])).
Proof. now unfold same_registry. Qed.

Lemma lib_call_frame {R} (f : world V -> R * world V) (ev : R -> call)
      (st st' : state V) (r : R) :
  lib_call f ev st = Some (r, st') ->
  delete_results [ev r] = [] ->
  same_registry st st'.
Proof.
  intros H He. apply lib_call_Some in H as (w & _ & ->).
  now apply same_registry_called.
Qed.

Lemma PrintError_frame (msg : string) (st st' : state V) (u : unit) :
  PrintError msg st = Some (u, st') -> same_registry st st'.
Proof.
  intros H. apply PrintError_Some in H. subst st'.
  apply same_registry_PrintError.
Qed.

Lemma ret_frame {A} (a b : A) (st st' : state V) :
  ret a st = Some (b, st') -> same_registry st st'.
Proof.
  intros H. apply ret_Some in H. injection H as _ <-.
  apply same_registry_refl.
Qed.

Lemma to_utf8_frame (Src : list CHAR16) (fn : string) (st st' : state V)
      (r : Z * option mbs) :
  to_utf8 Src fn st = Some (r, st') -> same_registry st st'.
Proof.
  unfold to_utf8. intros H.
  mbind H as r0 st1 Hc. apply lib_call_frame in Hc; [| reflexivity].
  mbind H as u st2 Hp. apply ret_frame in H.
  eapply same_registry_trans; [exact Hc |].
  eapply same_registry_trans; [| exact H].
  destruct (r0.1 <? 0).
  - eapply PrintError_frame, Hp.
  - eapply ret_frame, Hp.
Qed.

Lemma NtfsOpenInodeFromPath_frame (path : list CHAR16) (st st' : state V)
      (r : option addr) :
  NtfsOpenInodeFromPath path st = Some (r, st') -> same_registry st st'.
Proof.
  unfold NtfsOpenInodeFromPath. intros H.
  destruct (_ || _).
  { eapply lib_call_frame; [exact H | reflexivity]. }
  mbind H as dup st1 Hc. apply lib_call_frame in Hc; [| reflexivity].
  eapply same_registry_trans; [exact Hc |].
  destruct dup; simpl in H; [| eapply ret_frame, H].
  mbind H as found st2 Hd.
  destruct (closest_open_dir _ _ _) as [res|]; [| discriminate].
  injection Hd as <- <-. destruct res as [Parent Len].
  mbind H as conv st3 Hu. destruct conv as [sz p].
  apply to_utf8_frame in Hu.
  eapply same_registry_trans; [exact Hu |].
  destruct (sz <? 0); [eapply ret_frame, H |].
  mbind H as dir_ni st4 Hdir.
  assert (Hs : same_registry st3 st4).
  { destruct Parent as [P|].
    - mbind Hdir as pf s0 Hg. apply File_get_Some in Hg as [_ Hs]. subst s0.
      eapply ret_frame, Hdir.
    - eapply ret_frame, Hdir. }
  eapply same_registry_trans; [exact Hs |].
  eapply lib_call_frame; [exact H | reflexivity].
Qed.

Lemma remove_first_elem (x y : addr) (l : list addr) :
  x ∈ remove_first y l -> x ∈ l.
Proof.
  induction l as [|e l IH]; simpl; [easy |].
  case_bool_decide as Heq; intros Hx.
  - now apply elem_of_cons; right.
  - apply elem_of_cons in Hx as [-> | Hx]; [left | right; auto].
Qed.


Lemma remove_first_removes (y : addr) (l : list addr) :
  NoDup l -> y ∉ remove_first y l.
Proof.
  induction 1 as [|e l Hnot Hnd IH]; simpl; [apply not_elem_of_nil |].
  case_bool_decide as Heq; [now subst |].
  intros Hx. apply elem_of_cons in Hx as [-> | Hx]; [congruence | auto].
Qed.

End Frames.

(** ** Deleting *)

Section Delete.
Context {E : errno_h} {V : Type} {lib : libntfs V}.

Lemma same_list_refl (st : state V) : same_list st st.
Proof. now unfold same_list. Qed.

Lemma same_list_trans (st1 st2 st3 : state V) :
  same_list st1 st2 -> same_list st2 st3 -> same_list st1 st3.
Proof.
  unfold same_list. intros (H1 & H2) (H3 & H4). split; congruence.
Qed.

Lemma same_registry_list (st st' : state V) :
  same_registry st st' -> same_list st st'.
Proof. unfold same_registry, same_list. tauto. Qed.

Lemma same_list_with_file (F : addr) (f : EFI_NTFS_FILE) (st : state V) :
  same_list st (with_file F f st).
Proof. now unfold same_list. Qed.

Lemma NtfsLookupParent_list (File : addr) (st st' : state V)
      (Parent : option addr) :
  NtfsLookupParent File st = Some (Parent, st') -> same_list st st'.
Proof.
  intros H. apply NtfsLookupParent_Some in H as (f & i & _ & _ & _ & _ & ->).
  apply same_list_with_file.
Qed.

Lemma poke_before_BaseName_list (F : addr) (c : CHAR16) (st st' : state V)
      (u : unit) :
  poke_before_BaseName F c st = Some (u, st') -> same_list st st'.
Proof.
  intros H. apply poke_before_BaseName_Some in H as (f & i & _ & _ & _ & ->).
  apply same_list_with_file.
Qed.

Lemma open_dirname_list (File : addr) (st st' : state V) (r : option addr) :
  open_dirname File st = Some (r, st') -> same_list st st'.
Proof.
  unfold open_dirname. intros H.
  mbind H as u st1 Hp. apply poke_before_BaseName_list in Hp.
  mbind H as f s0 Hg. apply File_get_Some in Hg as [_ Hs]. subst s0.
  mbind H as dir_ni st2 Ho. apply NtfsOpenInodeFromPath_frame in Ho.
  mbind H as u' st3 Hp'. apply poke_before_BaseName_list in Hp'.
  apply ret_Some in H. injection H as _ <-.
  eapply same_list_trans; [exact Hp |].
  eapply same_list_trans; [apply same_registry_list, Ho | exact Hp'].
Qed.

Lemma inode_close_list (ni : option addr) (st st' : state V) (u : unit) :
  inode_close ni st = Some (u, st') -> same_list st st'.
Proof.
  intros H. apply inode_close_Some in H as (z & w & _ & ->).
  apply same_registry_list, same_registry_called. reflexivity.
Qed.

(** C5: when the ntfs_delete call that NtfsDeleteFile makes returns a
    negative value, the file instance is taken off the lookup list and
    the status is EFI_WARN_DELETE_FAILURE. *)
Theorem NtfsDeleteFile_failure_warns (st st' : state V) (File : addr)
        (Status : EFI_STATUS) (r : Z) :
  NoDup (LookupListHead st) ->
  NtfsDeleteFile File st = Some (Status, st') ->
  delete_results (calls st') = delete_results (calls st) ++ [r] ->
  r < 0 ->
  Status = EFI_WARN_DELETE_FAILURE /\ File ∉ LookupListHead st'.
Proof.
  intros Hnd H Hdel Hr. unfold NtfsDeleteFile in H.
  mbind H as Parent st1 HP. apply NtfsLookupParent_list in HP.
  mbind H as found st2 Hfound.
  destruct found as [[[dir_ni GrandParent] parent_inum] grandparent_inum].
  assert (H12 : same_list st1 st2).
  { destruct Parent as [P|].
    - mbind Hfound as GP st1' HGP. apply NtfsLookupParent_list in HGP.
      mbind Hfound as gp st1'' Hgp.
      eapply same_list_trans; [exact HGP |].
      assert (same_list st1' st1'').
      { destruct GP as [G|].
        - mbind Hgp as gf s0 Hg. apply File_get_Some in Hg as [_ Hs]. subst s0.
          destruct (IsRoot gf).
          + apply ret_Some in Hgp. injection Hgp as _ <-. apply same_list_refl.
          + mbind Hgp as gi s0 Hg. apply ni_get_Some in Hg as (q & _ & _ & Hs).
            subst s0. mbind Hgp as u s0 Hc. apply inode_close_list in Hc.
            apply ret_Some in Hgp. injection Hgp as _ <-. exact Hc.
        - apply ret_Some in Hgp. injection Hgp as _ <-. apply same_list_refl. }
      eapply same_list_trans; [eassumption |].
      destruct gp as [GP' gpi].
      mbind Hfound as pf s0 Hg. apply File_get_Some in Hg as [_ Hs]. subst s0.
      mbind Hfound as di s0 Hg. apply ni_get_Some in Hg as (q & _ & _ & Hs).
      subst s0. apply ret_Some in Hfound. injection Hfound as _ _ _ _ <-.
      apply same_list_refl.
    - mbind Hfound as d st1' Ho. apply open_dirname_list in Ho.
      apply ret_Some in Hfound. injection Hfound as _ _ _ _ <-. exact Ho. }
  assert (H02 : same_list st st2) by (eapply same_list_trans; eassumption).
  destruct H02 as [Hlist Hcalls].
  assert (Hno : forall s : state V,
             delete_results (calls s) = delete_results (calls st) ->
             delete_results (calls s) <> delete_results (calls st) ++ [r]).
  { intros s -> Habs. symmetry in Habs.
    rewrite <- (app_nil_r (delete_results (calls st))) in Habs at 2.
    apply app_inv_head in Habs. discriminate. }
  assert (Hmain :
    (let* di := ni_get dir_ni in
     if mft_no di =? FILE_Extend then ret EFI_ACCESS_DENIED
     else
       let* f := File_get File in
       let* r :=
         lib_call (ntfs_delete (NtfsInode f) dir_ni (BaseName_str f)
                               (u8 (Z.of_nat (StrLen (BaseName_str f)))))
                  (c_delete (NtfsInode f) dir_ni (BaseName_str f)
                            (u8 (Z.of_nat (StrLen (BaseName_str f))))) in
       NtfsLookupRem File;;
       if r <? 0 then
         PrintError "NtfsDeleteFile failed";;
         ret EFI_WARN_DELETE_FAILURE
       else
         File_set File (set_NtfsInode None);;
         let reopen (Dir : option addr) (inum : Z) (who : string)
                    (k : M V EFI_STATUS) : M V EFI_STATUS :=
           match Dir with
           | Some D =>
               let* ni := inode_open inum in
               File_set D (set_NtfsInode ni);;
               match ni with
               | None =>
                   PrintError who;;
                   NtfsLookupRem D;;
                   errno_status
               | Some _ => k
               end
           | None => k
           end in
         reopen Parent parent_inum
           "NtfsDeleteFile: Failed to reopen Parent"%string
           (reopen GrandParent grandparent_inum
              "NtfsDeleteFile: Failed to reopen GrandParent"%string
              (ret EFI_SUCCESS))) st2 = Some (Status, st')
    -> Status = EFI_WARN_DELETE_FAILURE /\ File ∉ LookupListHead st').
  { clear H. intros H.
    mbind H as di s0 Hg. apply ni_get_Some in Hg as (q & _ & _ & Hs). subst s0.
    destruct (mft_no di =? FILE_Extend).
    { apply ret_Some in H. injection H as _ <-. now apply Hno in Hcalls. }
    mbind H as f s0 Hg. apply File_get_Some in Hg as [_ Hs]. subst s0.
    mbind H as r0 st3 Hc. apply lib_call_Some in Hc as (w & _ & Hst3).
    mbind H as u st4 Hrem. apply NtfsLookupRem_Some in Hrem.
    assert (Hc4 : delete_results (calls st4) =
                  delete_results (calls st) ++ [r0]).
    { subst st4 st3. simpl. rewrite delete_results_app, Hcalls. reflexivity. }
    assert (Hl4 : LookupListHead st4 = remove_first File (LookupListHead st)).
    { subst st4 st3. simpl. now rewrite Hlist. }
    destruct (Z.ltb_spec r0 0) as [Hneg | Hpos].
    - mbind H as u' st5 Hpr. apply PrintError_Some in Hpr.
      apply ret_Some in H. injection H as -> ->.
      split; [reflexivity |]. subst st5. simpl. rewrite Hl4.
      now apply remove_first_removes.
    - exfalso.
      assert (Hfinal : delete_results (calls st') =
                       delete_results (calls st) ++ [r0]).
      { mbind H as u' st5 Hset. apply File_set_Some in Hset as (f' & _ & Hst5).
        assert (Hc5 : delete_results (calls st5) =
                      delete_results (calls st) ++ [r0])
          by (subst st5; exact Hc4).
        clear Hst5 Hc4 Hl4 Hrem Hst3.
        assert (Hreopen : forall (Dir : option addr) (inum : Z) (who : string)
                   (k : M V EFI_STATUS) (s s' : state V) (S' : EFI_STATUS),
                   (forall s1 s1' S1, k s1 = Some (S1, s1') ->
                      delete_results (calls s1') = delete_results (calls s1)) ->
                   match Dir with
                   | Some D =>
                       let* ni := inode_open inum in
                       File_set D (set_NtfsInode ni);;
                       match ni with
                       | None =>
                           PrintError who;;
                           NtfsLookupRem D;;
                           errno_status
                       | Some _ => k
                       end
                   | None => k
                   end s = Some (S', s') ->
                   delete_results (calls s') = delete_results (calls s)).
        { intros Dir inum who k s s' S' Hk Hrun. destruct Dir as [D|]; [| eauto].
          mbind Hrun as ni s1 Ho. apply inode_open_Some in Ho as (w1 & _ & ->).
          mbind Hrun as u1 s2 Hs. apply File_set_Some in Hs as (fd & _ & ->).
          destruct ni.
          - apply Hk in Hrun. rewrite Hrun. simpl.
            rewrite delete_results_app. simpl. apply app_nil_r.
          - mbind Hrun as u2 s3 Hpr. apply PrintError_Some in Hpr. subst s3.
            mbind Hrun as u3 s4 Hrm. apply NtfsLookupRem_Some in Hrm. subst s4.
            apply errno_status_Some in Hrun as [_ ->]. simpl.
            rewrite delete_results_app. simpl. apply app_nil_r. }
        rewrite <- Hc5. eapply Hreopen; [| exact H].
        intros s1 s1' S1 Hk. eapply Hreopen; [| exact Hk].
        intros s2 s2' S2 Hk2. apply ret_Some in Hk2. now injection Hk2 as _ <-. }
      rewrite Hfinal in Hdel. apply app_inv_head in Hdel.
      injection Hdel as ->. lia. }
  destruct Parent as [P|]; [exact (Hmain H) |].
  destruct dir_ni as [d|]; [exact (Hmain H) |].
  apply errno_status_Some in H as [_ ->]. now apply Hno in Hcalls.
Qed.
End Delete.

Lemma NtfsDeleteFile_failure_warns_witness :
  exists st',
    @NtfsDeleteFile errno_glibc _ _ 2%N st_delete_fails =
    Some (EFI_WARN_DELETE_FAILURE, st') /\
    2%N ∉ LookupListHead st'.
Proof.
  destruct (@NtfsDeleteFile errno_glibc _ _ 2%N st_delete_fails)
    as [[Status st']|] eqn:Hrun; [| vm_compute in Hrun; discriminate].
  assert (Hnd : NoDup (LookupListHead st_delete_fails)).
  { apply (bool_decide_unpack (NoDup [1%N; 2%N])). vm_compute. exact I. }
  assert (Hdel : delete_results (calls st') =
                 delete_results (calls st_delete_fails) ++ [-1]).
  { vm_compute in Hrun. injection Hrun as _ <-. reflexivity. }
  destruct (@NtfsDeleteFile_failure_warns errno_glibc _ _ st_delete_fails st'
              2%N Status (-1) Hnd Hrun Hdel eq_refl) as [-> Hout].
  exists st'. split; [reflexivity | exact Hout].
Defined.

(** C4 at the failing input: /d/f is deleted while /d is in the lookup
    list; ntfs_delete succeeds and the reopening of /d fails with EIO.
    NtfsDeleteFile then returns the translation of errno, an error
    status, although the deletion was done. *)
Lemma NtfsDeleteFile_reopen_failure_is_fatal :
  exists st',
    @NtfsDeleteFile errno_glibc _ _ 2%N st_reopen_fails =
    Some (EFI_PROTOCOL_ERROR, st') /\
    delete_results (calls st') = [0] /\
    LookupListHead st' = [] /\
    errlog st' = ["NtfsDeleteFile: Failed to reopen Parent"%string].
Proof.
  eexists. split; [vm_compute; reflexivity |].
  repeat split.
Qed.

(** The same failure under NtfsFlushFile and NtfsCloseFile: the parent
    instance leaves the lookup list, the error is printed, and the
    result of the operation is not affected. *)
Lemma NtfsFlushFile_reopen_failure_is_not_fatal :
  exists st',
    @NtfsFlushFile errno_glibc _ _ 2%N st_reopen_fails =
    Some (EFI_SUCCESS, st') /\
    LookupListHead st' = [2%N] /\
    errlog st' = ["NtfsFlushFile: Failed to reopen Parent"%string].
Proof.
  eexists. split; [vm_compute; reflexivity |].
  repeat split.
Qed.

Lemma NtfsCloseFile_reopen_failure_is_not_fatal :
  exists st',
    NtfsCloseFile (Some 2%N)
      (with_inode 101 (dirty (file_inode 71 10)) (st_tree [r_fail 5])) =
    Some (tt, st') /\
    LookupListHead st' = [] /\
    errlog st' = ["NtfsCloseFile: Failed to reopen Parent"%string].
Proof.
  eexists. split; [vm_compute; reflexivity |].
  repeat split.
Qed.

(** ** Closing *)

Section Close.
Context {V : Type} {lib : libntfs V}.

End Close.



(** ** Opening *)

Section Open.
Context {E : errno_h} {V : Type} {lib : libntfs V}.

(** A lookup by path depends on the file instances of the entries it
    scans, and on the string of the path. *)
Lemma NtfsLookup_from_agree (st1 st2 : state V) (entries : list addr)
      (self : option addr) (p1 p2 : list CHAR16) (IgnoreSelf : bool) :
  (forall e, e ∈ entries -> files st1 !! e = files st2 !! e) ->
  cstr p1 = cstr p2 ->
  NtfsLookup_from st1 entries self p1 0 IgnoreSelf =
  NtfsLookup_from st2 entries self p2 0 IgnoreSelf.
Proof.
  intros Hf Hp. induction entries as [|e rest IH]; simpl; [reflexivity |].
  rewrite (Hf e) by apply list_elem_of_here.
  rewrite IH by (intros e' He'; apply Hf; now apply list_elem_of_further).
  destruct (files st2 !! e) as [ef|]; [| reflexivity].
  rewrite !char_at_0_eqb_cstr, !StrCmp_eqb_cstr, Hp. reflexivity.
Qed.

Lemma NtfsLookup_from_self (st : state V) (entries : list addr)
      (s1 s2 : option addr) (p : list CHAR16) :
  NtfsLookup_from st entries s1 p 0 false =
  NtfsLookup_from st entries s2 p 0 false.
Proof.
  induction entries as [|e rest IH]; simpl; [reflexivity |].
  now rewrite IH.
Qed.

Lemma NtfsLookup_from_app (st : state V) (l k : list addr)
      (self : option addr) (p : list CHAR16) (Inum : Z) (IgnoreSelf : bool) :
  NtfsLookup_from st (l ++ k) self p Inum IgnoreSelf =
  match NtfsLookup_from st l self p Inum IgnoreSelf with
  | Some None => NtfsLookup_from st k self p Inum IgnoreSelf
  | r => r
  end.
Proof.
  induction l as [|e l IH]; simpl; [reflexivity |].
  destruct (files st !! e) as [ef|]; [| reflexivity].
  destruct (Inum =? 0).
  - destruct (IgnoreSelf && bool_decide (Some e = self)); [exact IH |].
    destruct (_ && _); [reflexivity |].
    destruct (StrCmp p (Path ef) =? 0); [reflexivity | exact IH].
  - destruct (NtfsInode ef) as [q|]; [| reflexivity].
    destruct (inodes (env st) !! q) as [ni|]; [| reflexivity].
    destruct (mft_no ni =? GetInodeNumber Inum); [reflexivity | exact IH].
Qed.

(** A lookup that finds an instance finds one of the list. *)
Lemma NtfsLookup_from_elem (st : state V) (entries : list addr)
      (self : option addr) (p : list CHAR16) (Inum : Z) (IgnoreSelf : bool)
      (R : addr) :
  NtfsLookup_from st entries self p Inum IgnoreSelf = Some (Some R) ->
  R ∈ entries.
Proof.
  induction entries as [|e rest IH]; simpl; [discriminate |].
  destruct (files st !! e) as [ef|]; [| discriminate].
  assert (Hrec : NtfsLookup_from st rest self p Inum IgnoreSelf =
                 Some (Some R) -> R ∈ e :: rest)
    by (intros H; apply list_elem_of_further; auto).
  assert (Hhere : Some (Some e) = Some (Some R) -> R ∈ e :: rest)
    by (intros H; injection H as <-; apply list_elem_of_here).
  destruct (Inum =? 0).
  - destruct (IgnoreSelf && bool_decide (Some e = self)); [exact Hrec |].
    destruct (_ && _); [exact Hhere |].
    destruct (StrCmp p (Path ef) =? 0); [exact Hhere | exact Hrec].
  - destruct (NtfsInode ef) as [q|]; [| discriminate].
    destruct (inodes (env st) !! q) as [ni|]; [| discriminate].
    destruct (mft_no ni =? GetInodeNumber Inum); [exact Hhere | exact Hrec].
Qed.


Lemma NtfsLookupPath_Some (File : addr) (IgnoreSelf : bool)
      (st st' : state V) (r : option addr) :
  NtfsLookupPath File IgnoreSelf st = Some (r, st') <->
  exists f, files st !! File = Some f /\
            NtfsLookup_from st (LookupListHead st) (Some File) (Path f) 0
                            IgnoreSelf = Some r /\
            st' = st.
Proof.
  unfold NtfsLookupPath. rewrite bind_Some. split.
  - intros (f & s0 & Hg & Hl). apply File_get_Some in Hg as [Hf Hs]. subst s0.
    apply NtfsLookup_Some in Hl as [Hl ->]. eauto.
  - intros (f & Hf & Hl & ->). exists f, st. split.
    + now apply File_get_Some.
    + now apply NtfsLookup_Some.
Qed.

Lemma NtfsFreeFile_Some (File : addr) (st st' : state V) (u : unit) :
  NtfsFreeFile File st = Some (u, st') <->
  exists f, files st !! File = Some f /\
            st' = State (env st)
                        (if RefCount f <=? 0 then delete File (files st)
                         else files st)
                        (LookupListHead st) (calls st) (errlog st).
Proof.
  unfold NtfsFreeFile. rewrite bind_Some. destruct u. split.
  - intros (f & s0 & Hg & H). apply File_get_Some in Hg as [Hf Hs]. subst s0.
    exists f. split; [assumption |].
    destruct (RefCount f <=? 0).
    + now injection H as <-.
    + apply ret_Some in H. injection H as ->. now destruct st.
  - intros (f & Hf & ->). exists f, st. split; [now apply File_get_Some |].
    destruct (RefCount f <=? 0); [reflexivity |].
    unfold ret. now destruct st.
Qed.

Lemma NtfsLookupAdd_Some (File : addr) (st st' : state V) (u : unit) :
  NtfsLookupAdd File st = Some (u, st') ->
  files st' = files st /\
  delete_results (calls st') = delete_results (calls st) /\
  (LookupListHead st' = LookupListHead st \/
   LookupListHead st' = LookupListHead st ++ [File]).
Proof.
  unfold NtfsLookupAdd. intros H.
  mbind H as ok st1 Hc. apply lib_call_Some in Hc as (w & _ & ->).
  destruct u, ok.
  - injection H as <-. simpl. rewrite delete_results_app. simpl.
    rewrite app_nil_r. auto.
  - apply ret_Some in H. injection H as ->. simpl.
    rewrite delete_results_app. simpl. rewrite app_nil_r. auto.
Qed.

(** What NtfsOpenFile does, by the result of its lookup. *)
Lemma NtfsOpenFile_spec (File R : addr) (f : EFI_NTFS_FILE)
      (st st' : state V) (Status : EFI_STATUS) :
  files st !! File = Some f ->
  NtfsOpenFile File st = Some ((Status, R), st') ->
  exists r,
    NtfsLookup_from st (LookupListHead st) (Some File) (Path f) 0 false =
    Some r /\
    match r with
    | Some R0 =>
        R = R0 /\ Status = EFI_SUCCESS /\
        st' = State (env st)
                    (if RefCount f <=? 0 then delete File (files st)
                     else files st)
                    (LookupListHead st) (calls st) (errlog st)
    | None =>
        R = File /\
        delete_results (calls st') = delete_results (calls st) /\
        exists f',
          files st' = <[File := f']> (files st) /\
          Path f' = Path f /\ BaseName f' = BaseName f /\
          (LookupListHead st' = LookupListHead st \/
           LookupListHead st' = LookupListHead st ++ [File])
    end.
Proof.
  intros Hf H. unfold NtfsOpenFile in H.
  mbind H as r s0 Hl. apply NtfsLookupPath_Some in Hl as (f0 & Hf0 & Hl & Hs).
  subst s0. rewrite Hf in Hf0. injection Hf0 as <-.
  exists r. split; [exact Hl |].
  destruct r as [R0|].
  - mbind H as u st1 Hfree. apply NtfsFreeFile_Some in Hfree as (f0 & Hf0 & ->).
    rewrite Hf in Hf0. injection Hf0 as <-.
    apply ret_Some in H. now injection H as -> -> ->.
  - mbind H as f0 s0 Hg. apply File_get_Some in Hg as [Hf0 Hs]. subst s0.
    rewrite Hf in Hf0. injection Hf0 as <-.
    mbind H as u st1 Hs1. apply File_set_Some in Hs1 as (f0 & Hf0 & ->).
    rewrite Hf in Hf0. injection Hf0 as <-.
    mbind H as ni st2 Ho. apply NtfsOpenInodeFromPath_frame in Ho.
    destruct Ho as (Hfiles2 & Hlist2 & Hcalls2). simpl in *.
    mbind H as u' st3 Hs3. apply File_set_Some in Hs3 as (f2 & Hf2 & ->).
    rewrite Hfiles2, lookup_insert_eq in Hf2. injection Hf2 as <-.
    destruct ni as [q|].
    + mbind H as i s0 Hg. apply ni_get_Some in Hg as (q' & _ & _ & Hs). subst s0.
      mbind H as u3 st4 Hs4. apply File_set_Some in Hs4 as (f3 & Hf3 & ->).
      simpl in Hf3. rewrite lookup_insert_eq in Hf3. injection Hf3 as <-.
      mbind H as u4 st5 Hadd. apply NtfsLookupAdd_Some in Hadd.
      destruct Hadd as (Hfiles5 & Hcalls5 & Hlist5). simpl in *.
      apply ret_Some in H. injection H as -> -> ->.
      split; [reflexivity |]. split; [congruence |].
      eexists. split; [| split; [| split]].
      * rewrite Hfiles5, Hfiles2, !insert_insert_eq. reflexivity.
      * reflexivity.
      * reflexivity.
      * rewrite Hlist2 in Hlist5. exact Hlist5.
    + mbind H as e s0 Hg. apply get_errno_Some in Hg as [_ Hs]. subst s0.
      apply ret_Some in H. injection H as -> -> ->.
      split; [reflexivity |]. simpl. split; [assumption |].
      eexists. split; [| split; [| split]].
      * rewrite Hfiles2, !insert_insert_eq. reflexivity.
      * reflexivity.
      * reflexivity.
      * left. assumption.
Qed.

(** A path lookup that finds an instance finds a listed, allocated
    instance with that path, or the root for the empty path. *)
Lemma NtfsLookup_from_Some_path (st : state V) (entries : list addr)
      (self : option addr) (p : list CHAR16) (R : addr) :
  NtfsLookup_from st entries self p 0 false = Some (Some R) ->
  R ∈ entries /\
  exists r, files st !! R = Some r /\
            (cstr (Path r) = cstr p \/ (cstr p = [] /\ IsRoot r = true)).
Proof.
  induction entries as [|e rest IH]; simpl; [discriminate |].
  destruct (files st !! e) as [ef|] eqn:Hef; [| discriminate].
  rewrite char_at_0_eqb_cstr, StrCmp_eqb_cstr.
  destruct (bool_decide (cstr p = []) && IsRoot ef) eqn:Hroot.
  - intros H. injection H as <-. split; [apply list_elem_of_here |].
    apply andb_true_iff in Hroot as [Hp Hr].
    apply bool_decide_eq_true in Hp. exists ef. auto.
  - destruct (bool_decide (cstr p = cstr (Path ef))) eqn:Heq.
    + apply bool_decide_eq_true in Heq.
      intros H. injection H as <-. split; [apply list_elem_of_here |].
      exists ef. auto.
    + intros H. apply IH in H as [HR Hr].
      split; [now apply list_elem_of_further | exact Hr].
Qed.

(** NtfsOpenFile of an instance whose path no listed instance has: the
    instance is registered, or it is not and then its inode is NULL or
    the pool had no lookup entry to give. *)
Lemma NtfsOpenFile_unlisted (File R : addr) (f : EFI_NTFS_FILE)
      (Status : EFI_STATUS) (st st' : state V) :
  files st !! File = Some f ->
  NtfsLookup_from st (LookupListHead st) (Some File) (Path f) 0 false =
  Some None ->
  NtfsOpenFile File st = Some ((Status, R), st') ->
  R = File /\
  exists f',
    files st' = <[File := f']> (files st) /\ Path f' = Path f /\
    ((LookupListHead st' = LookupListHead st ++ [File] /\
      Status = EFI_SUCCESS) \/
     (LookupListHead st' = LookupListHead st /\
      match NtfsInode f' with
      | None => Status = ErrnoToEfiStatus (errno (env st'))
      | Some _ =>
          Status = EFI_SUCCESS /\
          exists before, calls st' = before ++ [c_AllocatePool false]
      end)).
Proof.
  intros Hf Hmiss H. unfold NtfsOpenFile in H.
  mbind H as found s0 Hl.
  apply NtfsLookupPath_Some in Hl as (f0 & Hf0 & Hl & ->).
  rewrite Hf in Hf0. injection Hf0 as <-.
  rewrite Hmiss in Hl. injection Hl as <-.
  mbind H as f1 s0 Hg. apply File_get_Some in Hg as [Hf1 ->].
  rewrite Hf in Hf1. injection Hf1 as <-.
  set (root := (char_at (Path f) 0 =? PATH_CHAR) &&
               (char_at (Path f) 1 =? 0)) in *.
  mbind H as u st1 Hs1. apply File_set_Some in Hs1 as (f1 & Hf1 & ->).
  rewrite Hf in Hf1. injection Hf1 as <-.
  mbind H as ni st2 Ho.
  apply NtfsOpenInodeFromPath_frame in Ho as (Hfiles2 & Hlist2 & _).
  mbind H as u2 st3 Hs3. apply File_set_Some in Hs3 as (f2 & Hf2 & ->).
  rewrite Hfiles2, with_file_lookup in Hf2. injection Hf2 as <-.
  destruct ni as [p|].
  - mbind H as i s0 Hg. apply ni_get_Some in Hg as (q & _ & _ & ->).
    mbind H as u3 st4 Hs4. apply File_set_Some in Hs4 as (f3 & Hf3 & ->).
    rewrite with_file_lookup in Hf3. injection Hf3 as <-.
    mbind H as u4 st5 Hadd.
    apply ret_Some in H. injection H as -> -> Hst. subst st5.
    split; [reflexivity |].
    unfold NtfsLookupAdd in Hadd.
    mbind Hadd as ok s0 Hpool. apply lib_call_Some in Hpool as (w & _ & ->).
    set (f' := set_IsDir (IS_DIR i)
                 (set_NtfsInode (Some p) (set_IsRoot root f))) in *.
    assert (Hst' : st' = State w (<[File := f']> (files st))
                               (if ok then LookupListHead st ++ [File]
                                else LookupListHead st)
                               (calls st2 ++ [c_AllocatePool ok])
                               (errlog st2)).
    { destruct ok.
      - injection Hadd as _ <-. unfold called, with_file in *. simpl in *.
        rewrite Hfiles2, Hlist2. now rewrite !insert_insert_eq.
      - apply ret_Some in Hadd. injection Hadd as _ ->.
        unfold called, with_file in *. simpl in *.
        rewrite Hfiles2, Hlist2. now rewrite !insert_insert_eq. }
    exists f'. rewrite Hst'. simpl.
    split; [reflexivity |]. split; [reflexivity |].
    destruct ok; [left | right].
    + split; reflexivity.
    + split; [reflexivity |]. split; [reflexivity |].
      exists (calls st2). reflexivity.
  - mbind H as e s0 He. apply get_errno_Some in He as [-> ->].
    apply ret_Some in H. injection H as -> -> ->.
    split; [reflexivity |].
    exists (set_NtfsInode None (set_IsRoot root f)).
    split.
    { simpl. rewrite Hfiles2. simpl. now rewrite insert_insert_eq. }
    split; [reflexivity |].
    right. simpl. split; [exact Hlist2 | reflexivity].
Qed.

(** X22. Two opens of one path, for every library. A new instance F1
    is opened, and next a new instance F2 with the same path. Either
    the first open left the instance R1 it returned in the lookup list:
    then it returned EFI_SUCCESS, R1 has that path (or is the root, for
    the empty path), and the second open finds R1 by the path lookup,
    frees F2, makes no library call and returns R1 with EFI_SUCCESS. Or
    the first open registered nothing: it returned F1 itself, whose
    inode could not be opened or for which the pool had no lookup entry
    to give (the status is EFI_SUCCESS all the same), and every second
    open returns F2 itself. *)
Theorem NtfsOpenFile_twice (st st1 : state V) (F1 F2 R1 : addr)
        (f1 f2 : EFI_NTFS_FILE) (Status1 : EFI_STATUS) :
  files st !! F1 = Some f1 ->
  F1 ∉ LookupListHead st ->
  NtfsOpenFile F1 st = Some ((Status1, R1), st1) ->
  files st1 !! F2 = Some f2 ->
  RefCount f2 <= 0 ->
  cstr (Path f2) = cstr (Path f1) ->
  (R1 ∈ LookupListHead st1 /\ Status1 = EFI_SUCCESS /\
   (exists r1,
      files st1 !! R1 = Some r1 /\
      (cstr (Path r1) = cstr (Path f1) \/
       (cstr (Path f1) = [] /\ IsRoot r1 = true))) /\
   NtfsOpenFile F2 st1 =
   Some ((EFI_SUCCESS, R1),
         State (env st1) (delete F2 (files st1)) (LookupListHead st1)
               (calls st1) (errlog st1))) \/
  (R1 = F1 /\ LookupListHead st1 = LookupListHead st /\
   (exists f1',
      files st1 !! F1 = Some f1' /\
      match NtfsInode f1' with
      | None => Status1 = ErrnoToEfiStatus (errno (env st1))
      | Some _ =>
          Status1 = EFI_SUCCESS /\
          exists before, calls st1 = before ++ [c_AllocatePool false]
      end) /\
   forall (Status2 : EFI_STATUS) (R2 : addr) (st2 : state V),
     NtfsOpenFile F2 st1 = Some ((Status2, R2), st2) -> R2 = F2).
Proof.
  intros Hf1 Hnew Hopen Hf2 Href Hpath.
  assert (Hsecond : forall R,
             NtfsLookup_from st1 (LookupListHead st1) (Some F2) (Path f2) 0
                             false = Some (Some R) ->
             NtfsOpenFile F2 st1 =
             Some ((EFI_SUCCESS, R),
                   State (env st1) (delete F2 (files st1))
                         (LookupListHead st1) (calls st1) (errlog st1))).
  { intros R Hfound. unfold NtfsOpenFile.
    rewrite (bind_run _ _ st1 st1 (Some R))
      by (apply NtfsLookupPath_Some; eauto).
    rewrite (bind_run _ _ st1
               (State (env st1) (delete F2 (files st1)) (LookupListHead st1)
                      (calls st1) (errlog st1)) tt); [reflexivity |].
    apply NtfsFreeFile_Some. exists f2. split; [assumption |].
    destruct (Z.leb_spec (RefCount f2) 0); [reflexivity | lia]. }
  destruct (NtfsOpenFile_spec F1 R1 f1 st st1 Status1 Hf1 Hopen)
    as (r & Hl & Hr).
  destruct r as [R0|].
  - (* the first open found a listed instance *)
    left. destruct Hr as (-> & -> & ->). simpl.
    apply NtfsLookup_from_Some_path in Hl as Hfound.
    destruct Hfound as (HR0 & r0 & Hr0 & Hp0).
    assert (Hne : R0 <> F1) by (intros ->; contradiction).
    assert (Hkept : forall e, e ∈ LookupListHead st ->
                (if RefCount f1 <=? 0 then delete F1 (files st)
                 else files st) !! e = files st !! e).
    { intros e He. destruct (RefCount f1 <=? 0); [| reflexivity].
      apply lookup_delete_ne. intros <-. contradiction. }
    split; [exact HR0 |]. split; [reflexivity |].
    split.
    { exists r0. split; [| exact Hp0]. rewrite Hkept; assumption. }
    apply Hsecond. simpl.
    rewrite <- Hl. rewrite (NtfsLookup_from_self _ _ (Some F2) (Some F1)).
    apply NtfsLookup_from_agree; [| assumption].
    intros e He. simpl. now apply Hkept.
  - destruct Hr as (_ & _ & _).
    destruct (NtfsOpenFile_unlisted F1 R1 f1 Status1 st st1 Hf1 Hl Hopen)
      as (-> & f1' & Hfiles & Hp' & [[Hl1 ->] | [Hl1 Hwhy]]).
    + (* the first open registered F1 *)
      left. split; [rewrite Hl1; apply elem_of_app; right;
                    apply list_elem_of_here |].
      split; [reflexivity |].
      split.
      { exists f1'. split; [rewrite Hfiles; apply lookup_insert_eq |].
        left. now rewrite Hp'. }
      apply Hsecond.
      rewrite Hl1, NtfsLookup_from_app.
      rewrite (NtfsLookup_from_self _ _ (Some F2) (Some F1)).
      rewrite (NtfsLookup_from_agree st1 st _ _ (Path f2) (Path f1));
        [| | assumption].
      2:{ intros e He. rewrite Hfiles. apply lookup_insert_ne.
          intros <-. contradiction. }
      rewrite Hl. simpl. rewrite Hfiles, lookup_insert_eq.
      rewrite char_at_0_eqb_cstr, StrCmp_eqb_cstr, Hp', Hpath.
      rewrite (bool_decide_eq_true_2 (cstr (Path f1) = cstr (Path f1)))
        by reflexivity.
      now destruct (_ && _).
    + (* the first open registered nothing *)
      right. split; [reflexivity |]. split; [exact Hl1 |].
      split.
      { exists f1'. split; [rewrite Hfiles; apply lookup_insert_eq |].
        exact Hwhy. }
      intros Status2 R2 st2 Hopen2.
      destruct (NtfsOpenFile_spec F2 R2 f2 st1 st2 Status2 Hf2 Hopen2)
        as (r & Hl2 & Hr2).
      assert (Hmiss : NtfsLookup_from st1 (LookupListHead st1) (Some F2)
                                      (Path f2) 0 false = Some None).
      { rewrite Hl1.
        rewrite (NtfsLookup_from_self _ _ (Some F2) (Some F1)).
        rewrite (NtfsLookup_from_agree st1 st _ _ (Path f2) (Path f1));
          [exact Hl | | assumption].
        intros e He. rewrite Hfiles. apply lookup_insert_ne.
        intros <-. contradiction. }
      rewrite Hmiss in Hl2. injection Hl2 as <-.
      now destruct Hr2 as (-> & _).
Qed.
End Open.

Lemma NtfsOpenFile_twice_witness :
  exists st1 st2,
    @NtfsOpenFile errno_glibc _ scripted 1%N st_open_twice =
    Some ((EFI_SUCCESS, 1%N), st1) /\
    @NtfsOpenFile errno_glibc _ scripted 3%N st1 =
    Some ((EFI_SUCCESS, 1%N), st2) /\
    files st2 !! 3%N = None /\ calls st2 = calls st1.
Proof.
  destruct (@NtfsOpenFile errno_glibc _ scripted 1%N st_open_twice)
    as [[[Status R1] st1]|] eqn:Hrun; [| vm_compute in Hrun; discriminate].
  assert (Hres : Status = EFI_SUCCESS /\ R1 = 1%N /\
                 LookupListHead st1 = [1%N] /\
                 files st1 !! 3%N = Some (new_file "/a" 0)).
  { vm_compute in Hrun. injection Hrun as <- <- <-. repeat split. }
  destruct Hres as (-> & -> & Hlist & Hf3).
  destruct (@NtfsOpenFile_twice errno_glibc _ scripted st_open_twice st1
              1%N 3%N 1%N (new_file "/a" 0) (new_file "/a" 0) EFI_SUCCESS
              eq_refl (not_elem_of_nil _) Hrun Hf3 ltac:(simpl; lia) eq_refl)
    as [(_ & _ & _ & Hsecond) | (_ & Hlist' & _)].
  - exists st1. eexists. split; [reflexivity |].
    split; [exact Hsecond |]. simpl.
    split; [apply lookup_delete_eq | reflexivity].
  - rewrite Hlist in Hlist'. discriminate.
Defined.

(** C2, at its failing input: the pool has no lookup entry to give. /a
    is opened twice while memory is low: NtfsLookupAdd drops the entry of the
    first instance, NtfsOpenFile returns EFI_SUCCESS all the same, and
    the second open, which finds no listed instance with the path /a,
    resolves the path again and returns the second instance: two
    instances of /a with two open inodes of the same file. *)
Lemma NtfsOpenFile_twice_pool_failure :
  exists (st1 st2 : state script) (f1 f3 : EFI_NTFS_FILE),
    @NtfsOpenFile errno_glibc _ low_memory 1%N st_open_low_memory =
    Some ((EFI_SUCCESS, 1%N), st1) /\
    @NtfsOpenFile errno_glibc _ low_memory 3%N st1 =
    Some ((EFI_SUCCESS, 3%N), st2) /\
    files st2 !! 1%N = Some f1 /\ files st2 !! 3%N = Some f3 /\
    Path f1 = Path f3 /\
    NtfsInode f1 = Some 100%N /\ NtfsInode f3 = Some 101%N /\
    inodes (env st2) !! 100%N = Some (file_inode 64 10) /\
    inodes (env st2) !! 101%N = Some (file_inode 64 10) /\
    LookupListHead st1 = [] /\ LookupListHead st2 = [3%N] /\
    calls st2 =
      [c_AllocatePool true; c_ucstombs (L "a") 1;
       c_pathname_to_inode None (Some (L "a")) (Some 100%N);
       c_AllocatePool false;
       c_AllocatePool true; c_ucstombs (L "a") 1;
       c_pathname_to_inode None (Some (L "a")) (Some 101%N);
       c_AllocatePool true].
Proof.
  eexists _, _, _, _.
  split; [vm_compute; reflexivity |].
  split; [vm_compute; reflexivity |].
  split; [vm_compute; reflexivity |].
  split; [vm_compute; reflexivity |].
  repeat split; reflexivity.
Qed.

(** ** Reading *)

Section Read.
Context {E : errno_h} {V : Type} {lib : libntfs V}.

Lemma s64_small (z : Z) : - 2 ^ 63 <= z < 2 ^ 63 -> s64 z = z.
Proof. intros H. unfold s64. rewrite Z.mod_small; lia. Qed.

Lemma u64_small (z : Z) : 0 <= z < 2 ^ 64 -> u64 z = z.
Proof. intros H. unfold u64. apply Z.mod_small. lia. Qed.

Lemma set_Offset_twice (a b : Z) (f : EFI_NTFS_FILE) :
  set_Offset b (set_Offset a f) = set_Offset b f.
Proof. reflexivity. Qed.

Lemma set_Offset_id (f : EFI_NTFS_FILE) : set_Offset (Offset f) f = f.
Proof. now destruct f. Qed.

Lemma total_app (a b : list Z) : total (a ++ b) = total a + total b.
Proof. unfold total. induction a as [|x a IH]; simpl; lia. Qed.


End Read.



(** ** Steps that keep the file instances and the lookup list *)

Section Evolve.
Context {E : errno_h} {V : Type} {lib : libntfs V}.

Lemma files_kept_refl (st : state V) : files_kept st st.
Proof. intros G g Hg. eauto. Qed.

Lemma files_kept_trans (st1 st2 st3 : state V) :
  files_kept st1 st2 -> files_kept st2 st3 -> files_kept st1 st3.
Proof.
  intros H12 H23 G g3 Hg3.
  destruct (H23 G g3 Hg3) as (g2 & Hg2 & Hp & Hb).
  destruct (H12 G g2 Hg2) as (g1 & Hg1 & Hp' & Hb').
  exists g1. repeat split; congruence.
Qed.

Lemma evolve_refl (rem : bool) (st : state V) : evolve rem st st.
Proof.
  split; [apply files_kept_refl |]. split; [now intros G |].
  now destruct rem.
Qed.

Lemma evolve_trans (rem : bool) (st1 st2 st3 : state V) :
  evolve rem st1 st2 -> evolve rem st2 st3 -> evolve rem st1 st3.
Proof.
  intros (Hf1 & Ha1 & Hl1) (Hf2 & Ha2 & Hl2).
  split; [eapply files_kept_trans; eassumption |].
  split; [intros G HG; auto |].
  destruct rem; [now transitivity (LookupListHead st2) | congruence].
Qed.

Lemma evolve_same (rem : bool) (st st' : state V) :
  files st' = files st -> LookupListHead st' = LookupListHead st ->
  evolve rem st st'.
Proof.
  intros Hf Hl. split; [| split].
  - intros G g Hg. rewrite Hf in Hg. eauto.
  - intros G HG. now rewrite Hf.
  - rewrite Hl. now destruct rem.
Qed.

Lemma all_wf_evolve (rem : bool) (st st' : state V) :
  all_wf st -> evolve rem st st' -> all_wf st'.
Proof.
  intros Hwf (Hf & _ & _) F f' Hf'.
  destruct (Hf F f' Hf') as (f & Hfst & Hp & Hb).
  destruct (Hwf F f Hfst) as (i & Hi & Hsep).
  exists i. rewrite Hp, Hb. auto.
Qed.

Lemma ret_evolve {A} (rem : bool) (a b : A) (st st' : state V) :
  ret a st = Some (b, st') -> evolve rem st st'.
Proof.
  intros H. apply ret_Some in H. injection H as _ ->. apply evolve_refl.
Qed.

Lemma File_get_evolve (rem : bool) (F : addr) (f : EFI_NTFS_FILE)
      (st st' : state V) :
  File_get F st = Some (f, st') -> evolve rem st st'.
Proof.
  intros H. apply File_get_Some in H as [_ ->]. apply evolve_refl.
Qed.

Lemma ni_get_evolve (rem : bool) (o : option addr) (n : ntfs_inode)
      (st st' : state V) :
  ni_get o st = Some (n, st') -> evolve rem st st'.
Proof.
  intros H. apply ni_get_Some in H as (p & _ & _ & ->). apply evolve_refl.
Qed.

Lemma ni_set_evolve (rem : bool) (o : option addr)
      (upd : ntfs_inode -> ntfs_inode) (u : unit) (st st' : state V) :
  ni_set o upd st = Some (u, st') -> evolve rem st st'.
Proof.
  unfold ni_set. intros H. destruct o as [p|]; [| discriminate].
  destruct (inodes (env st) !! p); [| discriminate].
  injection H as _ <-. now apply evolve_same.
Qed.

Lemma get_errno_evolve (rem : bool) (e : Z) (st st' : state V) :
  get_errno st = Some (e, st') -> evolve rem st st'.
Proof.
  intros H. apply get_errno_Some in H as [_ ->]. apply evolve_refl.
Qed.

Lemma errno_status_evolve (rem : bool) (s : EFI_STATUS) (st st' : state V) :
  errno_status st = Some (s, st') -> evolve rem st st'.
Proof.
  intros H. apply errno_status_Some in H as [_ ->]. apply evolve_refl.
Qed.

Lemma PrintError_evolve (rem : bool) (msg : string) (u : unit)
      (st st' : state V) :
  PrintError msg st = Some (u, st') -> evolve rem st st'.
Proof.
  intros H. apply PrintError_Some in H. subst st'. now apply evolve_same.
Qed.

Lemma lib_call_evolve {R} (rem : bool) (f : world V -> R * world V)
      (ev : R -> call) (r : R) (st st' : state V) :
  lib_call f ev st = Some (r, st') -> evolve rem st st'.
Proof.
  intros H. apply lib_call_Some in H as (w & _ & ->). now apply evolve_same.
Qed.

Lemma same_registry_evolve (rem : bool) (st st' : state V) :
  same_registry st st' -> evolve rem st st'.
Proof. intros (Hf & Hl & _). now apply evolve_same. Qed.

Lemma NtfsLookup_evolve (rem : bool) (self : option addr)
      (path : list CHAR16) (Inum : Z) (ig : bool) (r : option addr)
      (st st' : state V) :
  NtfsLookup self path Inum ig st = Some (r, st') -> evolve rem st st'.
Proof.
  intros H. apply NtfsLookup_Some in H as [_ ->]. apply evolve_refl.
Qed.

Lemma NtfsLookupPath_evolve (rem : bool) (F : addr) (ig : bool)
      (r : option addr) (st st' : state V) :
  NtfsLookupPath F ig st = Some (r, st') -> evolve rem st st'.
Proof.
  intros H. apply NtfsLookupPath_Some in H as (f & _ & _ & ->).
  apply evolve_refl.
Qed.

Lemma File_set_evolve (rem : bool) (F : addr)
      (upd : EFI_NTFS_FILE -> EFI_NTFS_FILE) (u : unit) (st st' : state V) :
  (forall f, Path (upd f) = Path f /\ BaseName (upd f) = BaseName f) ->
  File_set F upd st = Some (u, st') -> evolve rem st st'.
Proof.
  intros Hupd H. apply File_set_Some in H as (f & Hf & ->).
  split; [| split].
  - intros G g' Hg'. unfold with_file in Hg'. simpl in Hg'.
    destruct (decide (F = G)) as [<-|Hne].
    + rewrite lookup_insert_eq in Hg'. injection Hg' as <-.
      exists f. split; [assumption | apply Hupd].
    + rewrite lookup_insert_ne in Hg' by assumption. eauto.
  - intros G HG. unfold with_file. simpl.
    destruct (decide (F = G)) as [<-|Hne].
    + rewrite lookup_insert_eq. eauto.
    + now rewrite lookup_insert_ne.
  - now destruct rem.
Qed.

Lemma uncut_file_wf (i : nat) (f : EFI_NTFS_FILE) :
  Path f !! i = Some PATH_CHAR -> uncut_file i f = f.
Proof.
  intros H. unfold uncut_file. rewrite list_insert_id by assumption.
  now destruct f.
Qed.

Lemma NtfsLookupParent_wf (F : addr) (P : option addr) (st st' : state V) :
  all_wf st -> NtfsLookupParent F st = Some (P, st') -> st' = st.
Proof.
  intros Hwf H.
  apply NtfsLookupParent_Some in H as (f & i & Hf & Hb & Hi & _ & ->).
  destruct (Hwf F f Hf) as (j & Hj & Hsep).
  rewrite Hb in Hj. injection Hj as <-.
  rewrite uncut_file_wf by assumption. now apply with_file_id.
Qed.

Lemma NtfsLookupParent_evolve (rem : bool) (F : addr) (P : option addr)
      (st st' : state V) :
  all_wf st -> NtfsLookupParent F st = Some (P, st') -> evolve rem st st'.
Proof.
  intros Hwf H. rewrite (NtfsLookupParent_wf F P st st' Hwf H).
  apply evolve_refl.
Qed.

Lemma open_dirname_evolve (rem : bool) (F : addr) (r : option addr)
      (st st' : state V) :
  all_wf st -> open_dirname F st = Some (r, st') -> evolve rem st st'.
Proof.
  intros Hwf H. unfold open_dirname in H.
  mbind H as u st1 Hp.
  apply poke_before_BaseName_Some in Hp as (f & i & Hf & Hb & Hi & ->).
  mbind H as f1 s0 Hg. apply File_get_Some in Hg as [Hf1 Hs]. subst s0.
  mbind H as dir_ni st2 Ho. apply NtfsOpenInodeFromPath_frame in Ho.
  destruct Ho as (Hfiles & Hlist & _).
  mbind H as u' st3 Hp'.
  apply poke_before_BaseName_Some in Hp' as (f2 & i2 & Hf2 & Hb2 & Hi2 & ->).
  apply ret_Some in H. injection H as _ ->.
  rewrite Hfiles, with_file_lookup in Hf2. injection Hf2 as <-.
  simpl in Hb2. rewrite Hb in Hb2. injection Hb2 as <-.
  destruct (Hwf F f Hf) as (j & Hj & Hsep).
  rewrite Hb in Hj. injection Hj as <-.
  apply evolve_same.
  - unfold with_file. simpl. rewrite Hfiles. simpl.
    rewrite insert_insert_eq. simpl. rewrite list_insert_insert_eq.
    rewrite list_insert_id by assumption.
    apply insert_id. rewrite Hf. now destruct f.
  - simpl. exact Hlist.
Qed.

Lemma NtfsLookupRem_evolve (F : addr) (u : unit) (st st' : state V) :
  NtfsLookupRem F st = Some (u, st') -> evolve true st st'.
Proof.
  intros H. apply NtfsLookupRem_Some in H. subst st'.
  split; [intros G g Hg; simpl in Hg; eauto |]. split; [now intros G |].
  simpl. induction (LookupListHead st) as [|e l IH]; simpl; [constructor |].
  case_bool_decide; [now apply sublist_cons | now apply sublist_skip].
Qed.

End Evolve.

(** [evolve_tac H Hwf] proves [evolve rem st st'] from a run
    [H : m st = Some (a, st')] of steps that keep the file instances,
    given [Hwf : all_wf st]. *)
Ltac evolve_tac H Hwf :=
  cbv beta zeta in H;
  lazymatch type of H with
  | bind ?m ?k ?st = Some (_, ?st') =>
      let x := fresh "x" in
      let s := fresh "s" in
      let Hm := fresh "Hm" in
      let Hs := fresh "Hs" in
      let Hwf' := fresh "Hwf" in
      apply bind_Some in H as (x & s & Hm & H);
      lazymatch goal with
      | |- evolve ?rem _ _ =>
          assert (Hs : evolve rem st s) by evolve_tac Hm Hwf;
          pose proof (all_wf_evolve rem st s Hwf Hs) as Hwf';
          apply (evolve_trans rem st s st' Hs);
          evolve_tac H Hwf'
      end
  | ret _ _ = Some _ => exact (ret_evolve _ _ _ _ _ H)
  | undefined _ = Some _ => discriminate H
  | File_get _ _ = Some _ => exact (File_get_evolve _ _ _ _ _ H)
  | ni_get _ _ = Some _ => exact (ni_get_evolve _ _ _ _ _ H)
  | ni_set _ _ _ = Some _ => exact (ni_set_evolve _ _ _ _ _ _ H)
  | get_errno _ = Some _ => exact (get_errno_evolve _ _ _ _ H)
  | errno_status _ = Some _ => exact (errno_status_evolve _ _ _ _ H)
  | PrintError _ _ = Some _ => exact (PrintError_evolve _ _ _ _ _ H)
  | lib_call _ _ _ = Some _ => exact (lib_call_evolve _ _ _ _ _ _ H)
  | inode_close _ _ = Some _ => unfold inode_close in H; evolve_tac H Hwf
  | inode_open _ _ = Some _ => unfold inode_open in H; evolve_tac H Hwf
  | update_times _ _ _ = Some _ => unfold update_times in H; evolve_tac H Hwf
  | to_utf8 _ _ _ = Some _ =>
      exact (same_registry_evolve _ _ _ (to_utf8_frame _ _ _ _ _ H))
  | NtfsOpenInodeFromPath _ _ = Some _ =>
      exact (same_registry_evolve _ _ _
               (NtfsOpenInodeFromPath_frame _ _ _ _ H))
  | NtfsLookup _ _ _ _ _ = Some _ =>
      exact (NtfsLookup_evolve _ _ _ _ _ _ _ _ H)
  | NtfsLookupPath _ _ _ = Some _ =>
      exact (NtfsLookupPath_evolve _ _ _ _ _ _ H)
  | NtfsLookupParent _ _ = Some _ =>
      exact (NtfsLookupParent_evolve _ _ _ _ _ Hwf H)
  | open_dirname _ _ = Some _ =>
      exact (open_dirname_evolve _ _ _ _ _ Hwf H)
  | NtfsLookupRem _ _ = Some _ => exact (NtfsLookupRem_evolve _ _ _ _ H)
  | File_set _ _ _ = Some _ =>
      refine (File_set_evolve _ _ _ _ _ _ _ H); intros; split; reflexivity
  | (if ?b then _ else _) _ = Some _ => destruct b; evolve_tac H Hwf
  | (match ?x with _ => _ end) _ = Some _ => destruct x; evolve_tac H Hwf
  end.

Section Ops.
Context {E : errno_h} {V : Type} {lib : libntfs V}.



End Ops.

(** ** The lookup list over sequences of operations *)

Section MayAdd.
Context {E : errno_h} {V : Type} {lib : libntfs V}.





End MayAdd.


(** ** Moves *)

Section Moved.
Context {E : errno_h} {V : Type} {lib : libntfs V}.

Lemma evolve_moved (F : addr) (target : list CHAR16) (st st' : state V) :
  evolve false st st' -> moved F target st st'.
Proof.
  intros (Hf & Ha & Hl). split; [| split]; auto.
  intros G g' Hg'. destruct (Hf G g' Hg') as (g & Hg & Hp). eauto.
Qed.

Lemma moved_trans (F : addr) (target : list CHAR16) (st1 st2 st3 : state V) :
  moved F target st1 st2 -> moved F target st2 st3 -> moved F target st1 st3.
Proof.
  intros (Hf1 & Ha1 & Hl1) (Hf2 & Ha2 & Hl2).
  split; [| split; [intros G HG; auto | congruence]].
  intros G g3 Hg3.
  destruct (Hf2 G g3 Hg3) as (g2 & Hg2 & Hc2).
  destruct (Hf1 G g2 Hg2) as (g1 & Hg1 & Hc1).
  exists g1. split; [assumption |].
  destruct Hc2 as [[Hp Hb] | Hm]; [| now right].
  destruct Hc1 as [[Hp' Hb'] | (HG & Hp' & (i & Hi & Hsep))].
  - left. split; congruence.
  - right. split; [assumption |]. split; [congruence |].
    exists i. rewrite Hp, Hb. auto.
Qed.

Lemma all_wf_moved (F : addr) (target : list CHAR16) (st st' : state V) :
  all_wf st -> moved F target st st' -> all_wf st'.
Proof.
  intros Hwf (Hf & _ & _) G g' Hg'.
  destruct (Hf G g' Hg') as (g & Hg & [[Hp Hb] | (_ & _ & Hw)]);
    [| assumption].
  destruct (Hwf G g Hg) as (i & Hi & Hsep).
  exists i. rewrite Hp, Hb. auto.
Qed.

Lemma File_set_moved (F : addr) (P : list CHAR16) (Len : nat) (u : unit)
      (st st' : state V) :
  P !! Len = Some PATH_CHAR ->
  File_set F (fun f => set_BaseName (S Len) (set_Path P f)) st =
  Some (u, st') ->
  moved F P st st'.
Proof.
  intros HP H. apply File_set_Some in H as (f & Hf & ->).
  split; [| split].
  - intros G g' Hg'. unfold with_file in Hg'. simpl in Hg'.
    destruct (decide (F = G)) as [<-|Hne].
    + rewrite lookup_insert_eq in Hg'. injection Hg' as <-.
      exists f. split; [assumption | right].
      split; [reflexivity |]. split; [reflexivity |].
      exists Len. split; [reflexivity | exact HP].
    + rewrite lookup_insert_ne in Hg' by assumption. eauto.
  - intros G HG. unfold with_file. simpl.
    destruct (decide (F = G)) as [<-|Hne].
    + rewrite lookup_insert_eq. eauto.
    + now rewrite lookup_insert_ne.
  - reflexivity.
Qed.

Lemma Path_poke_Some (F : addr) (i : nat) (c : CHAR16) (u : unit)
      (st st' : state V) :
  Path_poke F i c st = Some (u, st') ->
  exists f, files st !! F = Some f /\ (i < length (Path f))%nat /\
            st' = with_file F (set_Path (<[i := c]> (Path f)) f) st.
Proof.
  unfold Path_poke. intros H. mbind H as f s0 Hg.
  apply File_get_Some in Hg as [Hf Hs]. subst s0.
  unfold poke in H. destruct (decide (i < length (Path f))%nat);
    [| discriminate].
  apply File_set_Some in H as (f' & Hf' & ->).
  rewrite Hf in Hf'. injection Hf' as <-. eauto.
Qed.

Lemma rfind_sep_Some (buf : list CHAR16) (n j : nat) :
  rfind_sep buf n = Some j -> buf !! j = Some PATH_CHAR.
Proof.
  induction n as [|n IH]; simpl; [discriminate |].
  destruct (Z.eqb_spec (char_at buf n) PATH_CHAR) as [Hc | Hc]; [| exact IH].
  intros [= <-]. unfold char_at in Hc.
  destruct (buf !! n) as [c|] eqn:Hn.
  - rewrite (nth_lookup_Some _ _ _ _ Hn) in Hc. now subst.
  - apply lookup_ge_None in Hn. rewrite nth_overflow in Hc by lia.
    discriminate.
Qed.

(** A path that is cut and restored at a separator is what it was. *)
Lemma poke_window (F : addr) (i : nat) (f : EFI_NTFS_FILE)
      (st s2 : state V) :
  files st !! F = Some f -> Path f !! i = Some PATH_CHAR ->
  files s2 = files (with_file F (cut_file i f) st) ->
  files (with_file F (uncut_file i (cut_file i f)) s2) = files st.
Proof.
  intros Hf Hsep Hfiles. unfold with_file. simpl. rewrite Hfiles. simpl.
  rewrite insert_insert_eq. apply insert_id. rewrite Hf. f_equal.
  unfold uncut_file, cut_file. simpl. rewrite list_insert_insert_eq.
  rewrite list_insert_id by assumption. now destruct f.
Qed.

Lemma cut_window (F : addr) (u u' : unit) (st s1 s2 s3 : state V) :
  all_wf st ->
  poke_before_BaseName F 0 st = Some (u, s1) ->
  files s2 = files s1 -> LookupListHead s2 = LookupListHead s1 ->
  poke_before_BaseName F PATH_CHAR s2 = Some (u', s3) ->
  files s3 = files st /\ LookupListHead s3 = LookupListHead st.
Proof.
  intros Hwf Hp Hfiles Hlist Hp'.
  apply poke_before_BaseName_Some in Hp as (f & i & Hf & Hb & Hi & ->).
  apply poke_before_BaseName_Some in Hp' as (f2 & i2 & Hf2 & Hb2 & Hi2 & ->).
  rewrite Hfiles, with_file_lookup in Hf2. injection Hf2 as <-.
  simpl in Hb2. rewrite Hb in Hb2. injection Hb2 as <-.
  destruct (Hwf F f Hf) as (j & Hj & Hsep).
  rewrite Hb in Hj. injection Hj as <-.
  split; [| simpl; exact Hlist].
  now apply (poke_window F i f).
Qed.

Lemma Path_window (F : addr) (j : nat) (u u' : unit) (f : EFI_NTFS_FILE)
      (st s1 s2 : state V) :
  files st !! F = Some f -> Path f !! j = Some PATH_CHAR ->
  Path_poke F j 0 st = Some (u, s1) ->
  Path_poke F j PATH_CHAR s1 = Some (u', s2) ->
  files s2 = files st /\ LookupListHead s2 = LookupListHead st.
Proof.
  intros Hf Hsep Hp Hp'.
  apply Path_poke_Some in Hp as (f1 & Hf1 & _ & ->).
  rewrite Hf in Hf1. injection Hf1 as <-.
  apply Path_poke_Some in Hp' as (f2 & Hf2 & _ & ->).
  rewrite with_file_lookup in Hf2. injection Hf2 as <-.
  split; [| reflexivity].
  now apply (poke_window F j f).
Qed.
End Moved.

(** [move_tac H Hwf] proves [moved F target st st'] from a run
    [H : m st = Some (a, st')] that sets the path of [F] at most to
    [target], given [Hwf : all_wf st]. *)
Ltac move_tac H Hwf :=
  cbv beta zeta in H;
  lazymatch type of H with
  | bind ?m ?k ?st = Some (_, ?st') =>
      let x := fresh "x" in
      let s := fresh "s" in
      let Hm := fresh "Hm" in
      let Hs := fresh "Hs" in
      let Hwf' := fresh "Hwf" in
      apply bind_Some in H as (x & s & Hm & H);
      lazymatch goal with
      | |- moved ?F ?t _ _ =>
          assert (Hs : moved F t st s) by move_tac Hm Hwf;
          pose proof (all_wf_moved F t st s Hwf Hs) as Hwf';
          apply (moved_trans F t st s st' Hs);
          move_tac H Hwf'
      end
  | NtfsMoveFile_out _ _ _ _ _ _ _ _ = Some _ =>
      unfold NtfsMoveFile_out in H; move_tac H Hwf
  | File_set _ _ _ = Some _ =>
      first [ apply evolve_moved; evolve_tac H Hwf
            | refine (File_set_moved _ _ _ _ _ _ _ H); assumption ]
  | (if ?b then _ else _) _ = Some _ => destruct b; move_tac H Hwf
  | (match ?x with _ => _ end) _ = Some _ => destruct x; move_tac H Hwf
  | _ => apply evolve_moved; evolve_tac H Hwf
  end.

Section MoveOps.
Context {E : errno_h} {V : Type} {lib : libntfs V}.

Lemma NtfsMoveFile_link_moved (File : addr) (NewPath : list CHAR16)
      (Len : nat) (Parent NewParent : option addr)
      (SameDir ParentIsChildOfNewParent : bool)
      (parent_ni newparent_ni : option addr)
      (parent_inum newparent_inum : Z) (Status : EFI_STATUS)
      (st st' : state V) :
  <[Len := PATH_CHAR]> NewPath !! Len = Some PATH_CHAR ->
  all_wf st ->
  NtfsMoveFile_link File NewPath Len Parent NewParent SameDir
                    ParentIsChildOfNewParent parent_ni newparent_ni
                    parent_inum newparent_inum st = Some (Status, st') ->
  moved File (<[Len := PATH_CHAR]> NewPath) st st'.
Proof.
  intros Hlen Hwf H. unfold NtfsMoveFile_link in H. move_tac H Hwf.
Qed.

Lemma NtfsMoveFile_newparent_moved (File : addr) (NewPath : list CHAR16)
      (Len : nat) (Parent parent_ni : option addr) (parent_inum : Z)
      (Status : EFI_STATUS) (st st' : state V) :
  <[Len := PATH_CHAR]> NewPath !! Len = Some PATH_CHAR ->
  all_wf st ->
  NtfsMoveFile_newparent File NewPath Len Parent parent_ni parent_inum st =
  Some (Status, st') ->
  moved File (<[Len := PATH_CHAR]> NewPath) st st'.
Proof.
  intros Hlen Hwf H. unfold NtfsMoveFile_newparent in H.
  set (t := <[Len := PATH_CHAR]> NewPath) in *.
  mbind H as NewParent s0 Hl. apply NtfsLookup_Some in Hl as [_ Hs]. subst s0.
  mbind H as pn st1 Hpn.
  assert (H1 : moved File t st st1).
  { destruct NewParent; move_tac Hpn Hwf. }
  pose proof (all_wf_moved File t st st1 Hwf H1) as Hwf1.
  apply (moved_trans File t st st1 st' H1).
  destruct pn as [parent_ni' newparent_ni].
  destruct newparent_ni as [np|]; [| move_tac H Hwf1].
  mbind H as npi s0 Hg. apply ni_get_Some in Hg as (p & _ & _ & Hs). subst s0.
  mbind H as u st2 Hcut.
  mbind H as f s0 Hg. apply File_get_Some in Hg as [Hf Hs]. subst s0.
  mbind H as Child st3 Hchild.
  mbind H as u' st4 Huncut.
  assert (Hsame : files st3 = files st2 /\
                  LookupListHead st3 = LookupListHead st2).
  { destruct (0 <? Z.of_nat (StrLen (Path f))).
    - destruct (rfind_sep (Path f) (StrLen (Path f))) as [TmpLen|] eqn:Hfind;
        [| discriminate].
      apply rfind_sep_Some in Hfind.
      mbind Hchild as v sa Hp0.
      mbind Hchild as f' s0 Hg. apply File_get_Some in Hg as [_ Hs]. subst s0.
      mbind Hchild as v' sb Hp1.
      apply ret_Some in Hchild. injection Hchild as _ ->.
      exact (Path_window File TmpLen v v' f st2 sa sb Hf Hfind Hp0 Hp1).
    - apply ret_Some in Hchild. now injection Hchild as _ ->. }
  destruct Hsame as [Hfiles Hlist].
  destruct (cut_window File u u' st1 st2 st3 st4 Hwf1 Hcut Hfiles Hlist
              Huncut) as [Hfiles4 Hlist4].
  assert (H4 : moved File t st1 st4).
  { apply evolve_moved. now apply evolve_same. }
  pose proof (all_wf_moved File t st1 st4 Hwf1 H4) as Hwf4.
  apply (moved_trans File t st1 st4 st' H4).
  now apply NtfsMoveFile_link_moved in H.
Qed.

Lemma NtfsMoveFile_moved (File : addr) (NewPath : list CHAR16)
      (Status : EFI_STATUS) (st st' : state V) :
  all_wf st ->
  NtfsMoveFile File NewPath st = Some (Status, st') ->
  moved File NewPath st st'.
Proof.
  intros Hwf H. unfold NtfsMoveFile in H.
  mbind H as f s0 Hg. apply File_get_Some in Hg as [Hf Hs]. subst s0.
  destruct (StrCmp (Path f) NewPath =? 0); [move_tac H Hwf |].
  mbind H as i s0 Hg. apply ni_get_Some in Hg as (p & _ & _ & Hs). subst s0.
  destruct (IS_DIRTY i); [move_tac H Hwf |].
  destruct (rfind_sep NewPath (StrLen NewPath)) as [Len|] eqn:Hfind;
    [| discriminate].
  apply rfind_sep_Some in Hfind.
  assert (Hlen : <[Len := PATH_CHAR]> (<[Len := 0]> NewPath) !! Len =
                 Some PATH_CHAR).
  { apply list_lookup_insert_eq. rewrite length_insert.
    now apply lookup_lt_Some in Hfind. }
  assert (Hback : <[Len := PATH_CHAR]> (<[Len := 0]> NewPath) = NewPath).
  { rewrite list_insert_insert_eq. now apply list_insert_id. }
  mbind H as Parent s0 Hpar.
  apply (NtfsLookupParent_wf File Parent st s0 Hwf) in Hpar. subst s0.
  mbind H as u st1 Hcut.
  mbind H as f1 s0 Hg. apply File_get_Some in Hg as [Hf1 Hs]. subst s0.
  mbind H as parent_ni st2 Hopen.
  mbind H as u' st3 Huncut.
  assert (Hsame : files st2 = files st1 /\
                  LookupListHead st2 = LookupListHead st1).
  { destruct Parent as [P|].
    - mbind Hopen as pf s0 Hg. apply File_get_Some in Hg as [_ Hs]. subst s0.
      apply ret_Some in Hopen. now injection Hopen as _ ->.
    - apply NtfsOpenInodeFromPath_frame in Hopen as (Hfiles & Hlist & _).
      auto. }
  destruct Hsame as [Hfiles Hlist].
  destruct (cut_window File u u' st st1 st2 st3 Hwf Hcut Hfiles Hlist
              Huncut) as [Hfiles3 Hlist3].
  assert (H3 : moved File NewPath st st3).
  { apply evolve_moved. now apply evolve_same. }
  pose proof (all_wf_moved File NewPath st st3 Hwf H3) as Hwf3.
  apply (moved_trans File NewPath st st3 st' H3).
  destruct parent_ni as [pn|]; [| move_tac H Hwf3].
  mbind H as pi s0 Hg. apply ni_get_Some in Hg as (q & _ & _ & Hs). subst s0.
  mbind H as forbidden st4 Hforb.
  assert (H4 : moved File NewPath st3 st4) by move_tac Hforb Hwf3.
  pose proof (all_wf_moved File NewPath st3 st4 Hwf3 H4) as Hwf4.
  apply (moved_trans File NewPath st3 st4 st' H4).
  destruct forbidden; [move_tac H Hwf4 |].
  destruct (StrCmp (<[Len := 0]> NewPath) (Path f1) =? 0).
  - apply NtfsMoveFile_link_moved in H; [| assumption | assumption].
    now rewrite Hback in H.
  - apply NtfsMoveFile_newparent_moved in H; [| assumption | assumption].
    now rewrite Hback in H.
Qed.

End MoveOps.

Section SetInfoMoves.
Context {E : errno_h} {V : Type} {lib : libntfs V}.



End SetInfoMoves.

Section Registry.
Context {E : errno_h} {V : Type} {lib : libntfs V}.










End Registry.

#[local] Existing Instance errno_glibc.



(** C1, at its failing input: /a and /b are two hard links to the file
    with MFT number 64. Opening /a and then /b finds no entry with the
    path /b and resolves it through the library: the lookup list, which
    is kept to prevent a double inode open, then holds two instances
    with open inodes of the same on-disk object. *)
Lemma hard_links_opened_twice :
  exists st1 st2,
    step st_hard_links st1 /\ step st1 st2 /\ ~ single_open st2.
Proof.
  destruct (NtfsOpenFile 1%N st_hard_links)
    as [[r1 st1]|] eqn:Hrun1; [| vm_compute in Hrun1; discriminate].
  destruct (NtfsOpenFile 2%N st1)
    as [[r2 st2]|] eqn:Hrun2;
    [| vm_compute in Hrun1; injection Hrun1 as <- <-;
       vm_compute in Hrun2; discriminate].
  exists st1, st2.
  split.
  { apply (step_open st_hard_links st1 1%N r1); [| exact Hrun1].
    apply not_elem_of_nil. }
  split.
  { apply (step_open st1 st2 2%N r2); [| exact Hrun2].
    vm_compute in Hrun1. injection Hrun1 as <- <-.
    intros Hin. apply list_elem_of_singleton in Hin. discriminate. }
  vm_compute in Hrun1. injection Hrun1 as <- <-.
  vm_compute in Hrun2. injection Hrun2 as <- <-.
  intros Hsingle.
  assert (Habs : 1%N = 2%N).
  { apply (Hsingle 1%N 2%N
             (set_IsDir 0 (set_NtfsInode (Some 100%N)
                             (set_IsRoot false (new_file "/a" 0))))
             (set_IsDir 0 (set_NtfsInode (Some 101%N)
                             (set_IsRoot false (new_file "/b" 0))))
             100%N 101%N (file_inode 64 10) (file_inode 64 10));
      try reflexivity.
    - apply list_elem_of_here.
    - apply list_elem_of_further, list_elem_of_here. }
  discriminate.
Qed.

(** * Further properties *)

(** ** errno and status *)

Section ErrnoStatus.
Context {E : errno_h} {V : Type}.

Lemma ErrnoToEfiStatus_label (labels : list Z) (s : EFI_STATUS) (e : Z) :
  case_labels_distinct ->
  In (labels, s) errno_groups -> In e labels -> ErrnoToEfiStatus e = s.
Proof.
  intros Hnd Hg He. apply switch_spec; [exact Hnd |]. left. eauto.
Qed.

(** A switch on a status with distinct labels picks the group of the
    label that has the value. *)
Lemma switch_status_label {C : efi_status_h}
      (groups : list (list EFI_STATUS * Z)) (default e : Z)
      (labels : list EFI_STATUS) (s : EFI_STATUS) :
  NoDup (map status_code (concat (map fst groups))) ->
  In (labels, e) groups -> In s labels ->
  switch_status (status_code s) groups default = e.
Proof.
  induction groups as [|[labels' e'] rest IH]; simpl; intros Hnd Hg Hs;
    [contradiction |].
  rewrite map_app in Hnd. apply NoDup_app in Hnd as (_ & Hdisj & Hrest).
  destruct (existsb _ labels') eqn:Hc.
  - destruct Hg as [Heq | Hin]; [now inversion Heq |].
    exfalso. apply existsb_exists in Hc as (s' & Hs' & Heq).
    apply Z.eqb_eq in Heq. apply (Hdisj (status_code s)).
    + rewrite Heq. apply list_elem_of_In, in_map, Hs'.
    + apply list_elem_of_In, in_map, in_concat. exists labels.
      split; [| exact Hs]. apply in_map_iff. now exists (labels, e).
  - destruct Hg as [Heq | Hin]; [| now apply IH].
    inversion Heq; subst. exfalso.
    assert (Hex : existsb (fun s0 => status_code s =? status_code s0)
                          labels = true).
    { apply existsb_exists. exists s. split; [exact Hs | apply Z.eqb_refl]. }
    congruence.
Qed.

(** A value that no label has goes to the default. *)
Lemma switch_status_default {C : efi_status_h}
      (groups : list (list EFI_STATUS * Z)) (default x : Z) :
  (forall s, In s (concat (map fst groups)) -> x <> status_code s) ->
  switch_status x groups default = default.
Proof.
  induction groups as [|[labels e] rest IH]; simpl; intros Hno;
    [reflexivity |].
  destruct (existsb _ labels) eqn:Hc.
  - exfalso. apply existsb_exists in Hc as (s & Hs & Heq).
    apply Z.eqb_eq in Heq. apply (Hno s); [| exact Heq].
    apply in_or_app. now left.
  - apply IH. intros s Hs. apply Hno, in_or_app. now right.
Qed.

Lemma NoDup_map_inj {A} (f : A -> Z) (l : list A) (a b : A) :
  NoDup (map f l) -> In a l -> In b l -> f a = f b -> a = b.
Proof.
  induction l as [|c l IH]; simpl; intros Hnd Ha Hb Heq; [contradiction |].
  apply NoDup_cons in Hnd as [Hc Hnd].
  destruct Ha as [<- | Ha], Hb as [<- | Hb].
  - reflexivity.
  - exfalso. apply Hc. rewrite Heq. apply list_elem_of_In, in_map, Hb.
  - exfalso. apply Hc. rewrite <- Heq. apply list_elem_of_In, in_map, Ha.
  - now apply IH.
Qed.

(** The case group that lists the label [s]. *)
Ltac group_of s groups :=
  lazymatch groups with
  | (?l, ?e) :: ?rest =>
      lazymatch l with
      | context [s] => constr:((l, e))
      | _ => group_of s rest
      end
  end.

Section SetErrnoStatus.
Context {C : efi_status_h}.

(** What ErrnoToEfiStatus() makes of the errno that NtfsSetErrno()
    stores for a case label. *)
Lemma NtfsSetErrno_value_status (s : EFI_STATUS) :
  case_labels_distinct -> status_labels_distinct ->
  In s status_labels ->
  ErrnoToEfiStatus (NtfsSetErrno_value (status_code s)) =
  match s with
  | EFI_MEDIA_CHANGED => EFI_NO_MEDIA
  | EFI_ICMP_ERROR | EFI_TFTP_ERROR | EFI_CRC_ERROR
  | EFI_INVALID_LANGUAGE => EFI_PROTOCOL_ERROR
  | EFI_INCOMPATIBLE_VERSION => EFI_LOAD_ERROR
  | EFI_COMPROMISED_DATA | EFI_NO_MAPPING => EFI_INVALID_PARAMETER
  | _ => s
  end.
Proof.
  intros Hnd Hsd Hs.
  assert (Hval : forall labels e,
             In (labels, e) status_groups -> In s labels ->
             NtfsSetErrno_value (status_code s) = e).
  { intros labels e Hg Hl.
    now apply (switch_status_label status_groups EFAULT e labels s). }
  unfold status_labels, status_groups in Hs. simpl in Hs.
  repeat (destruct Hs as [<- | Hs];
          [match goal with
           | |- ErrnoToEfiStatus (NtfsSetErrno_value (status_code ?s0)) = _ =>
               let g := eval unfold status_groups in status_groups in
               let p := group_of s0 g in
               match p with
               | (?l, ?e) =>
                   rewrite (Hval l e)
                     by (unfold status_groups;
                         repeat first [left; reflexivity | right])
               end
           end;
           eapply ErrnoToEfiStatus_label;
           [exact Hnd
           | unfold errno_groups; repeat first [left; reflexivity | right]
           | repeat first [left; reflexivity | right]] |]).
  contradiction.
Qed.

(** X1. After NtfsSetErrno(Status), for any value Status of the UINTN,
    ErrnoToEfiStatus() gives Status back exactly when Status is the
    value of one of the 24 statuses of [restored]. Every other value
    comes back as another status: the other eight case labels
    (EFI_NO_MAPPING, for one, comes back as EFI_INVALID_PARAMETER) and
    all the values that no case label has, which go to the default.
    NtfsSetErrno changes nothing but errno. *)
Theorem NtfsSetErrno_round_trip (Status : Z) (st : state V) :
  case_labels_distinct ->
  status_labels_distinct ->
  exists st',
    NtfsSetErrno Status st = Some (tt, st') /\
    files st' = files st /\ LookupListHead st' = LookupListHead st /\
    inodes (env st') = inodes (env st) /\
    (status_code (ErrnoToEfiStatus (errno (env st'))) = Status <->
     exists s, s ∈ restored /\ Status = status_code s).
Proof.
  intros Hnd Hsd. eexists. split; [reflexivity |]. simpl.
  do 3 (split; [reflexivity |]).
  assert (Hres : forall s, s ∈ restored -> In s status_labels).
  { intros s Hs. unfold restored in Hs.
    repeat (apply elem_of_cons in Hs as [-> | Hs];
            [unfold status_labels, status_groups; simpl; tauto |]).
    now apply elem_of_nil in Hs. }
  destruct (find (fun s => Status =? status_code s) status_labels)
    as [s|] eqn:Hfind.
  - apply find_some in Hfind as [Hs Heq]. apply Z.eqb_eq in Heq. subst Status.
    rewrite (NtfsSetErrno_value_status s Hnd Hsd Hs).
    assert (Hinj : forall a b, In a status_labels -> In b status_labels ->
                               status_code a = status_code b -> a = b).
    { intros a b. now apply NoDup_map_inj. }
    assert (Hlab : forall a, In a status_labels <->
                             a <> EFI_WARN_DELETE_FAILURE).
    { intros a. unfold status_labels, status_groups. simpl.
      destruct a; split; intros H; try discriminate; try tauto;
        repeat (destruct H as [H | H]; [discriminate |]); contradiction. }
    split.
    + intros Heq. exists s. split; [| reflexivity].
      assert (Hmatch : match s with
                       | EFI_MEDIA_CHANGED => EFI_NO_MEDIA
                       | EFI_ICMP_ERROR | EFI_TFTP_ERROR | EFI_CRC_ERROR
                       | EFI_INVALID_LANGUAGE => EFI_PROTOCOL_ERROR
                       | EFI_INCOMPATIBLE_VERSION => EFI_LOAD_ERROR
                       | EFI_COMPROMISED_DATA | EFI_NO_MAPPING =>
                           EFI_INVALID_PARAMETER
                       | _ => s
                       end = s).
      { apply Hinj; [| exact Hs | exact Heq].
        apply Hlab. apply Hlab in Hs. destruct s; congruence. }
      unfold restored.
      destruct s; try discriminate Hmatch;
        try (repeat first [apply list_elem_of_here
                          | apply list_elem_of_further]).
      exfalso. now apply Hlab in Hs.
    + intros (s' & Hs' & Heq).
      apply Hinj in Heq; [| exact Hs | now apply Hres]. subst s'.
      unfold restored in Hs'.
      repeat (apply elem_of_cons in Hs' as [-> | Hs']; [reflexivity |]).
      now apply elem_of_nil in Hs'.
  - assert (Hno : forall s, In s status_labels -> Status <> status_code s).
    { intros s Hs Heq. apply (find_none _ _ Hfind) in Hs.
      apply Z.eqb_neq in Hs. contradiction. }
    unfold NtfsSetErrno_value.
    rewrite (switch_status_default status_groups EFAULT Status Hno).
    rewrite (ErrnoToEfiStatus_label
               [EBADF; EDOM; EFAULT; EIDRM; EILSEQ; EINVAL; ENAMETOOLONG;
                EPROTOTYPE] EFI_INVALID_PARAMETER EFAULT Hnd);
      [| unfold errno_groups; repeat first [left; reflexivity | right]
       | repeat first [left; reflexivity | right]].
    split.
    + intros Heq. exfalso. apply (Hno EFI_INVALID_PARAMETER); [| now symmetry].
      unfold status_labels, status_groups. simpl. tauto.
    + intros (s & Hs & Heq). exfalso. apply (Hno s); [| exact Heq].
      now apply Hres.
Qed.
End SetErrnoStatus.

(** X2. ErrnoToEfiStatus() gives an error status exactly when errno
    is not 0: a failure path that returns ErrnoToEfiStatus() while errno
    is 0 returns EFI_SUCCESS. *)
Theorem ErrnoToEfiStatus_error_iff (e : Z) :
  case_labels_distinct ->
  EFI_ERROR (ErrnoToEfiStatus e) = true <-> e <> 0.
Proof.
  intros Hnd. split.
  - intros Herr ->.
    rewrite (ErrnoToEfiStatus_label [0] EFI_SUCCESS 0 Hnd) in Herr;
      [discriminate | now left | now left].
  - intros Hne.
    destruct (ErrnoToEfiStatus e) eqn:Hs; try reflexivity; exfalso.
    + apply switch_spec in Hs; [| exact Hnd].
      destruct Hs as [(labels & Hin & He) | [Hs _]]; [| discriminate].
      unfold errno_groups in Hin. simpl in Hin.
      repeat (destruct Hin as [Hin | Hin]; [try discriminate |]);
        try contradiction.
      injection Hin as <-. simpl in He. destruct He as [He | []].
      congruence.
    + apply switch_spec in Hs; [| exact Hnd].
      destruct Hs as [(labels & Hin & He) | [Hs _]]; [| discriminate].
      unfold errno_groups in Hin. simpl in Hin.
      repeat (destruct Hin as [Hin | Hin]; [discriminate |]).
      contradiction.
Qed.
End ErrnoStatus.

Lemma NtfsSetErrno_round_trip_witness :
  @case_labels_distinct errno_glibc /\
  @status_labels_distinct errno_glibc uefi_64 /\
  exists st',
    @NtfsSetErrno errno_glibc uefi_64 script (ENCODE_ERROR 14) st_dirty =
    Some (tt, st') /\
    @status_code uefi_64 (@ErrnoToEfiStatus errno_glibc (errno (env st'))) =
    ENCODE_ERROR 14.
Proof.
  assert (Hnd : @case_labels_distinct errno_glibc).
  { apply (bool_decide_unpack (NoDup _)). vm_compute. reflexivity. }
  assert (Hsd : @status_labels_distinct errno_glibc uefi_64).
  { apply (bool_decide_unpack (NoDup _)). vm_compute. reflexivity. }
  split; [exact Hnd |]. split; [exact Hsd |].
  destruct (@NtfsSetErrno_round_trip errno_glibc script uefi_64
              (ENCODE_ERROR 14) st_dirty Hnd Hsd)
    as (st' & Hrun & _ & _ & _ & Hiff).
  exists st'. split; [exact Hrun |].
  apply Hiff. exists EFI_NOT_FOUND. split; [| reflexivity].
  unfold restored.
  repeat first [apply list_elem_of_here | apply list_elem_of_further].
Defined.

Lemma ErrnoToEfiStatus_error_iff_witness :
  @case_labels_distinct errno_glibc /\
  (EFI_ERROR (@ErrnoToEfiStatus errno_glibc 5) = true <-> 5 <> 0).
Proof.
  assert (Hnd : @case_labels_distinct errno_glibc).
  { apply (bool_decide_unpack (NoDup _)). vm_compute. reflexivity. }
  split; [exact Hnd |].
  apply (@ErrnoToEfiStatus_error_iff errno_glibc 5 Hnd).
Defined.

(** ** The lookup list *)

Section LookupList.
Context {E : errno_h} {V : Type} {lib : libntfs V}.

Lemma remove_first_app_new (F : addr) (l : list addr) :
  F ∉ l -> remove_first F (l ++ [F]) = l.
Proof.
  induction l as [|e l IH]; intros Hnew; simpl.
  - now rewrite bool_decide_eq_true_2.
  - apply not_elem_of_cons in Hnew as [Hne Hnew].
    rewrite bool_decide_eq_false_2 by assumption. now rewrite IH.
Qed.

(** X3. Round trip of the lookup list. An instance whose path no
    listed instance has is added at the tail (when the pool gives an
    entry); a lookup of its path then finds it; removing it gives the
    list back, and the path is not found any more. *)
Theorem NtfsLookupAdd_Lookup_Rem (F : addr) (f : EFI_NTFS_FILE)
        (st : state V) (w : world V) :
  files st !! F = Some f ->
  F ∉ LookupListHead st ->
  NtfsLookup_from st (LookupListHead st) (Some F) (Path f) 0 false =
  Some None ->
  AllocatePool (env st) = (true, w) ->
  exists st1 st2,
    NtfsLookupAdd F st = Some (tt, st1) /\
    LookupListHead st1 = LookupListHead st ++ [F] /\
    NtfsLookupPath F false st1 = Some (Some F, st1) /\
    NtfsLookupRem F st1 = Some (tt, st2) /\
    LookupListHead st2 = LookupListHead st /\
    NtfsLookupPath F false st2 = Some (None, st2).
Proof.
  intros Hf Hnew Hmiss Hpool.
  set (st1 := State w (files st) (LookupListHead st ++ [F])
                    (calls st ++ [c_AllocatePool true]) (errlog st)).
  set (st2 := State w (files st) (LookupListHead st)
                    (calls st ++ [c_AllocatePool true]) (errlog st)).
  exists st1, st2.
  assert (Hadd : NtfsLookupAdd F st = Some (tt, st1)).
  { unfold NtfsLookupAdd, bind, lib_call. rewrite Hpool. reflexivity. }
  split; [exact Hadd |]. split; [reflexivity |].
  split.
  { apply NtfsLookupPath_Some. exists f. split; [exact Hf |].
    split; [| reflexivity]. simpl.
    rewrite NtfsLookup_from_app.
    rewrite (NtfsLookup_from_path_files st1 st) by reflexivity.
    rewrite Hmiss. simpl. rewrite Hf.
    destruct ((char_at (Path f) 0 =? 0) && IsRoot f); [reflexivity |].
    replace (StrCmp (Path f) (Path f) =? 0) with true; [reflexivity |].
    symmetry. apply Z.eqb_eq. now apply StrCmp_0_iff. }
  split.
  { apply NtfsLookupRem_Some. unfold st1, st2. simpl.
    now rewrite remove_first_app_new. }
  split; [reflexivity |].
  apply NtfsLookupPath_Some. exists f. split; [exact Hf |].
  split; [| reflexivity]. simpl.
  now rewrite (NtfsLookup_from_path_files st2 st) by reflexivity.
Qed.

(** X4. A lookup by inode number reads NtfsInode->mft_no of every
    entry it scans. When it reaches, before any match, a listed
    instance whose NtfsInode is NULL, it dereferences a null pointer. *)
Theorem NtfsLookupInum_null_inode (File e : addr) (f ef : EFI_NTFS_FILE)
        (Inum : Z) (pre post : list addr) (st : state V) :
  Inum <> 0 ->
  files st !! File = Some f ->
  LookupListHead st = pre ++ e :: post ->
  (forall x, x ∈ pre ->
     exists xf p ni, files st !! x = Some xf /\ NtfsInode xf = Some p /\
                     inodes (env st) !! p = Some ni /\
                     mft_no ni <> GetInodeNumber Inum) ->
  files st !! e = Some ef ->
  NtfsInode ef = None ->
  NtfsLookupInum File Inum st = None.
Proof.
  intros HInum Hf Hlist Hpre He Hnull.
  unfold NtfsLookupInum.
  rewrite (bind_run _ _ st st f) by (now apply File_get_Some).
  unfold NtfsLookup. rewrite Hlist, NtfsLookup_from_app.
  assert (Hscan : NtfsLookup_from st pre (Some File) (Path f) Inum false =
                  Some None).
  { clear Hlist. induction pre as [|x pre IH]; [reflexivity |].
    simpl. destruct (Hpre x (list_elem_of_here _ _))
      as (xf & p & ni & Hx & Hp & Hni & Hno).
    rewrite Hx, Hp, Hni.
    rewrite (proj2 (Z.eqb_neq Inum 0)) by assumption.
    rewrite (proj2 (Z.eqb_neq _ _)) by assumption.
    apply IH. intros y Hy. apply Hpre. now apply list_elem_of_further. }
  rewrite Hscan. simpl. rewrite He, Hnull.
  now rewrite (proj2 (Z.eqb_neq Inum 0)) by assumption.
Qed.
End LookupList.

Lemma NtfsLookupAdd_Lookup_Rem_witness :
  exists st1 st2,
    NtfsLookupAdd 1%N st_open_twice = Some (tt, st1) /\
    LookupListHead st1 = [1%N] /\
    NtfsLookupPath 1%N false st1 = Some (Some 1%N, st1) /\
    NtfsLookupRem 1%N st1 = Some (tt, st2) /\
    LookupListHead st2 = [] /\
    NtfsLookupPath 1%N false st2 = Some (None, st2).
Proof.
  apply (NtfsLookupAdd_Lookup_Rem 1%N (new_file "/a" 0) st_open_twice
           (env st_open_twice)).
  - reflexivity.
  - apply not_elem_of_nil.
  - reflexivity.
  - reflexivity.
Defined.

Lemma NtfsLookupInum_null_inode_witness :
  exists st,
    (let* _ := @NtfsOpenFile errno_glibc _ _ 1%N in
     @NtfsSetFileInfo errno_glibc _ _ 1%N info_rename false)
      st_rename_fails = Some (EFI_NOT_FOUND, st) /\
    NtfsLookupInum 1%N 64 st = None.
Proof.
  eexists. split; [vm_compute; reflexivity |].
  eapply (NtfsLookupInum_null_inode 1%N 1%N _ _ 64 [] []).
  - discriminate.
  - reflexivity.
  - reflexivity.
  - intros x Hx. now apply elem_of_nil in Hx.
  - reflexivity.
  - reflexivity.
Defined.

(** ** Opening an inode from a path *)

Section OpenInodeFromPath.
Context {E : errno_h} {V : Type} {lib : libntfs V}.




Lemma char_at_sep_lt (l : list CHAR16) (j : nat) :
  char_at l j = PATH_CHAR -> (j < length l)%nat.
Proof.
  unfold char_at. intros Hc.
  destruct (decide (j < length l)%nat) as [|Hge]; [assumption |].
  rewrite nth_overflow in Hc by lia. discriminate.
Qed.



End OpenInodeFromPath.


(** ** Log levels *)

Section LoggerProps.
Context {G : log_h}.

Lemma levels_step (a b x : Z) (c1 c2 : bool) :
  Z.land a b = a -> (c1 = true -> c2 = true) ->
  Z.land (if c1 then Z.lor a x else a) (if c2 then Z.lor b x else b) =
  (if c1 then Z.lor a x else a).
Proof.
  intros Hab Hc. apply Z.bits_inj'. intros n Hn.
  apply (f_equal (fun z => Z.testbit z n)) in Hab.
  rewrite Z.land_spec in Hab.
  destruct c1, c2; try (specialize (Hc eq_refl); discriminate);
    rewrite ?Z.land_spec, ?Z.lor_spec;
    destruct (Z.testbit a n), (Z.testbit b n), (Z.testbit x n);
    simpl in *; congruence.
Qed.

Lemma geb_mono (L1 L2 c : Z) :
  L1 <= L2 -> (L1 >=? c) = true -> (L2 >=? c) = true.
Proof. intros Hle H. apply Z.geb_le in H. apply Z.geb_le. lia. Qed.

(** X6. The library log levels that NtfsSetLogger enables grow with
    the log level of the driver: every level enabled for a driver level
    is enabled for each higher one, and the critical level is enabled
    for all. *)
Theorem NtfsSetLogger_levels_monotone (L1 L2 : Z) :
  L1 <= L2 ->
  Z.land (NtfsSetLogger_levels L1) (NtfsSetLogger_levels L2) =
  NtfsSetLogger_levels L1 /\
  Z.land NTFS_LOG_LEVEL_CRITICAL (NtfsSetLogger_levels L1) =
  NTFS_LOG_LEVEL_CRITICAL.
Proof.
  intros Hle. unfold NtfsSetLogger_levels. split.
  - repeat (apply levels_step; [| now apply geb_mono]).
    apply Z.land_diag.
  - assert (Hstep : forall a x (c : bool),
               Z.land NTFS_LOG_LEVEL_CRITICAL a = NTFS_LOG_LEVEL_CRITICAL ->
               Z.land NTFS_LOG_LEVEL_CRITICAL (if c then Z.lor a x else a) =
               NTFS_LOG_LEVEL_CRITICAL).
    { intros a x c Ha. destruct c; [| exact Ha].
      apply Z.bits_inj'. intros n Hn.
      apply (f_equal (fun z => Z.testbit z n)) in Ha.
      rewrite Z.land_spec in Ha. rewrite Z.land_spec, Z.lor_spec.
      destruct (Z.testbit NTFS_LOG_LEVEL_CRITICAL n), (Z.testbit a n);
        simpl in *; congruence. }
    repeat apply Hstep. apply Z.land_diag.
Qed.
End LoggerProps.

Lemma NtfsSetLogger_levels_monotone_witness :
  1 <= 3 /\
  Z.land (@NtfsSetLogger_levels log_levels 1) (@NtfsSetLogger_levels log_levels 3) =
  @NtfsSetLogger_levels log_levels 1.
Proof.
  split; [lia |].
  apply (@NtfsSetLogger_levels_monotone log_levels 1 3). lia.
Defined.

(** ** The file information *)

Section FileInfo.
Context {E : errno_h} {V : Type} {lib : libntfs V} {more : libntfs_more V}.

Lemma has_attr_pow2 (x i : Z) :
  0 <= i -> has_attr x (2 ^ i) = Z.testbit x i.
Proof.
  intros Hi. unfold has_attr.
  destruct (Z.testbit x i) eqn:Hb.
  - apply negb_true_iff, Z.eqb_neq. intros H0.
    apply (f_equal (fun z => Z.testbit z i)) in H0.
    rewrite Z.land_spec, Hb, Z.pow2_bits_true, Z.bits_0 in H0 by assumption.
    discriminate.
  - apply negb_false_iff, Z.eqb_eq. apply Z.bits_inj'. intros n Hn.
    rewrite Z.land_spec, Z.bits_0, Z.pow2_bits_eqb by assumption.
    destruct (Z.eqb_spec i n) as [-> |]; [now rewrite Hb |].
    apply andb_false_r.
Qed.

Lemma bit_of_flag (n : Z) :
  0 <= n ->
  Z.testbit 1 n = (0 =? n) /\ Z.testbit 2 n = (1 =? n) /\
  Z.testbit 4 n = (2 =? n) /\ Z.testbit 16 n = (4 =? n) /\
  Z.testbit 32 n = (5 =? n).
Proof.
  intros Hn.
  change 1 with (2 ^ 0); change 2 with (2 ^ 1) at 2;
    change 4 with (2 ^ 2) at 1; change 16 with (2 ^ 4) at 1;
    change 32 with (2 ^ 5).
  rewrite !Z.pow2_bits_eqb by lia. auto.
Qed.

Lemma has_attr_bits (A : Z) :
  has_attr A EFI_FILE_READ_ONLY = Z.testbit A 0 /\
  has_attr A EFI_FILE_HIDDEN = Z.testbit A 1 /\
  has_attr A EFI_FILE_SYSTEM = Z.testbit A 2 /\
  has_attr A EFI_FILE_ARCHIVE = Z.testbit A 5.
Proof.
  repeat split.
  - apply (has_attr_pow2 A 0). lia.
  - apply (has_attr_pow2 A 1). lia.
  - apply (has_attr_pow2 A 2). lia.
  - apply (has_attr_pow2 A 5). lia.
Qed.

(** The four attribute flags of the inode are those of the file
    information; the other flags are kept. *)
Lemma info_fields_flags (Info : EFI_FILE_INFO) (n : ntfs_inode) :
  flags (info_fields Info n) =
  Z.lor (Z.land (flags n)
           (Z.lnot (Z.lor (Z.lor FILE_ATTR_READONLY FILE_ATTR_HIDDEN)
                          (Z.lor FILE_ATTR_SYSTEM FILE_ATTR_ARCHIVE))))
        (Z.land (Attribute Info)
           (Z.lor (Z.lor EFI_FILE_READ_ONLY EFI_FILE_HIDDEN)
                  (Z.lor EFI_FILE_SYSTEM EFI_FILE_ARCHIVE))).
Proof.
  destruct (has_attr_bits (Attribute Info)) as (H0 & H1 & H2 & H5).
  unfold info_fields. rewrite H0, H1, H2, H5.
  assert (Hfl : flags
                  (if time_is_set (ModificationTime Info)
                   then set_last_data_change_time
                          (EfiTimeToNtfsTime (ModificationTime Info))
                          (if time_is_set (LastAccessTime Info)
                           then set_last_access_time
                                  (EfiTimeToNtfsTime (LastAccessTime Info))
                                  (if time_is_set (CreateTime Info)
                                   then set_creation_time
                                          (EfiTimeToNtfsTime (CreateTime Info))
                                          n
                                   else n)
                           else if time_is_set (CreateTime Info)
                                then set_creation_time
                                       (EfiTimeToNtfsTime (CreateTime Info)) n
                                else n)
                   else if time_is_set (LastAccessTime Info)
                        then set_last_access_time
                               (EfiTimeToNtfsTime (LastAccessTime Info))
                               (if time_is_set (CreateTime Info)
                                then set_creation_time
                                       (EfiTimeToNtfsTime (CreateTime Info)) n
                                else n)
                        else if time_is_set (CreateTime Info)
                             then set_creation_time
                                    (EfiTimeToNtfsTime (CreateTime Info)) n
                             else n) = flags n).
  { now destruct (time_is_set (CreateTime Info)),
      (time_is_set (LastAccessTime Info)),
      (time_is_set (ModificationTime Info)). }
  cbv zeta.
  unfold FILE_ATTR_READONLY, FILE_ATTR_HIDDEN, FILE_ATTR_SYSTEM,
    FILE_ATTR_ARCHIVE, EFI_FILE_READ_ONLY, EFI_FILE_HIDDEN, EFI_FILE_SYSTEM,
    EFI_FILE_ARCHIVE.
  apply Z.bits_inj'. intros k Hk.
  destruct (bit_of_flag k Hk) as (B1 & B2 & B4 & _ & B32).
  destruct (Z.testbit (Attribute Info) 0) eqn:A0,
           (Z.testbit (Attribute Info) 1) eqn:A1,
           (Z.testbit (Attribute Info) 2) eqn:A2,
           (Z.testbit (Attribute Info) 5) eqn:A5;
    cbn [flags set_flags];
    rewrite ?Z.lor_spec, ?Z.land_spec, ?Z.lnot_spec, ?Z.lor_spec by lia;
    rewrite ?Hfl, ?B1, ?B2, ?B4, ?B32;
    destruct (Z.eqb_spec 0 k) as [K0 | K0];
    destruct (Z.eqb_spec 1 k) as [K1 | K1];
    destruct (Z.eqb_spec 2 k) as [K2 | K2];
    destruct (Z.eqb_spec 5 k) as [K5 | K5]; try lia;
    try subst k; rewrite ?A0, ?A1, ?A2, ?A5;
    repeat match goal with
           | |- context [Z.testbit ?a ?b] => destruct (Z.testbit a b)
           end; reflexivity.
Qed.

(** The attribute NtfsGetFileInfo computes from the flags of an inode. *)
Lemma attribute_of_flags (fl : Z) (d ro : bool) :
  (let a := 0 in
   let a := if d then Z.lor a EFI_FILE_DIRECTORY else a in
   let a := if has_attr fl FILE_ATTR_READONLY || ro
            then Z.lor a EFI_FILE_READ_ONLY else a in
   let a := if has_attr fl FILE_ATTR_HIDDEN
            then Z.lor a EFI_FILE_HIDDEN else a in
   let a := if has_attr fl FILE_ATTR_SYSTEM
            then Z.lor a EFI_FILE_SYSTEM else a in
   if has_attr fl FILE_ATTR_ARCHIVE then Z.lor a EFI_FILE_ARCHIVE else a) =
  Z.lor (Z.lor (if d then EFI_FILE_DIRECTORY else 0)
               (if ro then EFI_FILE_READ_ONLY else 0))
        (Z.land fl (Z.lor (Z.lor EFI_FILE_READ_ONLY EFI_FILE_HIDDEN)
                          (Z.lor EFI_FILE_SYSTEM EFI_FILE_ARCHIVE))).
Proof.
  destruct (has_attr_bits fl) as (H0 & H1 & H2 & H5).
  change FILE_ATTR_READONLY with EFI_FILE_READ_ONLY.
  change FILE_ATTR_HIDDEN with EFI_FILE_HIDDEN.
  change FILE_ATTR_SYSTEM with EFI_FILE_SYSTEM.
  change FILE_ATTR_ARCHIVE with EFI_FILE_ARCHIVE.
  cbv zeta. rewrite H0, H1, H2, H5.
  unfold EFI_FILE_READ_ONLY, EFI_FILE_HIDDEN, EFI_FILE_SYSTEM,
    EFI_FILE_ARCHIVE, EFI_FILE_DIRECTORY.
  apply Z.bits_inj'. intros k Hk.
  destruct (bit_of_flag k Hk) as (B1 & B2 & B4 & B16 & B32).
  destruct d, ro,
    (Z.testbit fl 0) eqn:A0, (Z.testbit fl 1) eqn:A1,
    (Z.testbit fl 2) eqn:A2, (Z.testbit fl 5) eqn:A5;
    cbn [orb];
    rewrite ?Z.lor_spec, ?Z.land_spec, ?Z.lor_spec, ?Z.bits_0;
    rewrite ?B1, ?B2, ?B4, ?B16, ?B32;
    destruct (Z.eqb_spec 0 k) as [K0 | K0];
    destruct (Z.eqb_spec 1 k) as [K1 | K1];
    destruct (Z.eqb_spec 2 k) as [K2 | K2];
    destruct (Z.eqb_spec 4 k) as [K4 | K4];
    destruct (Z.eqb_spec 5 k) as [K5 | K5]; try lia;
    try subst k; rewrite ?A0, ?A1, ?A2, ?A5;
    repeat match goal with
           | |- context [Z.testbit ?a ?b] => destruct (Z.testbit a b)
           end; reflexivity.
Qed.

Lemma land_info_fields_flags (Info : EFI_FILE_INFO) (n : ntfs_inode) :
  Z.land (flags (info_fields Info n))
         (Z.lor (Z.lor EFI_FILE_READ_ONLY EFI_FILE_HIDDEN)
                (Z.lor EFI_FILE_SYSTEM EFI_FILE_ARCHIVE)) =
  Z.land (Attribute Info)
         (Z.lor (Z.lor EFI_FILE_READ_ONLY EFI_FILE_HIDDEN)
                (Z.lor EFI_FILE_SYSTEM EFI_FILE_ARCHIVE)).
Proof.
  rewrite info_fields_flags.
  change FILE_ATTR_READONLY with EFI_FILE_READ_ONLY.
  change FILE_ATTR_HIDDEN with EFI_FILE_HIDDEN.
  change FILE_ATTR_SYSTEM with EFI_FILE_SYSTEM.
  change FILE_ATTR_ARCHIVE with EFI_FILE_ARCHIVE.
  set (m := Z.lor (Z.lor EFI_FILE_READ_ONLY EFI_FILE_HIDDEN)
                  (Z.lor EFI_FILE_SYSTEM EFI_FILE_ARCHIVE)).
  apply Z.bits_inj'. intros k Hk.
  repeat first [rewrite Z.land_spec | rewrite Z.lor_spec
               | rewrite Z.lnot_spec by assumption].
  destruct (Z.testbit (flags n) k), (Z.testbit (Attribute Info) k),
    (Z.testbit m k); reflexivity.
Qed.

(** X7. Round trip of the attributes. After an NtfsSetFileInfo that
    neither moves nor resizes, NtfsGetFileInfo of the same file (on a
    volume that is not read-only) reports the read-only, hidden, system
    and archive attributes that were set, and the directory attribute
    as its caller asks; it reports the size of the inode and leaves the
    file name of the information alone. *)
Theorem NtfsGetFileInfo_after_Set (st : state V) (File p : addr)
        (f : EFI_NTFS_FILE) (ni : ntfs_inode) (Info Info0 : EFI_FILE_INFO)
        (ReadOnly IsDir : bool) (Phys : Z) :
  files st !! File = Some f ->
  NtfsInode f = Some p ->
  inodes (env st) !! p = Some ni ->
  IS_PATH_DELIMITER (char_at (FileName Info) 0) = false ->
  (IS_DIR ni =? 0) && negb (FileSize Info =? data_size ni) = false ->
  has_attr (Attribute Info) EFI_FILE_DIRECTORY = negb (IS_DIR ni =? 0) ->
  ReadOnly &&
    (time_is_set (CreateTime Info) || time_is_set (LastAccessTime Info) ||
     time_is_set (ModificationTime Info)) = false ->
  NVolReadOnly (env (with_inode p (info_fields Info ni) st)) = false ->
  exists (st1 : state V) (Info' : EFI_FILE_INFO) (Phys' : Z),
    NtfsSetFileInfo File Info ReadOnly st = Some (EFI_SUCCESS, st1) /\
    NtfsGetFileInfo File Info0 Phys 0 IsDir st1 =
    Some ((EFI_SUCCESS, (Info', Phys')), st1) /\
    Attribute Info' =
    Z.lor (if IsDir then EFI_FILE_DIRECTORY else 0)
          (Z.land (Attribute Info)
                  (Z.lor (Z.lor EFI_FILE_READ_ONLY EFI_FILE_HIDDEN)
                         (Z.lor EFI_FILE_SYSTEM EFI_FILE_ARCHIVE))) /\
    FileSize Info' = u64 (data_size ni) /\
    FileName Info' = FileName Info0.
Proof.
  intros Hf Hp Hni Hname Hsize Htype Hro Hvol.
  set (st1 := with_inode p (info_fields Info ni) st) in *.
  assert (Hset : NtfsSetFileInfo File Info ReadOnly st =
                 Some (EFI_SUCCESS, st1)).
  { assert (Hmid : NtfsSetFileInfo_move_resize File Info ReadOnly st =
                   Some (None, st)).
    { unfold NtfsSetFileInfo_move_resize, bind, File_get, ni_get, ret.
      rewrite Hf. cbn. rewrite Hname. cbn. rewrite Hf. cbn. rewrite Hp.
      cbn. rewrite Hni. cbn.
      rewrite (no_resize Info ni Hsize). reflexivity. }
    unfold NtfsSetFileInfo.
    rewrite (bind_run _ _ st st f) by (now apply File_get_Some).
    rewrite (bind_run _ _ st st ni) by (apply ni_get_Some; eauto).
    rewrite Htype, Hro.
    replace ((IS_DIR ni =? 0) && negb (IS_DIR ni =? 0)
             || negb (IS_DIR ni =? 0) && negb (negb (IS_DIR ni =? 0)))
      with false by (now destruct (IS_DIR ni =? 0)).
    rewrite (bind_run _ _ _ _ _ Hmid).
    rewrite (bind_run _ _ st st f) by (now apply File_get_Some).
    rewrite Hp.
    rewrite (bind_run _ _ _ _ _ (NtfsSetFileInfo_fields_run p ni Info st Hni)).
    reflexivity. }
  assert (Hf1 : files st1 !! File = Some f) by exact Hf.
  assert (Hni1 : inodes (env st1) !! p = Some (info_fields Info ni))
    by apply with_inode_lookup.
  assert (Hdata : data_size (info_fields Info ni) = data_size ni).
  { unfold info_fields.
    now destruct (time_is_set (CreateTime Info)),
      (time_is_set (LastAccessTime Info)),
      (time_is_set (ModificationTime Info)),
      (has_attr (Attribute Info) EFI_FILE_READ_ONLY),
      (has_attr (Attribute Info) EFI_FILE_HIDDEN),
      (has_attr (Attribute Info) EFI_FILE_SYSTEM),
      (has_attr (Attribute Info) EFI_FILE_ARCHIVE). }
  eexists st1, _, _. split; [exact Hset |].
  split.
  { unfold NtfsGetFileInfo.
    rewrite (bind_run _ _ st1 st1 f) by (now apply File_get_Some).
    rewrite Hp. change (negb (0 =? 0)) with false. cbv iota.
    rewrite (bind_run _ _ st1 st1 (Some p, false)).
    2:{ rewrite (bind_run _ _ st1 st1 (info_fields Info ni))
          by (apply ni_get_Some; eauto).
        reflexivity. }
    cbv beta iota.
    rewrite (bind_run _ _ st1 st1 (info_fields Info ni))
      by (apply ni_get_Some; eauto).
    rewrite (bind_run _ _ st1 st1 false) by (unfold NtfsIsVolumeReadOnly;
                                             now rewrite Hvol).
    rewrite (bind_run _ _ st1 st1 tt) by reflexivity.
    reflexivity. }
  split.
  { cbn [Attribute set_Attribute].
    rewrite (attribute_of_flags (flags (info_fields Info ni)) IsDir false).
    rewrite land_info_fields_flags. now rewrite Z.lor_0_r. }
  split; [cbn; now rewrite Hdata | reflexivity].
Qed.


(** X9. The three ways of reading an open inode agree: for a file
    with an open inode, NtfsGetFileInfo (for the file itself) reports
    the size that NtfsGetFileSize returns and the times that
    NtfsGetEfiTime returns, and none of them changes anything. *)
Theorem NtfsGetFileInfo_agrees (st : state V) (File p : addr)
        (f : EFI_NTFS_FILE) (ni : ntfs_inode) (Info : EFI_FILE_INFO)
        (Phys : Z) (IsDir : bool) :
  files st !! File = Some f ->
  NtfsInode f = Some p ->
  inodes (env st) !! p = Some ni ->
  exists Info',
    NtfsGetFileInfo File Info Phys 0 IsDir st =
    Some ((EFI_SUCCESS, (Info', u64 (allocated_size ni))), st) /\
    NtfsGetFileSize File st = Some (FileSize Info', st) /\
    NtfsGetEfiTime File TIME_CREATED st = Some (CreateTime Info', st) /\
    NtfsGetEfiTime File TIME_ACCESSED st = Some (LastAccessTime Info', st) /\
    NtfsGetEfiTime File TIME_MODIFIED st =
    Some (ModificationTime Info', st) /\
    FileName Info' = FileName Info.
Proof.
  intros Hf Hp Hni. eexists. split.
  { unfold NtfsGetFileInfo.
    rewrite (bind_run _ _ st st f) by (now apply File_get_Some).
    rewrite Hp. change (negb (0 =? 0)) with false. cbv iota.
    rewrite (bind_run _ _ st st (Some p, false)).
    2:{ rewrite (bind_run _ _ st st ni) by (apply ni_get_Some; eauto).
        reflexivity. }
    cbv beta iota.
    rewrite (bind_run _ _ st st ni) by (apply ni_get_Some; eauto).
    rewrite (bind_run _ _ st st (NVolReadOnly (env st))) by reflexivity.
    rewrite (bind_run _ _ st st tt) by reflexivity.
    reflexivity. }
  unfold NtfsGetFileSize, NtfsGetEfiTime.
  rewrite !(bind_run _ _ st st f) by (now apply File_get_Some).
  rewrite Hp.
  repeat split;
    rewrite ?(bind_run _ _ st st ni) by (apply ni_get_Some; eauto);
    try reflexivity;
    erewrite (bind_run _ _ st st);
    try reflexivity;
    rewrite (bind_run _ _ st st ni) by (apply ni_get_Some; eauto);
    reflexivity.
Qed.
End FileInfo.

Lemma NtfsGetFileInfo_after_Set_witness :
  exists st1 Info',
    @NtfsSetFileInfo errno_glibc _ _ 1%N info_attrs false st_info =
    Some (EFI_SUCCESS, st1) /\
    NtfsGetFileInfo 1%N info_none 0 0 false st1 =
    Some ((EFI_SUCCESS, (Info', 10)), st1) /\
    Attribute Info' = 33.
Proof.
  destruct (@NtfsGetFileInfo_after_Set errno_glibc script scripted scripted_more st_info 1%N 100%N
              (set_NtfsInode (Some 100%N) (new_file "/a" 0))
              (file_inode 64 10) info_attrs info_none false false 0
              eq_refl eq_refl eq_refl eq_refl eq_refl eq_refl eq_refl
              eq_refl)
    as (st1 & Info' & Phys' & Hset & Hget & Hattr & _).
  exists st1, Info'. split; [exact Hset |].
  assert (Hst1 : Some (EFI_SUCCESS, st1) =
                 Some (EFI_SUCCESS,
                       with_inode 100%N (info_fields info_attrs
                                           (file_inode 64 10)) st_info)).
  { rewrite <- Hset. vm_compute. reflexivity. }
  injection Hst1 as ->.
  split; [| exact Hattr].
  rewrite Hget. vm_compute in Hget. injection Hget as _ <-. reflexivity.
Defined.


Lemma NtfsGetFileInfo_agrees_witness :
  exists Info',
    NtfsGetFileInfo 1%N info_none 0 0 false st_info =
    Some ((EFI_SUCCESS, (Info', 10)), st_info) /\
    NtfsGetFileSize 1%N st_info = Some (FileSize Info', st_info) /\
    FileSize Info' = 10.
Proof.
  destruct (NtfsGetFileInfo_agrees st_info 1%N 100%N
              (set_NtfsInode (Some 100%N) (new_file "/a" 0))
              (file_inode 64 10) info_none 0 false
              eq_refl eq_refl eq_refl)
    as (Info' & Hget & Hsize & _).
  exists Info'. split; [exact Hget |]. split; [exact Hsize |].
  vm_compute in Hget. injection Hget as <-. reflexivity.
Defined.

(** ** Writing *)

Section Write.
Context {E : errno_h} {V : Type} {lib : libntfs V} {more : libntfs_more V}.

Lemma lib_run_Some {R} (f : world V -> R * world V) (st st' : state V)
      (r : R) :
  lib_run f st = Some (r, st') <->
  exists w, f (env st) = (r, w) /\
            st' = State w (files st) (LookupListHead st) (calls st)
                        (errlog st).
Proof.
  unfold lib_run. destruct (f (env st)) as [r0 w0]. split.
  - intros H. inversion H; subst. eauto.
  - intros (w & Hw & ->). now inversion Hw.
Qed.

(** The loop of NtfsWriteFile returns, with [Z.to_nat size] passes at
    the most, when the library never writes more than it is asked to:
    it writes all of [size] in partial writes that each return
    something, or stops at the first write that returns nothing or an
    error. *)
Lemma write_loop_spec (File : addr) (na : ntfs_attr) (fuel : nat) :
  (forall a pos count w, (ntfs_attr_pwrite a pos count w).1 <= count) ->
  forall (size Len : Z) (st : state V) (f : EFI_NTFS_FILE),
    files st !! File = Some f ->
    0 <= size -> (Z.to_nat size <= fuel)%nat ->
    0 <= Len -> Len + size < 2 ^ 64 ->
    0 <= Offset f -> Offset f + size < 2 ^ 63 ->
    exists (early : option EFI_STATUS) (Len' : Z) (st' : state V)
           (rs : list Z),
      write_loop fuel File na size Len st = Some ((early, Len'), st') /\
      files st' =
        <[File := set_Offset (Offset f + (Len' - Len)) f]> (files st) /\
      LookupListHead st' = LookupListHead st /\
      match early with
      | None =>
          Len' = Len + size /\ total rs = size /\
          Forall (fun r => 0 < r) rs /\
          calls st' = calls st ++ pwrite_calls na (Offset f) size Len rs
      | Some Status =>
          exists (good : list Z) (r : Z),
            rs = good ++ [r] /\ Forall (fun r => 0 < r) good /\
            Len' = Len + total good /\ total good < size /\ r <= 0 /\
            calls st' = calls st ++ pwrite_calls na (Offset f) size Len rs ++
                                    [c_attr_close na] /\
            Status = ErrnoToEfiStatus (errno (env st')) /\
            (0 <= r -> errno (env st') = EIO)
      end.
Proof.
  intros Hlib.
  induction fuel as [|fuel IH]; intros size Len st f Hf Hsize Hfuel HLen HLen'
                                       Hoff Hoff'.
  - assert (size = 0) as -> by lia. simpl.
    exists None, Len, st, []. rewrite Z.sub_diag, Z.add_0_r, set_Offset_id.
    rewrite insert_id by assumption. simpl. rewrite app_nil_r.
    repeat split; first [reflexivity | lia | constructor].
  - simpl. destruct (Z.gtb_spec size 0) as [Hpos | Hzero].
    2:{ assert (size = 0) as -> by lia.
        exists None, Len, st, []. rewrite Z.sub_diag, Z.add_0_r, set_Offset_id.
        rewrite insert_id by assumption. simpl. rewrite app_nil_r.
        repeat split; first [reflexivity | lia | constructor]. }
    rewrite (bind_run _ _ st st f) by (now apply File_get_Some).
    pose proof (Hlib na (Offset f) size (env st)) as Hr.
    destruct (ntfs_attr_pwrite na (Offset f) size (env st)) as [r w] eqn:Hw.
    simpl in Hr.
    rewrite (bind_run _ _ st
               (called w (c_attr_pwrite na (Offset f) size Len r) st) r)
      by (apply lib_call_Some; exists w; split; [exact Hw | reflexivity]).
    set (st1 := called w (c_attr_pwrite na (Offset f) size Len r) st).
    destruct (Z.leb_spec r 0) as [Hbad | Hgood].
    + (* the write failed *)
      destruct (ntfs_attr_close na (env st1)) as [u w'] eqn:Hclose.
      rewrite (bind_run _ _ st1 (called w' (c_attr_close na) st1) u)
        by (apply lib_call_Some; exists w'; split;
            [exact Hclose | reflexivity]).
      set (st2 := called w' (c_attr_close na) st1).
      assert (Herr : exists st3,
                 (if r >=? 0 then set_errno EIO else ret ()) st2 =
                 Some (tt, st3) /\
                 files st3 = files st2 /\
                 LookupListHead st3 = LookupListHead st2 /\
                 calls st3 = calls st2 /\
                 (0 <= r -> errno (env st3) = EIO)).
      { destruct (Z.geb_spec r 0).
        - eexists. split; [reflexivity |]. simpl. auto.
        - exists st2. split; [reflexivity |]. repeat split. lia. }
      destruct Herr as (st3 & Herr & Hf3 & Hl3 & Hc3 & He3).
      rewrite (bind_run _ _ _ _ _ Herr).
      unfold bind, PrintError, get_errno, ret. simpl.
      eexists _, _, _, [r]. split; [reflexivity |]. simpl.
      rewrite Hf3, Hl3, Hc3. simpl.
      rewrite Z.sub_diag, Z.add_0_r, set_Offset_id.
      rewrite insert_id by assumption. rewrite <- app_assoc. simpl.
      split; [reflexivity |]. split; [reflexivity |].
      exists [], r. simpl.
      split; [reflexivity |]. split; [constructor |].
      split; [lia |]. split; [lia |]. split; [lia |].
      split; [reflexivity |]. split; [reflexivity | exact He3].
    + (* a partial write *)
      rewrite (s64_small (Offset f + r)) by lia.
      rewrite (s64_small (size - r)) by lia.
      rewrite (u64_small (Len + r)) by lia.
      rewrite (bind_run _ _ st1
                 (with_file File (set_Offset (Offset f + r) f) st1) tt)
        by (apply File_set_Some; eauto).
      set (st2 := with_file File (set_Offset (Offset f + r) f) st1).
      destruct (IH (size - r) (Len + r) st2 (set_Offset (Offset f + r) f)
                   (with_file_lookup _ _ _)
                   ltac:(lia) ltac:(lia) ltac:(lia) ltac:(lia)
                   ltac:(simpl; lia) ltac:(simpl; lia))
        as (early & Len' & st' & rs & Hrun & Hfiles & Hlist & Hearly).
      exists early, Len', st', (r :: rs).
      split; [exact Hrun |].
      split.
      { rewrite Hfiles. subst st2 st1. unfold with_file, called.
        simpl. rewrite insert_insert_eq. unfold set_Offset. simpl.
        replace (Offset f + r + (Len' - (Len + r)))
          with (Offset f + (Len' - Len)) by lia.
        reflexivity. }
      split; [rewrite Hlist; reflexivity |].
      destruct early as [Status|].
      * destruct Hearly as (good & r' & -> & Hall & HL & Hlt & Hr' & Hcalls &
                            HS & He).
        exists (r :: good), r'. unfold total in *. simpl in *.
        split; [reflexivity |].
        split; [constructor; [lia | exact Hall] |].
        split; [lia |]. split; [lia |]. split; [lia |].
        split; [rewrite Hcalls; now rewrite <- app_assoc |].
        split; [exact HS | exact He].
      * destruct Hearly as (HL & Htot & Hall & Hcalls).
        unfold total in *. simpl in *.
        split; [lia |]. split; [lia |].
        split; [constructor; [lia | exact Hall] |].
        rewrite Hcalls. now rewrite <- app_assoc.
Qed.

(** X10. With a library that never writes more than it is asked to,
    NtfsWriteFile of Len bytes (below 2^63) to a file that is not
    read-only asks the library in a loop, each ntfs_attr_pwrite
    starting where the one before ended and asking for all that
    remains. It returns EFI_SUCCESS when the partial writes, each of
    which returned something, add up to Len: Len bytes are reported,
    the cursor has advanced by Len, the attribute is closed and the
    times are updated. It stops at the first partial write that returns
    zero or a negative value, with the bytes of the writes before it
    reported and the cursor advanced by them, the attribute closed, and
    the translation of errno as status, errno being EIO when the
    library returned zero. *)
Theorem NtfsWriteFile_writes (st : state V) (File p : addr)
        (f : EFI_NTFS_FILE) (ni : ntfs_inode) (Len : Z) (na : ntfs_attr)
        (w : world V) :
  (forall a pos count w, (ntfs_attr_pwrite a pos count w).1 <= count) ->
  files st !! File = Some f ->
  NtfsInode f = Some p ->
  inodes (env st) !! p = Some ni ->
  has_attr (flags ni) FILE_ATTR_READONLY = false ->
  ntfs_attr_open (Some p) (env st) = (Some na, w) ->
  0 <= Len < 2 ^ 63 ->
  0 <= Offset f ->
  Offset f + Len < 2 ^ 63 ->
  exists (Status : EFI_STATUS) (got : Z) (st' : state V) (rs : list Z),
    NtfsWriteFile File Len st = Some ((Status, got), st') /\
    files st' = <[File := set_Offset (Offset f + got) f]> (files st) /\
    LookupListHead st' = LookupListHead st /\
    ((Status = EFI_SUCCESS /\ got = Len /\ total rs = Len /\
      Forall (fun r => 0 < r) rs /\
      calls st' =
        calls st ++
        c_attr_open (Some p) (Some na) ::
        pwrite_calls na (Offset f) Len 0 rs ++
        [c_attr_close na; c_update_times (Some p) NTFS_UPDATE_MCTIME]) \/
     (exists (good : list Z) (r : Z),
        rs = good ++ [r] /\ Forall (fun r => 0 < r) good /\
        got = total good /\ got < Len /\ r <= 0 /\
        Status = ErrnoToEfiStatus (errno (env st')) /\
        (0 <= r -> errno (env st') = EIO) /\
        calls st' =
          calls st ++
          c_attr_open (Some p) (Some na) ::
          pwrite_calls na (Offset f) Len 0 rs ++ [c_attr_close na])).
Proof.
  intros Hlib Hf Hp Hni Hrw Hopen HLen Hoff Hoff'.
  unfold NtfsWriteFile.
  rewrite (bind_run _ _ st st f) by (now apply File_get_Some).
  rewrite (bind_run _ _ st st ni) by (apply ni_get_Some; eauto).
  rewrite Hrw, Hp.
  rewrite (s64_small Len) by lia.
  rewrite (bind_run _ _ st
             (called w (c_attr_open (Some p) (Some na)) st) (Some na))
    by (apply lib_call_Some; exists w; split; [exact Hopen | reflexivity]).
  set (st1 := called w (c_attr_open (Some p) (Some na)) st).
  destruct (write_loop_spec File na (Z.to_nat Len) Hlib Len 0 st1 f Hf
              ltac:(lia) ltac:(lia) ltac:(lia) ltac:(lia) Hoff ltac:(lia))
    as (early & Len' & st2 & rs & Hrun & Hfiles & Hlist & Hearly).
  rewrite (bind_run _ _ _ _ _ Hrun).
  rewrite Z.sub_0_r in Hfiles.
  destruct early as [Status|].
  - destruct Hearly as (good & r & Hrs & Hall & HL & Hlt & Hr & Hcalls &
                        HS & He).
    rewrite Z.add_0_l in HL. subst Len'.
    exists Status, (total good), st2, rs.
    split; [reflexivity |].
    split; [exact Hfiles |].
    split; [exact Hlist |].
    right. exists good, r.
    split; [exact Hrs |]. split; [exact Hall |].
    split; [reflexivity |]. split; [exact Hlt |]. split; [exact Hr |].
    split; [exact HS |]. split; [exact He |].
    rewrite Hcalls. simpl. now rewrite <- app_assoc.
  - destruct Hearly as (HL & Htot & Hall & Hcalls).
    rewrite Z.add_0_l in HL. subst Len'.
    destruct (ntfs_attr_close na (env st2)) as [u w'] eqn:Hclose.
    rewrite (bind_run _ _ st2 (called w' (c_attr_close na) st2) u)
      by (apply lib_call_Some; exists w'; split;
          [exact Hclose | reflexivity]).
    set (st3 := called w' (c_attr_close na) st2).
    destruct (ntfs_inode_update_times (Some p) NTFS_UPDATE_MCTIME (env st3))
      as [u' w''] eqn:Htimes.
    rewrite (bind_run _ _ st3
               (called w'' (c_update_times (Some p) NTFS_UPDATE_MCTIME) st3)
               u')
      by (apply update_times_Some; exists w''; split;
          [exact Htimes | reflexivity]).
    exists EFI_SUCCESS, Len,
           (called w'' (c_update_times (Some p) NTFS_UPDATE_MCTIME) st3), rs.
    split; [reflexivity |]. simpl.
    split; [exact Hfiles |].
    split; [exact Hlist |].
    left. split; [reflexivity |]. split; [reflexivity |].
    split; [exact Htot |]. split; [exact Hall |].
    rewrite Hcalls. simpl. now rewrite <- !app_assoc.
Qed.

(** X11. A file whose inode has the read-only attribute cannot be
    written: once NtfsSetFileInfo has set EFI_FILE_READ_ONLY (without
    moving or resizing), every NtfsWriteFile returns
    EFI_WRITE_PROTECTED with no byte written and changes nothing. *)
Theorem NtfsWriteFile_after_read_only (st : state V) (File p : addr)
        (f : EFI_NTFS_FILE) (ni : ntfs_inode) (Info : EFI_FILE_INFO)
        (ReadOnly : bool) :
  files st !! File = Some f ->
  NtfsInode f = Some p ->
  inodes (env st) !! p = Some ni ->
  IS_PATH_DELIMITER (char_at (FileName Info) 0) = false ->
  (IS_DIR ni =? 0) && negb (FileSize Info =? data_size ni) = false ->
  has_attr (Attribute Info) EFI_FILE_DIRECTORY = negb (IS_DIR ni =? 0) ->
  ReadOnly &&
    (time_is_set (CreateTime Info) || time_is_set (LastAccessTime Info) ||
     time_is_set (ModificationTime Info)) = false ->
  has_attr (Attribute Info) EFI_FILE_READ_ONLY = true ->
  exists st1 : state V,
    NtfsSetFileInfo File Info ReadOnly st = Some (EFI_SUCCESS, st1) /\
    forall Len : Z,
      NtfsWriteFile File Len st1 = Some ((EFI_WRITE_PROTECTED, 0), st1).
Proof.
  intros Hf Hp Hni Hname Hsize Htype Hro Hattr.
  set (st1 := with_inode p (info_fields Info ni) st).
  exists st1. split.
  { assert (Hmid : NtfsSetFileInfo_move_resize File Info ReadOnly st =
                   Some (None, st)).
    { unfold NtfsSetFileInfo_move_resize, bind, File_get, ni_get, ret.
      rewrite Hf. cbn. rewrite Hname. cbn. rewrite Hf. cbn. rewrite Hp.
      cbn. rewrite Hni. cbn.
      rewrite (no_resize Info ni Hsize). reflexivity. }
    unfold NtfsSetFileInfo.
    rewrite (bind_run _ _ st st f) by (now apply File_get_Some).
    rewrite (bind_run _ _ st st ni) by (apply ni_get_Some; eauto).
    rewrite Htype, Hro.
    replace ((IS_DIR ni =? 0) && negb (IS_DIR ni =? 0)
             || negb (IS_DIR ni =? 0) && negb (negb (IS_DIR ni =? 0)))
      with false by (now destruct (IS_DIR ni =? 0)).
    rewrite (bind_run _ _ _ _ _ Hmid).
    rewrite (bind_run _ _ st st f) by (now apply File_get_Some).
    rewrite Hp.
    rewrite (bind_run _ _ _ _ _ (NtfsSetFileInfo_fields_run p ni Info st Hni)).
    reflexivity. }
  intros Len. unfold NtfsWriteFile.
  rewrite (bind_run _ _ st1 st1 f) by (now apply File_get_Some).
  rewrite (bind_run _ _ st1 st1 (info_fields Info ni))
    by (apply ni_get_Some; exists p; split; [exact Hp |];
        split; [apply with_inode_lookup | reflexivity]).
  replace (has_attr (flags (info_fields Info ni)) FILE_ATTR_READONLY)
    with true; [reflexivity |].
  symmetry. change FILE_ATTR_READONLY with EFI_FILE_READ_ONLY.
  destruct (has_attr_bits (flags (info_fields Info ni))) as (-> & _).
  destruct (has_attr_bits (Attribute Info)) as (H0 & _).
  rewrite Hattr in H0.
  pose proof (land_info_fields_flags Info ni) as Hland.
  apply (f_equal (fun z => Z.testbit z 0)) in Hland.
  rewrite !Z.land_spec, <- H0 in Hland.
  change (Z.testbit (Z.lor (Z.lor EFI_FILE_READ_ONLY EFI_FILE_HIDDEN)
                           (Z.lor EFI_FILE_SYSTEM EFI_FILE_ARCHIVE)) 0)
    with true in Hland.
  now rewrite !andb_true_r in Hland.
Qed.
End Write.

Lemma NtfsWriteFile_writes_witness :
  exists st' f',
    @NtfsWriteFile errno_glibc _ _ _ 1%N 10 st_write =
    Some ((EFI_SUCCESS, 10), st') /\
    files st' !! 1%N = Some f' /\ Offset f' = 10.
Proof.
  assert (Hlib : forall a pos count w,
             (@ntfs_attr_pwrite script scripted_more a pos count w).1 <=
             count).
  { intros a pos count w. simpl. destruct (scripted_int w). simpl. lia. }
  destruct (@NtfsWriteFile_writes errno_glibc script scripted scripted_more
              st_write 1%N 100%N
              (set_NtfsInode (Some 100%N) (new_file "/a" 0))
              (file_inode 64 0) 10 _ _ Hlib eq_refl eq_refl eq_refl eq_refl
              eq_refl ltac:(lia) ltac:(simpl; lia) ltac:(simpl; lia))
    as (Status & got & st' & rs & Hrun & Hfiles & _).
  vm_compute in Hrun. injection Hrun as <- <- <-.
  eexists _, _. split; [vm_compute; reflexivity |].
  split; [rewrite Hfiles; apply lookup_insert_eq | reflexivity].
Defined.

Lemma NtfsWriteFile_after_read_only_witness :
  exists st1,
    @NtfsSetFileInfo errno_glibc _ _ 1%N info_attrs false st_info =
    Some (EFI_SUCCESS, st1) /\
    @NtfsWriteFile errno_glibc _ _ _ 1%N 10 st1 =
    Some ((EFI_WRITE_PROTECTED, 0), st1).
Proof.
  destruct (@NtfsWriteFile_after_read_only errno_glibc script scripted
              scripted_more st_info 1%N 100%N
              (set_NtfsInode (Some 100%N) (new_file "/a" 0))
              (file_inode 64 10) info_attrs false
              eq_refl eq_refl eq_refl eq_refl eq_refl eq_refl eq_refl
              eq_refl)
    as (st1 & Hset & Hwrite).
  exists st1. split; [exact Hset | apply Hwrite].
Defined.

(** ** Mounting *)

Section Mount.
Context {E : errno_h} {V : Type} {lib : libntfs V} {more : libntfs_more V}.

(** X12. The first NtfsMountVolume of a file system (MountCount not
    above 0) counts the mount and ends in one of three ways. The device
    path does not convert: the status is the translation of errno and
    nothing else changes. The volume is refused: the status is an error,
    the lookup list has been emptied, the file system is off the list of
    file systems and keeps its volume, label and serial; without a
    recorded serial the status tells the kind of failure, with one it is
    EFI_NO_MEDIA for every failure of the library and EFI_MEDIA_CHANGED
    for a volume with another serial. Or the volume is mounted: the
    serial of the volume is recorded (it is the one that was recorded,
    if any), the file system is at the tail of the list of file systems
    and the lookup list is empty. *)
Theorem NtfsMountVolume_first (FsListHead FsListHead' : list addr)
        (FileSystem : addr) (fs fs' : EFI_FS) (Status : EFI_STATUS)
        (st st' : state V) :
  MountCount fs <= 0 ->
  FileSystem ∉ FsListHead ->
  NtfsMountVolume FsListHead FileSystem fs st =
  Some ((Status, fs', FsListHead'), st') ->
  files st' = files st /\
  ((Status = ErrnoToEfiStatus (errno (env st')) /\
    fs' = set_MountCount (MountCount fs + 1) fs /\
    FsListHead' = FsListHead /\
    LookupListHead st' = LookupListHead st) \/
   (EFI_ERROR Status = true /\
    fs' = set_MountCount (MountCount fs + 1) fs /\
    FsListHead' = FsListHead /\
    LookupListHead st' = [] /\
    if NtfsVolumeSerial fs =? 0
    then Status ∈ [EFI_VOLUME_CORRUPTED; EFI_ACCESS_DENIED;
                   EFI_OUT_OF_RESOURCES; EFI_NOT_FOUND]
    else Status ∈ [EFI_NO_MEDIA; EFI_MEDIA_CHANGED]) \/
   (Status = EFI_SUCCESS /\
    (exists v label,
       fs' = {| DevicePathString := DevicePathString fs;
                MountCount := MountCount fs + 1;
                NtfsVolume := Some (vol_handle v);
                NtfsVolumeLabel := label;
                NtfsVolumeSerial := vol_serial v |} /\
       (NtfsVolumeSerial fs = 0 \/ vol_serial v = NtfsVolumeSerial fs)) /\
    FsListHead' = FsListHead ++ [FileSystem] /\
    LookupListHead st' = [])).
Proof.
  intros Hcount Hnew H. unfold NtfsMountVolume in H.
  destruct (Z.gtb_spec (MountCount fs) 0) as [| _]; [lia |].
  mbind H as conv st1 Hconv. destruct conv as [sz device].
  apply to_utf8_frame in Hconv as (Hf1 & Hl1 & _).
  destruct (Z.ltb_spec sz 0) as [Hneg | Hpos].
  { mbind H as s s0 Hs. apply errno_status_Some in Hs as [-> ->].
    apply ret_Some in H. injection H as -> -> -> ->.
    split; [exact Hf1 |]. left. auto. }
  mbind H as u st2 Hinit. injection Hinit as _ <-.
  mbind H as u' st3 Hlog. apply lib_run_Some in Hlog as (w3 & _ & ->).
  mbind H as vol st4 Hmount. apply lib_run_Some in Hmount as (w4 & _ & ->).
  mbind H as S st5 HS.
  assert (Hst5 : st5 = State w4 (files st1) [] (calls st1) (errlog st1)).
  { destruct vol as [v|].
    - apply ret_Some in HS. now injection HS as _ <-.
    - mbind HS as e s0 He. apply get_errno_Some in He as [_ ->].
      apply ret_Some in HS. now injection HS as _ <-. }
  destruct (EFI_ERROR S) eqn:Herr.
  - apply ret_Some in H. injection H as -> -> -> ->.
    split; [rewrite Hst5; exact Hf1 |].
    right. left. split; [exact Herr |]. split; [reflexivity |].
    split; [now apply remove_first_app_new |].
    split; [now rewrite Hst5 |].
    destruct vol as [v|].
    + apply ret_Some in HS. injection HS as -> _.
      destruct (NtfsVolumeSerial fs =? 0); [discriminate |].
      simpl in Herr |- *.
      destruct (negb (vol_serial v =? NtfsVolumeSerial fs));
        [| discriminate].
      apply list_elem_of_further, list_elem_of_here.
    + mbind HS as e s0 He. apply get_errno_Some in He as [-> ->].
      apply ret_Some in HS. injection HS as -> _.
      destruct (NtfsVolumeSerial fs =? 0); simpl.
      * destruct (ntfs_volume_error _);
          repeat first [apply list_elem_of_here
                       | apply list_elem_of_further].
      * apply list_elem_of_here.
  - destruct vol as [v|]; [| discriminate].
    apply ret_Some in HS. injection HS as -> _.
    mbind H as u5 st6 Hfree. apply lib_run_Some in Hfree as (w6 & _ & ->).
    mbind H as label st7 Hlabel.
    apply lib_run_Some in Hlabel as (w7 & _ & ->).
    apply ret_Some in H. injection H as -> -> -> ->.
    rewrite Hst5. simpl.
    split; [exact Hf1 |].
    right. right.
    assert (Hserial : NtfsVolumeSerial fs = 0 \/
                      vol_serial v = NtfsVolumeSerial fs).
    { destruct (Z.eqb_spec (NtfsVolumeSerial fs) 0) as [| Hne]; [now left |].
      right. simpl in Herr.
      destruct (Z.eqb_spec (vol_serial v) (NtfsVolumeSerial fs));
        [assumption | discriminate]. }
    split.
    { destruct (negb (NtfsVolumeSerial fs =? 0) &&
                negb (vol_serial v =? NtfsVolumeSerial fs));
        [discriminate | reflexivity]. }
    split; [| split; reflexivity].
    exists v, label. split; [reflexivity | exact Hserial].
Qed.

(** X13. A mount that fails is still counted: after a first
    NtfsMountVolume that returned an error, MountCount is 1 and
    NtfsVolume is what it was, and a second NtfsMountVolume returns
    EFI_SUCCESS without calling the library or changing anything but
    the count. *)
Theorem NtfsMountVolume_failed_then_retry (FsListHead FsListHead' : list addr)
        (FileSystem : addr) (fs fs' : EFI_FS) (Status : EFI_STATUS)
        (st st' : state V) :
  MountCount fs = 0 ->
  FileSystem ∉ FsListHead ->
  NtfsMountVolume FsListHead FileSystem fs st =
  Some ((Status, fs', FsListHead'), st') ->
  EFI_ERROR Status = true ->
  MountCount fs' = 1 /\ NtfsVolume fs' = NtfsVolume fs /\
  FsListHead' = FsListHead /\
  forall st2 : state V,
    NtfsMountVolume FsListHead' FileSystem fs' st2 =
    Some ((EFI_SUCCESS, set_MountCount 2 fs', FsListHead'), st2).
Proof.
  intros Hcount Hnew H Herr.
  assert (Hfs : fs' = set_MountCount 1 fs /\ FsListHead' = FsListHead).
  { unfold NtfsMountVolume in H. rewrite Hcount in H. simpl in H.
    mbind H as conv st1 Hconv. destruct conv as [sz device].
    destruct (sz <? 0).
    { mbind H as s s0 Hs. apply ret_Some in H.
      injection H as _ -> -> _. auto. }
    mbind H as u st2 Hinit.
    mbind H as u' st3 Hlog.
    mbind H as vol st4 Hmount.
    mbind H as S st5 HS.
    destruct (EFI_ERROR S) eqn:HerrS.
    - apply ret_Some in H. injection H as _ -> -> _.
      split; [reflexivity | now apply remove_first_app_new].
    - exfalso. destruct vol as [v|]; [| discriminate].
      mbind H as u5 st6 Hfree. mbind H as label st7 Hlabel.
      apply ret_Some in H. injection H as -> _ _ _. discriminate. }
  destruct Hfs as [-> ->].
  split; [reflexivity |]. split; [reflexivity |]. split; [reflexivity |].
  intros st2. reflexivity.
Qed.
End Mount.

Lemma NtfsMountVolume_first_witness :
  exists fs' st',
    @NtfsMountVolume errno_glibc _ _ _ [] 9%N fs_seen (mounted [] [r_int 78]) =
    Some ((EFI_MEDIA_CHANGED, fs', []), st') /\
    NtfsVolumeSerial fs' = 77 /\ NtfsVolume fs' = None.
Proof.
  destruct (@NtfsMountVolume errno_glibc _ _ _ [] 9%N fs_seen
              (mounted [] [r_int 78]))
    as [[[[Status fs'] L'] st']|] eqn:Hrun;
    [| vm_compute in Hrun; discriminate].
  destruct (@NtfsMountVolume_first errno_glibc script scripted scripted_more
              [] L' 9%N fs_seen fs' Status (mounted [] [r_int 78]) st'
              ltac:(simpl; lia) ltac:(apply not_elem_of_nil) Hrun)
    as (_ & Hcases).
  vm_compute in Hrun. injection Hrun as <- <- <- <-.
  eexists _, _. split; [reflexivity |]. split; reflexivity.
Defined.

Lemma NtfsMountVolume_failed_then_retry_witness :
  exists fs' st',
    @NtfsMountVolume errno_glibc _ _ _ [] 9%N fs_new (mounted [] [r_fail 5]) =
    Some ((EFI_VOLUME_CORRUPTED, fs', []), st') /\
    @NtfsMountVolume errno_glibc _ _ _ [] 9%N fs' st' =
    Some ((EFI_SUCCESS, set_MountCount 2 fs', []), st') /\
    NtfsVolume fs' = None.
Proof.
  destruct (@NtfsMountVolume errno_glibc _ _ _ [] 9%N fs_new
              (mounted [] [r_fail 5]))
    as [[[[Status fs'] L'] st']|] eqn:Hrun;
    [| vm_compute in Hrun; discriminate].
  assert (Hres : Status = EFI_VOLUME_CORRUPTED /\ L' = []).
  { vm_compute in Hrun. injection Hrun as <- _ <- _. auto. }
  destruct Hres as [-> ->].
  destruct (@NtfsMountVolume_failed_then_retry errno_glibc script scripted
              scripted_more [] [] 9%N fs_new fs' EFI_VOLUME_CORRUPTED
              (mounted [] [r_fail 5]) st' eq_refl
              ltac:(apply not_elem_of_nil) Hrun eq_refl)
    as (_ & Hvol & _ & Hretry).
  exists fs', st'. split; [reflexivity |].
  split; [apply Hretry | exact Hvol].
Defined.

(** ** Moving and setting the information *)

Section MoveInfo.
Context {E : errno_h} {V : Type} {lib : libntfs V}.

(** X14. A move changes at most the path of the file it moves, and
    then to the new path, with the base name after one of its
    separators. Every file instance stays allocated, every other
    instance keeps its path and base name, and the lookup list is as it
    was: a move never registers or unregisters an instance. *)
Theorem NtfsMoveFile_frame (File : addr) (NewPath : list CHAR16)
        (Status : EFI_STATUS) (st st' : state V) :
  all_wf st ->
  NtfsMoveFile File NewPath st = Some (Status, st') ->
  LookupListHead st' = LookupListHead st /\
  forall G g,
    files st !! G = Some g ->
    exists g',
      files st' !! G = Some g' /\
      ((Path g' = Path g /\ BaseName g' = BaseName g) \/
       (G = File /\ Path g' = NewPath /\ wf_file g')).
Proof.
  intros Hwf H.
  destruct (NtfsMoveFile_moved File NewPath Status st st' Hwf H)
    as (Hkept & Halloc & Hlist).
  split; [exact Hlist |].
  intros G g Hg.
  destruct (Halloc G (mk_is_Some _ _ Hg)) as (g' & Hg').
  exists g'. split; [exact Hg' |].
  destruct (Hkept G g' Hg') as (g0 & Hg0 & Hcase).
  rewrite Hg in Hg0. injection Hg0 as <-. exact Hcase.
Qed.

(** X15. Through a handle opened read-only NtfsSetFileInfo neither
    moves nor resizes: the file instances and the lookup list are as
    they were, the only call it may make is the allocation of the copy
    of the file name, and the status is EFI_ACCESS_DENIED,
    EFI_OUT_OF_RESOURCES (no copy) or, when only attributes were to be
    set, EFI_SUCCESS. *)
Theorem NtfsSetFileInfo_read_only_handle (File : addr)
        (Info : EFI_FILE_INFO) (Status : EFI_STATUS) (st st' : state V) :
  NtfsSetFileInfo File Info true st = Some (Status, st') ->
  files st' = files st /\ LookupListHead st' = LookupListHead st /\
  (calls st' = calls st \/
   exists ok, calls st' = calls st ++ [c_AllocatePool ok]) /\
  match Status with
  | EFI_ACCESS_DENIED | EFI_OUT_OF_RESOURCES => True
  | EFI_SUCCESS =>
      time_is_set (CreateTime Info) = false /\
      time_is_set (LastAccessTime Info) = false /\
      time_is_set (ModificationTime Info) = false
  | _ => False
  end.
Proof.
  intros H. unfold NtfsSetFileInfo in H.
  mbind H as f s0 Hg. apply File_get_Some in Hg as [Hf ->].
  mbind H as ni s0 Hg. apply ni_get_Some in Hg as (p & Hp & Hni & ->).
  match type of H with (if ?c then _ else _) _ = _ => destruct c end.
  { mret H. auto. }
  cbn [andb] in H.
  destruct (time_is_set (CreateTime Info) || time_is_set (LastAccessTime Info)
            || time_is_set (ModificationTime Info)) eqn:Htimes.
  { mret H. auto. }
  apply orb_false_elim in Htimes as [Htimes Hm].
  apply orb_false_elim in Htimes as [Hc Ha].
  mbind H as early st1 Hmr.
  assert (Hmid : files st1 = files st /\
                 LookupListHead st1 = LookupListHead st /\
                 (calls st1 = calls st \/
                  exists ok, calls st1 = calls st ++ [c_AllocatePool ok]) /\
                 match early with
                 | Some EFI_ACCESS_DENIED | Some EFI_OUT_OF_RESOURCES
                 | None => True
                 | _ => False
                 end).
  { unfold NtfsSetFileInfo_move_resize in Hmr.
    mbind Hmr as f1 s0 Hg. apply File_get_Some in Hg as [_ ->].
    mbind Hmr as mv st2 Hmv.
    assert (H2 : files st2 = files st /\
                 LookupListHead st2 = LookupListHead st /\
                 (calls st2 = calls st \/
                  exists ok, calls st2 = calls st ++ [c_AllocatePool ok]) /\
                 match mv with
                 | Some EFI_ACCESS_DENIED | Some EFI_OUT_OF_RESOURCES
                 | None => True
                 | _ => False
                 end).
    { destruct (IS_PATH_DELIMITER (char_at (FileName Info) 0)).
      - mbind Hmv as dup s0 Hd. apply lib_call_Some in Hd as (w & _ & ->).
        assert (Hcalls : exists ok, calls (called w (c_AllocatePool dup) st) =
                                    calls st ++ [c_AllocatePool ok])
          by (now exists dup).
        destruct dup; simpl in Hmv.
        + match type of Hmv with
            (if ?c then _ else _) _ = _ => destruct c
          end; mret Hmv; auto 6.
        + mret Hmv. auto 6.
      - mret Hmv. auto 6. }
    destruct H2 as (Hf2 & Hl2 & Hc2 & Hmv2).
    destruct mv as [S|].
    { mret Hmr. auto. }
    mbind Hmr as f2 s0 Hg. apply File_get_Some in Hg as [_ ->].
    mbind Hmr as n2 s0 Hg. apply ni_get_Some in Hg as (q & _ & _ & ->).
    match type of Hmr with (if ?c then _ else _) _ = _ => destruct c end;
      mret Hmr; auto. }
  destruct Hmid as (Hf1 & Hl1 & Hc1 & Hearly).
  destruct early as [S|].
  { mret H.
    split; [exact Hf1 |]. split; [exact Hl1 |]. split; [exact Hc1 |].
    destruct S; try contradiction; exact I. }
  mbind H as f3 s0 Hg. apply File_get_Some in Hg as [_ ->].
  mbind H as u st3 Hfields.
  apply NtfsSetFileInfo_fields_Some in Hfields as (q & n & _ & _ & ->).
  mret H. simpl.
  repeat split; assumption.
Qed.
End MoveInfo.

Lemma all_wf_rename_open : all_wf st_rename_open.
Proof.
  intros F f Hf.
  unfold st_rename_open, opened in Hf. simpl in Hf.
  apply lookup_insert_Some in Hf as [[_ <-] | [_ Hf]].
  - exists 0%nat. split; reflexivity.
  - now rewrite lookup_empty in Hf.
Qed.

Lemma NtfsMoveFile_frame_witness :
  exists st' g',
    @NtfsMoveFile errno_glibc _ _ 1%N (L "/b") st_rename_open =
    Some (EFI_SUCCESS, st') /\
    LookupListHead st' = [1%N] /\
    files st' !! 1%N = Some g' /\ Path g' = L "/b".
Proof.
  destruct (@NtfsMoveFile errno_glibc _ _ 1%N (L "/b") st_rename_open)
    as [[Status st']|] eqn:Hrun; [| vm_compute in Hrun; discriminate].
  destruct (@NtfsMoveFile_frame errno_glibc _ _ 1%N (L "/b") Status
              st_rename_open st' all_wf_rename_open Hrun) as [Hlist _].
  vm_compute in Hrun. injection Hrun as <- <-.
  eexists _, _. split; [reflexivity |]. split; [exact Hlist |].
  split; reflexivity.
Defined.

Lemma NtfsSetFileInfo_read_only_handle_witness :
  exists st',
    @NtfsSetFileInfo errno_glibc _ _ 1%N info_rename true st_rename_open =
    Some (EFI_ACCESS_DENIED, st') /\
    files st' = files st_rename_open /\
    calls st' = [c_AllocatePool true].
Proof.
  destruct (@NtfsSetFileInfo errno_glibc _ _ 1%N info_rename true
              st_rename_open)
    as [[Status st']|] eqn:Hrun; [| vm_compute in Hrun; discriminate].
  destruct (@NtfsSetFileInfo_read_only_handle errno_glibc _ _ 1%N info_rename
              Status st_rename_open st' Hrun) as (Hfiles & _ & _ & _).
  vm_compute in Hrun. injection Hrun as <- <-.
  eexists. split; [reflexivity |]. split; [exact Hfiles | reflexivity].
Defined.

(** ** Closing and flushing *)

Section CloseFlush.
Context {E : errno_h} {V : Type} {lib : libntfs V}.

Lemma NtfsLookup_from_ignore_self (st : state V) (entries : list addr)
      (F P : addr) (path : list CHAR16) :
  NtfsLookup_from st entries (Some F) path 0 true = Some (Some P) ->
  P <> F.
Proof.
  induction entries as [|e rest IH]; simpl; [discriminate |].
  destruct (files st !! e) as [ef|]; [| discriminate].
  case_bool_decide as Hself; simpl; [exact IH |].
  destruct ((char_at path 0 =? 0) && IsRoot ef).
  { intros [= <-]. congruence. }
  destruct (StrCmp path (Path ef) =? 0); [| exact IH].
  intros [= <-]. congruence.
Qed.

Lemma NtfsLookupParent_other (F P : addr) (st st' : state V) :
  NtfsLookupParent F st = Some (Some P, st') ->
  P <> F /\ env st' = env st /\ calls st' = calls st /\
  errlog st' = errlog st /\ LookupListHead st' = LookupListHead st /\
  forall G g', files st' !! G = Some g' ->
               exists g, files st !! G = Some g /\
                         NtfsInode g' = NtfsInode g.
Proof.
  intros H.
  apply NtfsLookupParent_Some in H as (f & i & Hf & _ & _ & Hl & ->).
  split; [eapply NtfsLookup_from_ignore_self; exact Hl |].
  repeat split. intros G g' Hg'. unfold with_file in Hg'. simpl in Hg'.
  apply lookup_insert_Some in Hg' as [[<- <-] | [_ Hg']]; eauto.
Qed.

Lemma NtfsLookupParent_state (F : addr) (Parent : option addr)
      (st st' : state V) :
  NtfsLookupParent F st = Some (Parent, st') ->
  env st' = env st /\ calls st' = calls st /\
  errlog st' = errlog st /\ LookupListHead st' = LookupListHead st /\
  forall G g', files st' !! G = Some g' ->
               exists g, files st !! G = Some g /\
                         NtfsInode g' = NtfsInode g.
Proof.
  intros H.
  apply NtfsLookupParent_Some in H as (f & i & Hf & _ & _ & Hl & ->).
  repeat split. intros G g' Hg'. unfold with_file in Hg'. simpl in Hg'.
  apply lookup_insert_Some in Hg' as [[<- <-] | [_ Hg']]; eauto.
Qed.

Lemma remove_first_other (x y : addr) (l : list addr) :
  x ∈ l -> x <> y -> x ∈ remove_first y l.
Proof.
  intros Hin Hne. induction l as [|e l IH]; [now apply elem_of_nil in Hin |].
  simpl. case_bool_decide as Heq.
  - subst e. apply elem_of_cons in Hin as [-> | Hin];
      [contradiction | assumption].
  - apply elem_of_cons in Hin as [-> | Hin];
      [apply list_elem_of_here | apply list_elem_of_further; auto].
Qed.

(** X16. The status of NtfsFlushFile is that of the sync alone. When
    the file is to be flushed, ntfs_inode_sync() is called once, on the
    inode of the file; if it returns 0 or more the status is
    EFI_SUCCESS, also when the parent that was closed for the sync
    cannot be reopened, and the file stays in the lookup list. *)
Theorem NtfsFlushFile_status (File p : addr) (f : EFI_NTFS_FILE)
        (ni : ntfs_inode) (Status : EFI_STATUS) (st st' : state V) :
  files st !! File = Some f ->
  NtfsInode f = Some p ->
  inodes (env st) !! p = Some ni ->
  negb (NInoDirty ni) && NInoAttrListDirty ni = false ->
  NtfsFlushFile File st = Some (Status, st') ->
  exists (r : Z) (pre post : list call),
    calls st' = calls st ++ pre ++ c_inode_sync (Some p) r :: post /\
    (forall o z, c_inode_sync o z ∉ pre ++ post) /\
    (0 <= r -> Status = EFI_SUCCESS) /\
    (File ∈ LookupListHead st -> File ∈ LookupListHead st').
Proof.
  intros Hf Hp Hni Hguard H. unfold NtfsFlushFile in H.
  mbind H as f0 s0 Hg. apply File_get_Some in Hg as [Hf0 ->].
  rewrite Hf in Hf0. injection Hf0 as <-.
  mbind H as n0 s0 Hg. apply ni_get_Some in Hg as (q & Hq & Hn & ->).
  rewrite Hp in Hq. injection Hq as <-.
  rewrite Hni in Hn. injection Hn as <-.
  rewrite Hguard in H.
  mbind H as Parent st1 HP.
  assert (HPF : forall P, Parent = Some P -> P <> File).
  { intros P ->. now apply NtfsLookupParent_other in HP. }
  apply NtfsLookupParent_state in HP as (Henv & Hcalls & _ & Hlist & Hino).
  mbind H as parent_inum st2 Hclose.
  assert (H2 : files st2 = files st1 /\
               LookupListHead st2 = LookupListHead st1 /\
               exists pre, calls st2 = calls st1 ++ pre /\
                           forall o z, c_inode_sync o z ∉ pre).
  { destruct Parent as [P|].
    - mbind Hclose as pf s0 Hg. apply File_get_Some in Hg as [_ ->].
      mbind Hclose as pi s0 Hg. apply ni_get_Some in Hg as (pp & _ & _ & ->).
      mbind Hclose as u s0 Hc.
      apply inode_close_Some in Hc as (z & w & _ & ->).
      mret Hclose. split; [reflexivity |]. split; [reflexivity |].
      eexists. split; [reflexivity |]. intros o z' Hin.
      apply list_elem_of_singleton in Hin. discriminate.
    - mret Hclose. split; [reflexivity |]. split; [reflexivity |].
      exists []. split; [now rewrite app_nil_r |].
      intros o z. apply not_elem_of_nil. }
  destruct H2 as (Hf2 & Hl2 & pre & Hc2 & Hpre).
  mbind H as f2 s0 Hg. apply File_get_Some in Hg as [Hf2' ->].
  assert (Hp2 : NtfsInode f2 = Some p).
  { rewrite Hf2 in Hf2'. destruct (Hino File f2 Hf2') as (g & Hg & ->).
    rewrite Hf in Hg. injection Hg as <-. exact Hp. }
  rewrite Hp2 in H.
  mbind H as r st3 Hsync. apply lib_call_Some in Hsync as (w3 & _ & ->).
  mbind H as S st4 HS.
  assert (H4 : files st4 = files st2 /\
               LookupListHead st4 = LookupListHead st2 /\
               calls st4 = calls st2 ++ [c_inode_sync (Some p) r] /\
               (0 <= r -> S = EFI_SUCCESS)).
  { destruct (Z.ltb_spec r 0).
    - mbind HS as u s0 Hpr. apply PrintError_Some in Hpr. subst s0.
      apply errno_status_Some in HS as [_ ->].
      repeat split. lia.
    - mret HS. repeat split. }
  destruct H4 as (Hf4 & Hl4 & Hc4 & HS4).
  mbind H as u st5 Hreopen.
  apply ret_Some in H. injection H as HSeq Hst. subst S st5.
  assert (H5 : exists post,
             calls st' = calls st4 ++ post /\
             (forall o z, c_inode_sync o z ∉ post) /\
             (File ∈ LookupListHead st4 -> File ∈ LookupListHead st')).
  { destruct Parent as [P|].
    - mbind Hreopen as r' s0 Ho. apply inode_open_Some in Ho as (w5 & _ & ->).
      mbind Hreopen as u' s0 Hs. apply File_set_Some in Hs as (pf & _ & ->).
      exists [c_inode_open parent_inum r'].
      assert (Hno : forall o z,
                 c_inode_sync o z ∉ [c_inode_open parent_inum r']).
      { intros o z Hin. apply list_elem_of_singleton in Hin. discriminate. }
      destruct r'.
      + mret Hreopen. repeat split; auto.
      + mbind Hreopen as u'' s0 Hpr. apply PrintError_Some in Hpr. subst s0.
        apply NtfsLookupRem_Some in Hreopen. subst st'. simpl.
        repeat split; auto. intros Hin.
        apply remove_first_other; [exact Hin |].
        intros Heq. apply (HPF P eq_refl). now symmetry.
    - mret Hreopen. exists []. rewrite app_nil_r.
      repeat split; auto. intros o z. apply not_elem_of_nil. }
  destruct H5 as (post & Hc5 & Hpost & Hin5).
  exists r, pre, post. split.
  { rewrite Hc5, Hc4, Hc2, Hcalls. now rewrite <- !app_assoc. }
  split.
  { intros o z Hin. apply elem_of_app in Hin as [Hin | Hin];
      [now apply (Hpre o z) | now apply (Hpost o z)]. }
  split; [exact HS4 |].
  intros Hin. apply Hin5. now rewrite Hl4, Hl2, Hlist.
Qed.

(** X17. NtfsCloseFile of an open file closes the inode of the file
    once. For a clean file that is its only call and no file instance
    changes; for a dirty file whose parent is in the lookup list, the
    inode of the parent is closed before and opened again, by its
    number, after. *)
Theorem NtfsCloseFile_calls (File p : addr) (f : EFI_NTFS_FILE)
        (ni : ntfs_inode) (st st' : state V) :
  files st !! File = Some f ->
  NtfsInode f = Some p ->
  inodes (env st) !! p = Some ni ->
  NtfsCloseFile (Some File) st = Some (tt, st') ->
  (calls st' = calls st ++ [c_inode_close (Some p)] /\
   (IS_DIRTY ni = false -> files st' = files st)) \/
  (IS_DIRTY ni = true /\
   exists (P pp : addr) (pf : EFI_NTFS_FILE) (pi : ntfs_inode)
          (r : option addr),
     P <> File /\ P ∈ LookupListHead st /\
     files st !! P = Some pf /\ NtfsInode pf = Some pp /\
     inodes (env st) !! pp = Some pi /\
     calls st' = calls st ++ [c_inode_close (Some pp);
                              c_inode_close (Some p);
                              c_inode_open (mft_no pi) r]).
Proof.
  intros Hf Hp Hni H. unfold NtfsCloseFile in H.
  mbind H as f0 s0 Hg. apply File_get_Some in Hg as [Hf0 ->].
  rewrite Hf in Hf0. injection Hf0 as <-.
  rewrite Hp in H.
  mbind H as n0 s0 Hg. apply ni_get_Some in Hg as (q & Hq & Hn & ->).
  injection Hq as <-. rewrite Hni in Hn. injection Hn as <-.
  mbind H as found st1 Hfound. destruct found as [Parent parent_inum].
  destruct (IS_DIRTY ni) eqn:Hdirty.
  - mbind Hfound as Parent0 st0 HP.
    pose proof HP as HP'.
    apply NtfsLookupParent_state in HP' as (Henv & Hcalls & _ & Hlist & Hino).
    destruct Parent0 as [P|].
    + right. split; [reflexivity |].
      pose proof HP as HPF. apply NtfsLookupParent_other in HPF as [HPF _].
      assert (HPin : P ∈ LookupListHead st).
      { apply NtfsLookupParent_Some in HP as (f1 & i & _ & _ & _ & Hl & _).
        eapply NtfsLookup_from_elem. exact Hl. }
      mbind Hfound as pf s0 Hg. apply File_get_Some in Hg as [Hpf ->].
      mbind Hfound as pi s0 Hg.
      apply ni_get_Some in Hg as (pp & Hpp & Hpi & ->).
      mbind Hfound as u s0 Hc. apply lib_call_Some in Hc as (w & _ & ->).
      apply ret_Some in Hfound. injection Hfound as -> -> ->.
      mbind H as f2 s0 Hg. apply File_get_Some in Hg as [Hf2 ->].
      assert (Hp2 : NtfsInode f2 = Some p).
      { simpl in Hf2. destruct (Hino File f2 Hf2) as (g & Hg & ->).
        rewrite Hf in Hg. injection Hg as <-. exact Hp. }
      rewrite Hp2 in H.
      mbind H as u2 s0 Hc. apply lib_call_Some in Hc as (w2 & _ & ->).
      mbind H as u3 st3 Hreopen.
      apply NtfsLookupRem_Some in H. subst st'.
      mbind Hreopen as r s0 Ho. apply lib_call_Some in Ho as (w3 & _ & ->).
      mbind Hreopen as u4 s0 Hs. apply File_set_Some in Hs as (pf' & _ & ->).
      destruct (Hino P pf Hpf) as (pf0 & Hpf0 & Hpino).
      rewrite Henv in Hpi.
      exists P, pp, pf0, pi, r.
      split; [exact HPF |]. split; [exact HPin |].
      split; [exact Hpf0 |]. split; [congruence |].
      split; [exact Hpi |].
      destruct r.
      * mret Hreopen. simpl. rewrite Hcalls, Hpp.
        now rewrite <- !app_assoc.
      * mbind Hreopen as u5 s0 Hpr. apply PrintError_Some in Hpr. subst s0.
        apply NtfsLookupRem_Some in Hreopen. subst st3. simpl.
        rewrite Hcalls, Hpp. now rewrite <- !app_assoc.
    + left. apply ret_Some in Hfound. injection Hfound as -> -> ->.
      mbind H as f2 s0 Hg. apply File_get_Some in Hg as [Hf2 ->].
      assert (Hp2 : NtfsInode f2 = Some p).
      { destruct (Hino File f2 Hf2) as (g & Hg & ->).
        rewrite Hf in Hg. injection Hg as <-. exact Hp. }
      rewrite Hp2 in H.
      mbind H as u2 s0 Hc. apply lib_call_Some in Hc as (w2 & _ & ->).
      mbind H as u3 st3 Hreopen. mret Hreopen.
      apply NtfsLookupRem_Some in H. subst st'. simpl.
      rewrite Hcalls. split; [reflexivity | discriminate].
  - left. apply ret_Some in Hfound. injection Hfound as -> -> ->.
    mbind H as f2 s0 Hg. apply File_get_Some in Hg as [Hf2 ->].
    rewrite Hf in Hf2. injection Hf2 as <-. rewrite Hp in H.
    mbind H as u2 s0 Hc. apply lib_call_Some in Hc as (w2 & _ & ->).
    mbind H as u3 st3 Hreopen. mret Hreopen.
    apply NtfsLookupRem_Some in H. subst st'. simpl.
    split; reflexivity.
Qed.
End CloseFlush.

Lemma NtfsFlushFile_status_witness :
  exists st' r pre post,
    @NtfsFlushFile errno_glibc _ _ 2%N st_reopen_fails =
    Some (EFI_SUCCESS, st') /\
    calls st' = calls st_reopen_fails ++ pre ++
                c_inode_sync (Some 101%N) r :: post /\
    2%N ∈ LookupListHead st'.
Proof.
  destruct (@NtfsFlushFile errno_glibc _ _ 2%N st_reopen_fails)
    as [[Status st']|] eqn:Hrun; [| vm_compute in Hrun; discriminate].
  destruct (@NtfsFlushFile_status errno_glibc _ _ 2%N 101%N
              (set_NtfsInode (Some 101%N) (new_file "/d/f" 0))
              (file_inode 71 10) Status st_reopen_fails st'
              eq_refl eq_refl eq_refl eq_refl Hrun)
    as (r & pre & post & Hcalls & _ & _ & Hin).
  assert (HS : Status = EFI_SUCCESS).
  { vm_compute in Hrun. now injection Hrun as <- _. }
  subst Status.
  exists st', r, pre, post. split; [reflexivity |].
  split; [exact Hcalls |].
  apply Hin. apply list_elem_of_further, list_elem_of_here.
Defined.

Lemma NtfsCloseFile_calls_witness :
  exists st',
    NtfsCloseFile (Some 2%N) (st_tree []) = Some (tt, st') /\
    calls st' = [c_inode_close (Some 101%N)].
Proof.
  destruct (NtfsCloseFile (Some 2%N) (st_tree []))
    as [[[] st']|] eqn:Hrun; [| vm_compute in Hrun; discriminate].
  exists st'. split; [reflexivity |].
  destruct (NtfsCloseFile_calls 2%N 101%N
              (set_NtfsInode (Some 101%N) (new_file "/d/f" 0))
              (file_inode 71 10) (st_tree []) st'
              eq_refl eq_refl eq_refl Hrun)
    as [[Hcalls _] | [Hdirty _]]; [exact Hcalls | discriminate].
Defined.

(** ** Deleting *)

Section DeleteMore.
Context {E : errno_h} {V : Type} {lib : libntfs V}.

Lemma ErrnoToEfiStatus_not_warning (e : Z) :
  ErrnoToEfiStatus e <> EFI_WARN_DELETE_FAILURE.
Proof.
  unfold ErrnoToEfiStatus, errno_groups. simpl.
  repeat match goal with
         | |- (if ?c then _ else _) <> _ => destruct c; [discriminate |]
         end.
  discriminate.
Qed.

(** X18. NtfsDeleteFile takes the file off the lookup list exactly
    when it has called ntfs_delete(), whatever that returned; the
    status is then EFI_WARN_DELETE_FAILURE exactly when it returned a
    negative value. When NtfsDeleteFile returns before the call (the
    directory cannot be opened, or is $Extend), the lookup list is as
    it was. *)
Theorem NtfsDeleteFile_registry (File : addr) (Status : EFI_STATUS)
        (st st' : state V) :
  NoDup (LookupListHead st) ->
  NtfsDeleteFile File st = Some (Status, st') ->
  (delete_results (calls st') = delete_results (calls st) /\
   LookupListHead st' = LookupListHead st /\
   Status <> EFI_WARN_DELETE_FAILURE) \/
  (exists r : Z,
     delete_results (calls st') = delete_results (calls st) ++ [r] /\
     (r < 0 <-> Status = EFI_WARN_DELETE_FAILURE) /\
     File ∉ LookupListHead st').
Proof.
  intros Hnd H. unfold NtfsDeleteFile in H.
  mbind H as Parent st1 HP. apply NtfsLookupParent_list in HP.
  mbind H as found st2 Hfound.
  destruct found as [[[dir_ni GrandParent] parent_inum] grandparent_inum].
  assert (H12 : same_list st1 st2).
  { destruct Parent as [P|].
    - mbind Hfound as GP st1' HGP. apply NtfsLookupParent_list in HGP.
      mbind Hfound as gp st1'' Hgp.
      eapply same_list_trans; [exact HGP |].
      assert (same_list st1' st1'').
      { destruct GP as [G|].
        - mbind Hgp as gf s0 Hg. apply File_get_Some in Hg as [_ ->].
          destruct (IsRoot gf).
          + mret Hgp. apply same_list_refl.
          + mbind Hgp as gi s0 Hg. apply ni_get_Some in Hg as (q & _ & _ & ->).
            mbind Hgp as u s0 Hc. apply inode_close_list in Hc.
            mret Hgp. exact Hc.
        - mret Hgp. apply same_list_refl. }
      eapply same_list_trans; [eassumption |].
      destruct gp as [GP' gpi].
      mbind Hfound as pf s0 Hg. apply File_get_Some in Hg as [_ ->].
      mbind Hfound as di s0 Hg. apply ni_get_Some in Hg as (q & _ & _ & ->).
      mret Hfound. apply same_list_refl.
    - mbind Hfound as d st1' Ho. apply open_dirname_list in Ho.
      mret Hfound. exact Ho. }
  assert (H02 : same_list st st2) by (eapply same_list_trans; eassumption).
  destruct H02 as [Hlist Hcalls]. clear HP H12 Hfound.
  assert (Hreopen : forall (Dir : option addr) (inum : Z) (who : string)
             (k : M V EFI_STATUS) (s s' : state V) (S' : EFI_STATUS),
             (forall s1 s1' S1, k s1 = Some (S1, s1') ->
                delete_results (calls s1') = delete_results (calls s1) /\
                (forall x, x ∈ LookupListHead s1' -> x ∈ LookupListHead s1) /\
                S1 <> EFI_WARN_DELETE_FAILURE) ->
             match Dir with
             | Some D =>
                 let* ni := inode_open inum in
                 File_set D (set_NtfsInode ni);;
                 match ni with
                 | None =>
                     PrintError who;;
                     NtfsLookupRem D;;
                     errno_status
                 | Some _ => k
                 end
             | None => k
             end s = Some (S', s') ->
             delete_results (calls s') = delete_results (calls s) /\
             (forall x, x ∈ LookupListHead s' -> x ∈ LookupListHead s) /\
             S' <> EFI_WARN_DELETE_FAILURE).
  { intros Dir inum who k s s' S' Hk Hrun. destruct Dir as [D|]; [| eauto].
    mbind Hrun as ni s1 Ho. apply inode_open_Some in Ho as (w1 & _ & ->).
    mbind Hrun as u1 s2 Hs. apply File_set_Some in Hs as (fd & _ & ->).
    destruct ni.
    - apply Hk in Hrun as (Hd & Hl & HS). simpl in Hd, Hl.
      rewrite delete_results_app in Hd. simpl in Hd.
      rewrite app_nil_r in Hd. auto.
    - mbind Hrun as u2 s3 Hpr. apply PrintError_Some in Hpr. subst s3.
      mbind Hrun as u3 s4 Hrm. apply NtfsLookupRem_Some in Hrm. subst s4.
      apply errno_status_Some in Hrun as [-> ->]. simpl.
      rewrite delete_results_app. simpl. rewrite app_nil_r.
      split; [reflexivity |].
      split; [intros x; apply remove_first_elem |].
      apply ErrnoToEfiStatus_not_warning. }
  assert (Hmain :
    (let* di := ni_get dir_ni in
     if mft_no di =? FILE_Extend then ret EFI_ACCESS_DENIED
     else
       let* f := File_get File in
       let* r :=
         lib_call (ntfs_delete (NtfsInode f) dir_ni (BaseName_str f)
                               (u8 (Z.of_nat (StrLen (BaseName_str f)))))
                  (c_delete (NtfsInode f) dir_ni (BaseName_str f)
                            (u8 (Z.of_nat (StrLen (BaseName_str f))))) in
       NtfsLookupRem File;;
       if r <? 0 then
         PrintError "NtfsDeleteFile failed";;
         ret EFI_WARN_DELETE_FAILURE
       else
         File_set File (set_NtfsInode None);;
         let reopen (Dir : option addr) (inum : Z) (who : string)
                    (k : M V EFI_STATUS) : M V EFI_STATUS :=
           match Dir with
           | Some D =>
               let* ni := inode_open inum in
               File_set D (set_NtfsInode ni);;
               match ni with
               | None =>
                   PrintError who;;
                   NtfsLookupRem D;;
                   errno_status
               | Some _ => k
               end
           | None => k
           end in
         reopen Parent parent_inum
           "NtfsDeleteFile: Failed to reopen Parent"%string
           (reopen GrandParent grandparent_inum
              "NtfsDeleteFile: Failed to reopen GrandParent"%string
              (ret EFI_SUCCESS))) st2 = Some (Status, st')
    -> (delete_results (calls st') = delete_results (calls st) /\
        LookupListHead st' = LookupListHead st /\
        Status <> EFI_WARN_DELETE_FAILURE) \/
       (exists r : Z,
          delete_results (calls st') = delete_results (calls st) ++ [r] /\
          (r < 0 <-> Status = EFI_WARN_DELETE_FAILURE) /\
          File ∉ LookupListHead st')).
  { clear H. intros H.
    mbind H as di s0 Hg. apply ni_get_Some in Hg as (q & _ & _ & ->).
    destruct (mft_no di =? FILE_Extend).
    { mret H. left. split; [exact Hcalls |]. split; [exact Hlist |].
      discriminate. }
    right.
    mbind H as f s0 Hg. apply File_get_Some in Hg as [_ ->].
    mbind H as r st3 Hc. apply lib_call_Some in Hc as (w & _ & ->).
    mbind H as u st4 Hrem. apply NtfsLookupRem_Some in Hrem. subst st4.
    exists r.
    destruct (Z.ltb_spec r 0) as [Hneg | Hpos].
    - mbind H as u' st5 Hpr. apply PrintError_Some in Hpr. subst st5.
      apply ret_Some in H. injection H as -> ->. simpl.
      rewrite delete_results_app, Hcalls. simpl.
      split; [reflexivity |].
      split; [split; [reflexivity | intros _; exact Hneg] |].
      rewrite Hlist; now apply remove_first_removes.
    - mbind H as u' st5 Hset. apply File_set_Some in Hset as (f' & _ & ->).
      eapply Hreopen in H as (Hd & Hl & HS).
      2:{ intros s1 s1' S1 Hk. eapply Hreopen; [| exact Hk].
          intros s2 s2' S2 Hk2. mret Hk2.
          split; [reflexivity |]. split; [auto | discriminate]. }
      simpl in Hd, Hl.
      rewrite Hd, delete_results_app, Hcalls. simpl.
      split; [reflexivity |].
      split; [split; [lia | intros HS'; contradiction] |].
      intros Hin. apply Hl in Hin. rewrite Hlist in Hin.
      now apply (remove_first_removes File (LookupListHead st) Hnd). }
  destruct Parent as [P|]; [exact (Hmain H) |].
  destruct dir_ni as [d|]; [exact (Hmain H) |].
  apply errno_status_Some in H as [-> ->]. left.
  split; [exact Hcalls |]. split; [exact Hlist |].
  apply ErrnoToEfiStatus_not_warning.
Qed.
End DeleteMore.

Lemma NtfsDeleteFile_registry_witness :
  exists st',
    @NtfsDeleteFile errno_glibc _ _ 2%N (st_tree [r_int 0;
                                                  r_inode (dir_inode 70)]) =
    Some (EFI_SUCCESS, st') /\
    delete_results (calls st') = [0] /\
    2%N ∉ LookupListHead st'.
Proof.
  destruct (@NtfsDeleteFile errno_glibc _ _ 2%N
              (st_tree [r_int 0; r_inode (dir_inode 70)]))
    as [[Status st']|] eqn:Hrun; [| vm_compute in Hrun; discriminate].
  assert (Hnd : NoDup (LookupListHead
                         (st_tree [r_int 0; r_inode (dir_inode 70)]))).
  { apply (bool_decide_unpack (NoDup _)). vm_compute. reflexivity. }
  destruct (@NtfsDeleteFile_registry errno_glibc _ _ 2%N Status
              (st_tree [r_int 0; r_inode (dir_inode 70)]) st' Hnd Hrun)
    as [(Hsame & _) | (r & Hres & _ & Hout)].
  - exfalso. vm_compute in Hrun. injection Hrun as _ <-. discriminate.
  - assert (HS : Status = EFI_SUCCESS /\ delete_results (calls st') = [0]).
    { vm_compute in Hrun. injection Hrun as <- <-. split; reflexivity. }
    destruct HS as [-> Hd].
    exists st'. split; [reflexivity |]. split; [exact Hd | exact Hout].
Defined.

(** ** Opening and creating *)

Section OpenCreate.
Context {E : errno_h} {V : Type} {lib : libntfs V}.

Lemma is_root_path (p : list CHAR16) :
  (char_at p 0 =? PATH_CHAR) && (char_at p 1 =? 0) =
  bool_decide (cstr p = [PATH_CHAR]).
Proof.
  destruct p as [|c [|d r]]; unfold char_at; simpl.
  - reflexivity.
  - rewrite andb_true_r.
    destruct (Z.eqb_spec c 0) as [-> | Hc]; [reflexivity |].
    destruct (Z.eqb_spec c PATH_CHAR) as [-> | Hne]; symmetry.
    + now apply bool_decide_eq_true_2.
    + apply bool_decide_eq_false_2. congruence.
  - destruct (Z.eqb_spec c 0) as [-> | Hc]; [reflexivity |].
    destruct (Z.eqb_spec d 0) as [-> | Hd].
    + destruct (Z.eqb_spec c PATH_CHAR) as [-> | Hne]; symmetry.
      * now apply bool_decide_eq_true_2.
      * apply bool_decide_eq_false_2. congruence.
    + rewrite andb_false_r. symmetry.
      apply bool_decide_eq_false_2. discriminate.
Qed.

(** X19. NtfsOpenFile of a path that no listed instance has. The
    instance keeps its path, and is the root exactly when its path is
    "/". When the inode cannot be opened, the instance is left with a
    null inode pointer, the lookup list is as it was, and the status
    is the translation of errno. When it is opened, the status is
    EFI_SUCCESS and the instance is added at the tail of the lookup
    list, unless the pool has no entry to give: then the status is
    EFI_SUCCESS all the same and the lookup list is as it was. *)
Theorem NtfsOpenFile_new (File R : addr) (f : EFI_NTFS_FILE)
        (Status : EFI_STATUS) (st st' : state V) :
  files st !! File = Some f ->
  NtfsLookup_from st (LookupListHead st) (Some File) (Path f) 0 false =
  Some None ->
  NtfsOpenFile File st = Some ((Status, R), st') ->
  R = File /\
  exists f',
    files st' = <[File := f']> (files st) /\
    Path f' = Path f /\
    IsRoot f' = bool_decide (cstr (Path f) = [PATH_CHAR]) /\
    match NtfsInode f' with
    | None =>
        Status = ErrnoToEfiStatus (errno (env st')) /\
        LookupListHead st' = LookupListHead st
    | Some _ =>
        Status = EFI_SUCCESS /\
        exists (ok : bool) (before : list call),
          calls st' = before ++ [c_AllocatePool ok] /\
          LookupListHead st' =
          if ok then LookupListHead st ++ [File] else LookupListHead st
    end.
Proof.
  intros Hf Hmiss H. unfold NtfsOpenFile in H.
  mbind H as found s0 Hl.
  apply NtfsLookupPath_Some in Hl as (f0 & Hf0 & Hl & ->).
  rewrite Hf in Hf0. injection Hf0 as <-.
  rewrite Hmiss in Hl. injection Hl as <-.
  mbind H as f1 s0 Hg. apply File_get_Some in Hg as [Hf1 ->].
  rewrite Hf in Hf1. injection Hf1 as <-.
  rewrite is_root_path in H.
  mbind H as u st1 Hs1. apply File_set_Some in Hs1 as (f1 & Hf1 & ->).
  rewrite Hf in Hf1. injection Hf1 as <-.
  mbind H as ni st2 Ho.
  apply NtfsOpenInodeFromPath_frame in Ho as (Hfiles2 & Hlist2 & _).
  mbind H as u2 st3 Hs3. apply File_set_Some in Hs3 as (f2 & Hf2 & ->).
  rewrite Hfiles2, with_file_lookup in Hf2. injection Hf2 as <-.
  set (root := bool_decide (cstr (Path f) = [PATH_CHAR])) in *.
  destruct ni as [p|].
  - mbind H as i s0 Hg. apply ni_get_Some in Hg as (q & _ & _ & ->).
    mbind H as u3 st4 Hs4. apply File_set_Some in Hs4 as (f3 & Hf3 & ->).
    rewrite with_file_lookup in Hf3. injection Hf3 as <-.
    mbind H as u4 st5 Hadd.
    apply ret_Some in H. injection H as -> -> Hst. subst st5.
    split; [reflexivity |].
    unfold NtfsLookupAdd in Hadd.
    mbind Hadd as ok s0 Hpool. apply lib_call_Some in Hpool as (w & _ & ->).
    set (f' := set_IsDir (IS_DIR i)
                 (set_NtfsInode (Some p) (set_IsRoot root f))) in *.
    assert (Hst' : st' = State w (<[File := f']> (files st))
                               (if ok then LookupListHead st ++ [File]
                                else LookupListHead st)
                               (calls st2 ++ [c_AllocatePool ok])
                               (errlog st2)).
    { destruct ok.
      - injection Hadd as _ <-. unfold called, with_file in *. simpl in *.
        rewrite Hfiles2, Hlist2. now rewrite !insert_insert_eq.
      - apply ret_Some in Hadd. injection Hadd as _ ->.
        unfold called, with_file in *. simpl in *.
        rewrite Hfiles2, Hlist2. now rewrite !insert_insert_eq. }
    exists f'. rewrite Hst'. simpl.
    split; [reflexivity |]. split; [reflexivity |]. split; [reflexivity |].
    split; [reflexivity |].
    exists ok, (calls st2). split; reflexivity.
  - mbind H as e s0 He. apply get_errno_Some in He as [-> ->].
    apply ret_Some in H. injection H as -> -> ->.
    split; [reflexivity |].
    exists (set_NtfsInode None (set_IsRoot root f)).
    split.
    { simpl. rewrite Hfiles2. simpl. now rewrite insert_insert_eq. }
    split; [reflexivity |]. split; [reflexivity |].
    simpl. split; [reflexivity | exact Hlist2].
Qed.

Lemma open_dirname_inodes (File : addr) (r : option addr)
      (st st' : state V) :
  open_dirname File st = Some (r, st') ->
  LookupListHead st' = LookupListHead st /\
  forall G g', files st' !! G = Some g' ->
               exists g, files st !! G = Some g /\
                         NtfsInode g' = NtfsInode g.
Proof.
  unfold open_dirname. intros H.
  mbind H as u st1 Hp.
  apply poke_before_BaseName_Some in Hp as (f & i & Hf & _ & _ & ->).
  mbind H as f1 s0 Hg. apply File_get_Some in Hg as [_ ->].
  mbind H as dir_ni st2 Ho.
  apply NtfsOpenInodeFromPath_frame in Ho as (Hfiles & Hlist & _).
  mbind H as u' st3 Hp'.
  apply poke_before_BaseName_Some in Hp' as (f2 & i2 & Hf2 & _ & _ & ->).
  mret H. simpl. split; [exact Hlist |].
  intros G g' Hg'.
  apply lookup_insert_Some in Hg' as [[<- <-] | [Hne Hg']].
  - rewrite Hfiles, with_file_lookup in Hf2. injection Hf2 as <-.
    exists f. split; [exact Hf | reflexivity].
  - rewrite Hfiles in Hg'. unfold with_file in Hg'. simpl in Hg'.
    rewrite lookup_insert_ne in Hg' by assumption. eauto.
Qed.

(** What NtfsCreateFile does after the directory is known changes
    neither the file instances nor the lookup list unless it succeeds. *)
Lemma NtfsCreateFile_body_error (File : addr) (dir_ni ni : option addr)
      (Status : EFI_STATUS) (st st' : state V) :
  NtfsCreateFile_body File dir_ni st = Some ((Status, ni), st') ->
  EFI_ERROR Status = true ->
  files st' = files st /\ LookupListHead st' = LookupListHead st.
Proof.
  intros H Herr. unfold NtfsCreateFile_body in H.
  destruct dir_ni as [d|].
  2:{ mbind H as s s0 Hs. apply errno_status_Some in Hs as [_ ->].
      mret H. auto. }
  mbind H as di s0 Hg. apply ni_get_Some in Hg as (q & _ & _ & ->).
  destruct (mft_no di =? FILE_Extend); [mret H; auto |].
  mbind H as f s0 Hg. apply File_get_Some in Hg as [_ ->].
  mbind H as conv st1 Hconv. destruct conv as [sz basename].
  apply to_utf8_frame in Hconv as (Hf1 & Hl1 & _).
  destruct (sz <=? 0).
  { mbind H as s s0 Hs. apply errno_status_Some in Hs as [_ ->].
    mret H. auto. }
  mbind H as found st2 Hfind. apply lib_call_Some in Hfind as (w2 & _ & ->).
  assert (Hfinish : forall (n : option addr) (s s' : state V)
                           (r : EFI_STATUS * option addr),
             (let* i := ni_get n in
              lib_call (ntfs_inode_update_mbsname (Some d) basename (mft_no i))
                       (fun _ => c_update_mbsname (Some d) basename
                                                  (mft_no i));;
              update_times n NTFS_UPDATE_MCTIME;;
              File_set File (set_NtfsInode n);;
              NtfsLookupAdd File;;
              ret (EFI_SUCCESS, n)) s = Some (r, s') ->
             r.1 = EFI_SUCCESS).
  { intros n s s' r Hrun.
    mbind Hrun as i s0 Hg. mbind Hrun as u1 s1 H1. mbind Hrun as u2 s2 H2.
    mbind Hrun as u3 s3 H3. mbind Hrun as u4 s4 H4.
    apply ret_Some in Hrun. injection Hrun as -> _. reflexivity. }
  destruct found as [n|].
  - mbind H as i s0 Hg. apply ni_get_Some in Hg as (q' & _ & _ & ->).
    match type of H with (if ?c then _ else _) _ = _ => destruct c end.
    + mret H. simpl. auto.
    + apply Hfinish in H. simpl in H. subst Status. discriminate.
  - mbind H as created st3 Hcreate.
    apply lib_call_Some in Hcreate as (w3 & _ & ->).
    destruct created as [n|].
    + exfalso. mbind H as i s0 Hg. mbind H as u s1 Hset.
      apply Hfinish in H. simpl in H. subst Status. discriminate.
    + mbind H as s s0 Hs. apply errno_status_Some in Hs as [_ ->].
      mret H. simpl. auto.
Qed.

(** X20. An NtfsCreateFile that returns an error registers nothing:
    the lookup list is as it was, the instance it was called with is
    the one it returns, and that instance, which had no inode, has
    none. *)
Theorem NtfsCreateFile_error (File R : addr) (f : EFI_NTFS_FILE)
        (Status : EFI_STATUS) (st st' : state V) :
  files st !! File = Some f ->
  NtfsInode f = None ->
  NtfsCreateFile File st = Some ((Status, R), st') ->
  EFI_ERROR Status = true ->
  R = File /\ LookupListHead st' = LookupListHead st /\
  exists f', files st' !! File = Some f' /\ NtfsInode f' = None.
Proof.
  intros Hf Hnull H Herr. unfold NtfsCreateFile in H.
  mbind H as found s0 Hl.
  apply NtfsLookupPath_Some in Hl as (f0 & Hf0 & Hl & ->).
  destruct found as [X|].
  { mbind H as xf s0 Hg. apply File_get_Some in Hg as [_ ->].
    mbind H as fp s0 Hg. apply File_get_Some in Hg as [_ ->].
    destruct (negb (IsDir xf =? IsDir fp)).
    - mret H. eauto.
    - exfalso. mbind H as u s0 Hfree. mret H. discriminate. }
  mbind H as f1 s0 Hg. apply File_get_Some in Hg as [_ ->].
  mbind H as forbidden st1 Hforb.
  apply lib_call_Some in Hforb as (w1 & _ & ->).
  destruct forbidden.
  { mret H. simpl. eauto. }
  mbind H as Parent st2 HP.
  apply NtfsLookupParent_state in HP as (_ & _ & _ & Hl2 & Hino2).
  mbind H as dir_ni st3 Hdir.
  assert (H3 : LookupListHead st3 = LookupListHead st2 /\
               forall G g', files st3 !! G = Some g' ->
                            exists g, files st2 !! G = Some g /\
                                      NtfsInode g' = NtfsInode g).
  { destruct Parent as [P|].
    - mbind Hdir as pf s0 Hg. apply File_get_Some in Hg as [_ ->].
      mret Hdir. eauto.
    - now apply open_dirname_inodes in Hdir. }
  destruct H3 as [Hl3 Hino3].
  mbind H as res st4 Hbody. destruct res as [S ni].
  mbind H as u st5 Hout.
  mbind H as u' st6 Hfail.
  apply ret_Some in H. injection H as -> -> Hst. subst st6.
  apply (NtfsCreateFile_body_error File dir_ni ni S st3 st4 Hbody) in Herr
    as Hbody'.
  destruct Hbody' as [Hf4 Hl4].
  assert (H5 : files st5 = files st4 /\
               LookupListHead st5 = LookupListHead st4).
  { destruct Parent as [P|].
    - mret Hout. auto.
    - apply inode_close_Some in Hout as (z & w & _ & ->). auto. }
  destruct H5 as [Hf5 Hl5].
  rewrite Herr in Hfail.
  mbind Hfail as u2 st7 Hclose.
  apply inode_close_Some in Hclose as (z & w & _ & ->).
  apply File_set_Some in Hfail as (f' & _ & ->).
  split; [reflexivity |].
  split; [simpl; now rewrite Hl5, Hl4, Hl3, Hl2 |].
  exists (set_NtfsInode None f'). split; [apply with_file_lookup |].
  reflexivity.
Qed.
End OpenCreate.

Lemma NtfsOpenFile_new_witness :
  exists st' f',
    @NtfsOpenFile errno_glibc _ _ 1%N st_open_twice =
    Some ((EFI_SUCCESS, 1%N), st') /\
    files st' = <[1%N := f']> (files st_open_twice) /\
    LookupListHead st' = [1%N].
Proof.
  destruct (@NtfsOpenFile errno_glibc _ _ 1%N st_open_twice)
    as [[[Status R] st']|] eqn:Hrun; [| vm_compute in Hrun; discriminate].
  destruct (@NtfsOpenFile_new errno_glibc _ _ 1%N R (new_file "/a" 0) Status
              st_open_twice st' eq_refl eq_refl Hrun)
    as (-> & f' & Hfiles & _).
  assert (HS : Status = EFI_SUCCESS /\ LookupListHead st' = [1%N]).
  { vm_compute in Hrun. injection Hrun as <- <-. split; reflexivity. }
  destruct HS as [-> Hlist].
  exists st', f'. split; [reflexivity |]. split; [exact Hfiles | exact Hlist].
Defined.

Lemma NtfsCreateFile_error_witness :
  exists st' f',
    @NtfsCreateFile errno_glibc _ _ 1%N
      (mounted [(1%N, new_file "/a" 0)]
               [r_inode (dir_inode 5); r_fail 2; r_fail 28]) =
    Some ((EFI_VOLUME_FULL, 1%N), st') /\
    LookupListHead st' = [] /\
    files st' !! 1%N = Some f' /\ NtfsInode f' = None.
Proof.
  set (st := mounted [(1%N, new_file "/a" 0)]
                     [r_inode (dir_inode 5); r_fail 2; r_fail 28]).
  destruct (@NtfsCreateFile errno_glibc _ _ 1%N st)
    as [[[Status R] st']|] eqn:Hrun; [| vm_compute in Hrun; discriminate].
  assert (HS : Status = EFI_VOLUME_FULL /\ R = 1%N).
  { vm_compute in Hrun. injection Hrun as <- <- _. split; reflexivity. }
  destruct HS as [-> ->].
  destruct (@NtfsCreateFile_error errno_glibc _ _ 1%N 1%N (new_file "/a" 0)
              EFI_VOLUME_FULL st st' eq_refl eq_refl Hrun eq_refl)
    as (_ & Hlist & f' & Hf' & Hnull).
  exists st', f'. split; [reflexivity |]. split; [exact Hlist |].
  split; [exact Hf' | exact Hnull].
Defined.
